(** * Verification decision engine of the attendance system

    A shallow embedding of the decision code of
    [backend/app/services/face_recognition.py],
    [backend/app/services/network_verification.py] and
    [backend/app/routers/attendance.py], with the properties the
    specification states about it.

    Numbers.  Python floats are idealised as exact numbers: real numbers
    ([R]) where the code takes square roots (vector norms, standard
    deviation) or consumes such values, rationals ([Q]) where it only adds,
    multiplies, divides and compares (the liveness rule).  Rounding, NaN and
    infinities are outside this idealisation; the module [Binary64] repeats
    the similarity analysis on binary64 numbers, for the statements that
    rounding decides.  Timestamps are integers (microseconds).

    Exceptions.  A Python function that can raise returns a [result]; the
    [try]/[except] blocks of the source appear as matches on it. *)

From Stdlib Require Import Reals Lra Lia ZArith QArith Qminmax List Bool String Ascii.
From Stdlib Require Import Permutation.
From Stdlib Require Floats.
Import ListNotations.

Set Implicit Arguments.

(** ** Exceptions *)

Inductive exn : Type :=
| ValueError (what : string)
| TypeError (what : string)
| HTTPException (status : Z) (detail : string)
| OtherError (what : string).

Inductive result (A : Type) : Type :=
| Ok (a : A)
| Raise (e : exn).

Arguments Ok {A} a.
Arguments Raise {A} e.

Definition bind {A B : Type} (m : result A) (k : A -> result B) : result B :=
  match m with
  | Ok a => k a
  | Raise e => Raise e
  end.

Notation "x <- m ;; k" := (bind m (fun x => k))
  (at level 61, m at next level, right associativity).

(** A list comprehension whose body can raise: the first exception, in
    iteration order, ends the comprehension. *)
Fixpoint mapM {A B : Type} (f : A -> result B) (l : list A) : result (list B) :=
  match l with
  | [] => Ok []
  | a :: l' => b <- f a ;; bs <- mapM f l' ;; Ok (b :: bs)
  end.

(** [[x for x in l if p(x)]] where the condition can raise. *)
Fixpoint filterM {A : Type} (p : A -> result bool) (l : list A) : result (list A) :=
  match l with
  | [] => Ok []
  | a :: l' =>
      b <- p a ;; r <- filterM p l' ;; Ok (if b then a :: r else r)
  end.

(** ** Comparisons and NumPy reductions on reals *)

Module Num.

Open Scope R_scope.

Definition Rleb (x y : R) : bool := if Rle_dec x y then true else false.
Definition Rltb (x y : R) : bool := if Rlt_dec x y then true else false.
(** Python's [x >= y] and [x > y]. *)
Definition Rgeb (x y : R) : bool := Rleb y x.
Definition Rgtb (x y : R) : bool := Rltb y x.

(** [sum(l)] *)
Definition Rsum (l : list R) : R := fold_right Rplus 0 l.

(** [np.mean(l)]: the sum over the number of elements. *)
Definition mean (l : list R) : R := Rsum l / INR (List.length l).

(** [np.var(l)]: population variance (ddof = 0). *)
Definition var (l : list R) : R :=
  mean (map (fun x => (x - mean l) * (x - mean l)) l).

(** [np.std(l)] *)
Definition std (l : list R) : R := sqrt (var l).

(** [np.max] and [np.min] of a non-empty list given as head and tail. *)
Definition maxl (x : R) (l : list R) : R := fold_left Rmax l x.
Definition minl (x : R) (l : list R) : R := fold_left Rmin l x.

End Num.

(** ** [FaceRecognitionService] (services/face_recognition.py) *)

Module FaceRecognitionService.

Import Num.
Open Scope R_scope.

(** The attributes [__init__] sets that the decision code reads. *)
Record service : Type := {
  threshold : R;
  testing_mode : bool;
  min_acceptable_threshold : R;
  quality_threshold : R;
  consensus_threshold : R;
  max_embedding_variance : R;
  high_similarity_override : R
}.

(** [FaceRecognitionService()], the global instance. *)
Definition init : service := {|
  threshold := 65 / 100;
  testing_mode := false;
  min_acceptable_threshold := 55 / 100;
  quality_threshold := 6 / 10;
  consensus_threshold := 65 / 100;
  max_embedding_variance := 2 / 10;
  high_similarity_override := 9 / 10
|}.

Definition embedding : Type := list R.

(** [np.dot(a, b)] on one-dimensional arrays: raises [ValueError] when the
    shapes differ. *)
Fixpoint dot (a b : embedding) : result R :=
  match a, b with
  | [], [] => Ok 0
  | x :: a', y :: b' => d <- dot a' b' ;; Ok (x * y + d)
  | _, _ => Raise (ValueError "shapes not aligned")
  end.

(** [np.linalg.norm(a)] *)
Definition norm (a : embedding) : R := sqrt (Rsum (map (fun x => x * x) a)).

(** [a - b] on arrays.  It is only reached after [np.dot(a, b)] succeeded,
    that is on arrays of one shape. *)
Fixpoint sub (a b : embedding) : result embedding :=
  match a, b with
  | [], [] => Ok []
  | x :: a', y :: b' => d <- sub a' b' ;; Ok ((x - y) :: d)
  | _, _ => Raise (ValueError "operands could not be broadcast together")
  end.

(** One iteration of the loop over the stored embeddings: the pair appended
    to [cosine_similarities] and [euclidean_similarities]. *)
Definition compare_one (current_emb stored_emb : embedding) : result (R * R) :=
  dot_product <- dot current_emb stored_emb ;;
  let norm_current := norm current_emb in
  let norm_stored := norm stored_emb in
  let cosine :=
    if Rgtb norm_current 0 && Rgtb norm_stored 0
    then Rmax 0 (dot_product / (norm_current * norm_stored))
    else 0 in
  diff <- sub current_emb stored_emb ;;
  let euclidean_dist := norm diff in
  let euclidean_sim := 1 / (1 + euclidean_dist) in
  Ok (cosine, euclidean_sim).

(** The dictionary [_advanced_similarity_analysis] returns. *)
Record analysis : Type := {
  cosine_similarity : R;
  cosine_mean : R;
  cosine_std : R;
  cosine_min : R;
  cosine_range : R;
  euclidean_mean : R;
  consensus_score : R;
  variance_penalty : R;
  range_penalty : R;
  final_confidence : R
}.

(** The statistical part, from the two lists the loop built. *)
Definition statistics (cosine_similarities euclidean_similarities : list R)
  : result analysis :=
  match cosine_similarities with
  | [] => Raise (ValueError "zero-size array to reduction operation maximum")
  | c :: cs =>
      let cosine_mean := mean cosine_similarities in
      let cosine_std := std cosine_similarities in
      let cosine_max := maxl c cs in
      let cosine_min := minl c cs in
      let euclidean_mean := mean euclidean_similarities in
      let consensus_score := cosine_mean * (7 / 10) + euclidean_mean * (3 / 10) in
      let variance_ratio := cosine_std / (cosine_mean + 1 / 100000000) in
      let variance_penalty := Rmin 1 (variance_ratio * 2) in
      let range_check := cosine_max - cosine_min in
      let range_penalty := Rmin 1 (range_check * 3) in
      let final_confidence :=
        consensus_score * (1 - variance_penalty * (3 / 10))
                        * (1 - range_penalty * (2 / 10)) in
      Ok {| cosine_similarity := cosine_max;
            cosine_mean := cosine_mean;
            cosine_std := cosine_std;
            cosine_min := cosine_min;
            cosine_range := range_check;
            euclidean_mean := euclidean_mean;
            consensus_score := consensus_score;
            variance_penalty := variance_penalty;
            range_penalty := range_penalty;
            final_confidence := final_confidence |}
  end.

Definition _advanced_similarity_analysis
  (current_embedding : embedding) (stored_embeddings : list embedding)
  : result analysis :=
  sims <- mapM (compare_one current_embedding) stored_embeddings ;;
  statistics (map fst sims) (map snd sims).

(** *** [verify_faces] *)

(** What [extract_embedding(live_image)] does with the live image: the
    embedding extractor is an external capability. *)
Inductive extraction : Type :=
| Extracted (e : embedding)
| NoFaceDetected
| ExtractionRaises (msg : string).

(** The dictionary of a completed comparison.  [fr_k] is the value under
    key ["k"]; [fr_security_checks] keeps the order of the list
    [security_checks]. *)
Record comparison : Type := {
  fr_match : bool;
  fr_confidence : R;
  fr_raw_similarity : R;
  fr_consensus_score : R;
  fr_threshold : R;
  fr_security_checks : list (string * bool);
  fr_variance_penalty : R;
  fr_range_penalty : R;
  fr_total_embeddings_compared : nat;
  fr_high_similarity_override : bool;
  fr_effective_threshold : R;
  fr_balanced_security_mode : bool
}.

(** The three shapes of dictionary [verify_faces] returns. *)
Inductive face_result : Type :=
| TestingResult (threshold : R)
    (* {"match": True, "confidence": 0.85, "threshold": ...} *)
| ErrorResult (error : string)
    (* {"match": False, "confidence": 0.0, "error": ...} *)
| Compared (c : comparison).

(** [face_result.get("match", False)] *)
Definition get_match (r : face_result) : bool :=
  match r with
  | TestingResult _ => true
  | ErrorResult _ => false
  | Compared c => fr_match c
  end.

(** [face_result.get('confidence', 0)] *)
Definition get_confidence (r : face_result) : R :=
  match r with
  | TestingResult _ => 85 / 100
  | ErrorResult _ => 0
  | Compared c => fr_confidence c
  end.

(** [face_result.get('raw_similarity', 0)] *)
Definition get_raw_similarity (r : face_result) : R :=
  match r with
  | Compared c => fr_raw_similarity c
  | _ => 0
  end.

(** [face_result.get('threshold', 0.65)] *)
Definition get_threshold (r : face_result) : R :=
  match r with
  | TestingResult t => t
  | ErrorResult _ => 65 / 100
  | Compared c => fr_threshold c
  end.

Definition critical_checks : list string :=
  ["Primary threshold"; "Minimum baseline"]%string.

(** [check[0] in critical_checks] *)
Definition is_critical (name : string) : bool :=
  existsb (String.eqb name) critical_checks.

(** The five checks and the decision taken from them, for the result of the
    similarity analysis (the body of the inner [try] after the call of
    [_advanced_similarity_analysis]). *)
Definition security_validation (self : service) (analysis_result : analysis)
  (total : nat) : comparison :=
  let best_similarity := cosine_similarity analysis_result in
  let final_confidence := final_confidence analysis_result in
  let consensus_score := consensus_score analysis_result in
  let variance_penalty := variance_penalty analysis_result in
  let range_penalty := range_penalty analysis_result in
  let high_similarity_override :=
    Rgeb best_similarity (high_similarity_override self) in
  let effective_threshold :=
    if high_similarity_override
    then threshold self * (85 / 100) else threshold self in
  let threshold_pass := Rgeb final_confidence effective_threshold in
  let effective_consensus :=
    if high_similarity_override
    then consensus_threshold self * (9 / 10) else consensus_threshold self in
  let consensus_pass := Rgeb consensus_score effective_consensus in
  let variance_threshold := if high_similarity_override then 6 / 10 else 5 / 10 in
  let variance_pass := Rltb variance_penalty variance_threshold in
  let range_threshold := if high_similarity_override then 4 / 10 else 3 / 10 in
  let range_pass := Rltb range_penalty range_threshold in
  let baseline_pass := Rgeb best_similarity (min_acceptable_threshold self) in
  let security_checks :=
    [("Primary threshold", threshold_pass);
     ("Consensus threshold", consensus_pass);
     ("Variance check", variance_pass);
     ("Range consistency", range_pass);
     ("Minimum baseline", baseline_pass)]%string in
  let critical_pass :=
    forallb snd (filter (fun check => is_critical (fst check)) security_checks) in
  let all_checks_pass :=
    if high_similarity_override
    then critical_pass
    else
      let passed_checks := List.length (filter snd security_checks) in
      (4 <=? passed_checks)%nat in
  let best_match := if all_checks_pass then true else false in
  {| fr_match := best_match;
     fr_confidence := final_confidence;
     fr_raw_similarity := best_similarity;
     fr_consensus_score := consensus_score;
     fr_threshold := threshold self;
     fr_security_checks := security_checks;
     fr_variance_penalty := variance_penalty;
     fr_range_penalty := range_penalty;
     fr_total_embeddings_compared := total;
     fr_high_similarity_override := high_similarity_override;
     fr_effective_threshold := effective_threshold;
     fr_balanced_security_mode := true |}.

Definition verify_faces (self : service) (live_image : extraction)
  (stored_embeddings : list embedding) : face_result :=
  if testing_mode self then TestingResult (threshold self)
  else
    match stored_embeddings with
    | [] => ErrorResult "No stored embeddings provided"
    | _ :: _ =>
        match live_image with
        | NoFaceDetected => ErrorResult "No face detected in live image"
        | ExtractionRaises msg => ErrorResult ("Failed to process live image: " ++ msg)
        | Extracted live_embedding =>
            match _advanced_similarity_analysis live_embedding stored_embeddings with
            | Ok analysis_result =>
                Compared (security_validation self analysis_result
                            (List.length stored_embeddings))
            | Raise _ => ErrorResult "Comparison failed"
            end
        end
    end.

(** *** [detect_liveness] *)

(** What decoding and face detection give for one element of
    [image_sequence]: [_decode_base64_image] returns [None], or the cascade
    returns the rectangles [(x, y, w, h)] of the faces it found. *)
Inductive frame : Type :=
| Undecodable
| Decoded (faces : list (Z * Z * Z * Z)).

Definition Qsum (l : list Q) : Q := fold_right Qplus 0%Q l.
Definition Qmean (l : list Q) : Q := (Qsum l / inject_Z (Z.of_nat (List.length l)))%Q.
(** [np.var] of the face areas. *)
Definition Qvar (l : list Q) : Q :=
  Qmean (map (fun x => ((x - Qmean l) * (x - Qmean l))%Q) l).
Definition Qgeb (x y : Q) : bool := Qle_bool y x.
Definition Qgtb (x y : Q) : bool := negb (Qle_bool x y).

Record liveness_evaluation : Type := {
  lv_liveness_passed : bool;
  lv_face_detection_rate : Q;
  lv_movement_detected : bool;
  lv_frames_processed : nat;
  lv_face_areas_variance : Q
}.

Inductive liveness_result : Type :=
| LivenessBypassed
    (* {"liveness_passed": True, "confidence": 0.9, "reason": ...} *)
| InsufficientFrames
    (* {"liveness_passed": False, "reason": ...} *)
| Evaluated (e : liveness_evaluation)
| NoSequenceProvided.
    (* the router's default, {"liveness_passed": True, "reason": ...} *)

(** [liveness_result.get("liveness_passed", False)] *)
Definition get_liveness_passed (r : liveness_result) : bool :=
  match r with
  | LivenessBypassed => true
  | InsufficientFrames => false
  | Evaluated e => lv_liveness_passed e
  | NoSequenceProvided => true
  end.

(** The loop over the frames: [(face_detected_count, face_areas)]. *)
Fixpoint scan_frames (image_sequence : list frame) (face_detected_count : nat)
  (face_areas : list Q) : nat * list Q :=
  match image_sequence with
  | [] => (face_detected_count, face_areas)
  | Undecodable :: rest => scan_frames rest face_detected_count face_areas
  | Decoded [] :: rest => scan_frames rest face_detected_count face_areas
  | Decoded ((_, _, w, h) :: _) :: rest =>
      scan_frames rest (S face_detected_count)
        (face_areas ++ [inject_Z (w * h)])
  end.

Definition detect_liveness (self : service) (image_sequence : list frame)
  : liveness_result :=
  if testing_mode self then LivenessBypassed
  else if (List.length image_sequence <? 3)%nat then InsufficientFrames
  else
    let '(face_detected_count, face_areas) := scan_frames image_sequence 0 [] in
    let face_detection_rate :=
      (inject_Z (Z.of_nat face_detected_count)
       / inject_Z (Z.of_nat (List.length image_sequence)))%Q in
    let movement_detected :=
      if (1 <? List.length face_areas)%nat
      then Qgtb (Qvar face_areas) 100
      else false in
    let liveness_passed :=
      Qgeb face_detection_rate (7 # 10)
      && (movement_detected || (List.length image_sequence <=? 5)%nat) in
    Evaluated {|
      lv_liveness_passed := liveness_passed;
      lv_face_detection_rate := face_detection_rate;
      lv_movement_detected := movement_detected;
      lv_frames_processed := List.length image_sequence;
      lv_face_areas_variance :=
        match face_areas with [] => 0%Q | _ :: _ => Qvar face_areas end |}.

(** *** [analyze_temporal_security_patterns] *)

(** What [datetime.fromisoformat] makes of the value stored under
    ["timestamp"]: a naive or a timezone-aware datetime (microseconds since
    the epoch), or an exception.  [now = datetime.utcnow()] is naive, and
    subtracting an aware datetime from it raises [TypeError]. *)
Inductive timestamp_value : Type :=
| IsoNaive (t : Z)
| IsoAware (t : Z)
| IsoMalformed.

(** A row of the attempt history.  [None] is an absent key;
    [confidence_score] is the stored number; [success] is the truth value of
    what is stored. *)
Record attempt : Type := {
  timestamp : option timestamp_value;
  confidence_score : option R;
  success : option bool
}.

(** [(now - datetime.fromisoformat(attempt.get('timestamp', now.isoformat())))]
    in microseconds. *)
Definition age (now : Z) (a : attempt) : result Z :=
  match timestamp a with
  | None => Ok (now - now)%Z
  | Some (IsoNaive t) => Ok (now - t)%Z
  | Some (IsoAware _) =>
      Raise (TypeError "can't subtract offset-naive and offset-aware datetimes")
  | Some IsoMalformed => Raise (ValueError "Invalid isoformat string")
  end.

(** [... .total_seconds() < seconds] *)
Definition within (now : Z) (seconds : Z) (a : attempt) : result bool :=
  d <- age now a ;; Ok (d <? seconds * 1000000)%Z.

(** [datetime.fromisoformat(a.get('timestamp', now.isoformat()))] *)
Definition parsed_time (now : Z) (a : attempt) : result Z :=
  match timestamp a with
  | None => Ok now
  | Some (IsoNaive t) => Ok t
  | Some (IsoAware t) => Ok t
  | Some IsoMalformed => Raise (ValueError "Invalid isoformat string")
  end.

Record pattern : Type := {
  ptype : string;
  severity : string;
  recommendation : string
}.

Record temporal_result : Type := {
  risk_level : string;
  suspicious_patterns : list pattern;
  total_attempts_24h : nat;
  total_attempts_1h : nat;
  should_block : bool;
  should_require_additional_verification : bool;
  security_recommendation : string
}.

(** [attempt.get('confidence_score')] is truthy. *)
Definition truthy_confidence (a : attempt) : bool :=
  match confidence_score a with
  | None => false
  | Some c => if Req_dec_T c 0 then false else true
  end.

(** [float(attempt.get('confidence_score', 0))] *)
Definition confidence_of (a : attempt) : R :=
  match confidence_score a with
  | None => 0
  | Some c => c
  end.

(** [not a.get('success', True)] *)
Definition failed (a : attempt) : bool :=
  match success a with
  | None => false
  | Some b => negb b
  end.

(** [max(l)] on datetimes, for a non-empty list. *)
Definition Zmaxl (x : Z) (l : list Z) : Z := fold_left Z.max l x.

Definition rapid_attempts : pattern :=
  {| ptype := "RAPID_ATTEMPTS"; severity := "HIGH";
     recommendation := "BLOCK_TEMPORARILY" |}.
Definition confidence_variance_pattern : pattern :=
  {| ptype := "CONFIDENCE_VARIANCE"; severity := "MEDIUM";
     recommendation := "REQUIRE_ADDITIONAL_VERIFICATION" |}.
Definition sudden_success_after_failures : pattern :=
  {| ptype := "SUDDEN_SUCCESS_AFTER_FAILURES"; severity := "HIGH";
     recommendation := "REQUIRE_ADDITIONAL_VERIFICATION" |}.

Definition analyze_temporal_security_patterns (now : Z)
  (recent_attempts : list attempt) (current_confidence : R)
  : result temporal_result :=
  recent_24h <- filterM (within now 86400) recent_attempts ;;
  recent_1h <- filterM (within now 3600) recent_attempts ;;
  (* Pattern 1 *)
  let p1 := if (10 <? List.length recent_1h)%nat then [rapid_attempts] else [] in
  (* Pattern 2 *)
  let p2 :=
    if (3 <=? List.length recent_24h)%nat then
      let confidences := map confidence_of (filter truthy_confidence recent_24h) in
      match confidences with
      | [] => []
      | _ :: _ =>
          let avg_confidence := Rsum confidences / INR (List.length confidences) in
          let confidence_variance :=
            Rsum (map (fun c => (c - avg_confidence) ^ 2) confidences)
            / INR (List.length confidences) in
          if Rgtb confidence_variance (1 / 10) && Rltb current_confidence (6 / 10)
          then [confidence_variance_pattern] else []
      end
    else [] in
  (* Pattern 3 *)
  let failed_attempts := filter failed recent_24h in
  p3 <-
    (if (3 <=? List.length failed_attempts)%nat && Rgtb current_confidence (5 / 10)
     then
       times <- mapM (parsed_time now) failed_attempts ;;
       match times with
       | [] => Raise (ValueError "max() arg is an empty sequence")
       | t :: ts =>
           let last_failure_time := Zmaxl t ts in
           let time_since_last_failure := (now - last_failure_time)%Z in
           Ok (if (time_since_last_failure <? 600 * 1000000)%Z
               then [sudden_success_after_failures] else [])
       end
     else Ok []) ;;
  let suspicious_patterns := p1 ++ p2 ++ p3 in
  let risk_level :=
    if existsb (fun p => String.eqb (severity p) "HIGH") suspicious_patterns
    then "HIGH"%string
    else if existsb (fun p => String.eqb (severity p) "MEDIUM") suspicious_patterns
    then "MEDIUM"%string else "LOW"%string in
  let should_block :=
    existsb (fun p => String.eqb (recommendation p) "BLOCK_TEMPORARILY")
      suspicious_patterns in
  let should_require_additional :=
    existsb (fun p => String.eqb (recommendation p) "REQUIRE_ADDITIONAL_VERIFICATION")
      suspicious_patterns in
  Ok {| risk_level := risk_level;
        suspicious_patterns := suspicious_patterns;
        total_attempts_24h := List.length recent_24h;
        total_attempts_1h := List.length recent_1h;
        should_block := should_block;
        should_require_additional_verification := should_require_additional;
        security_recommendation :=
          if should_block then "BLOCK"%string
          else if should_require_additional then "ADDITIONAL_VERIFICATION"%string
          else "ALLOW"%string |}.

(** *** [_cosine_similarity] *)

(** The helper catches every exception and answers 0.0. *)
Definition _cosine_similarity (embedding1 embedding2 : embedding) : R :=
  match dot embedding1 embedding2 with
  | Ok dot_product =>
      let norm1 := norm embedding1 in
      let norm2 := norm embedding2 in
      if (if Req_dec_T norm1 0 then true else false)
         || (if Req_dec_T norm2 0 then true else false)
      then 0
      else dot_product / (norm1 * norm2)
  | Raise _ => 0
  end.

(** *** [check_face_uniqueness_across_users] *)

Record violation : Type := {
  other_user_id : string;
  embedding_index : nat;
  similarity : R;
  violation_severity : string
}.

Record suspicion : Type := {
  suspect_user_id : string;
  suspect_embedding_index : nat;
  suspect_similarity : R
}.

(** The body of the inner [try] up to the tests on [similarity]: the
    similarity, when the shapes agree and both norms are positive.  A shape
    mismatch raises inside the [try] and the loop continues. *)
Definition cross_similarity (current_emb other_embedding : embedding) : option R :=
  match dot current_emb other_embedding with
  | Ok dot_product =>
      let norm_current := norm current_emb in
      let norm_other := norm other_embedding in
      if Rgtb norm_current 0 && Rgtb norm_other 0
      then Some (dot_product / (norm_current * norm_other))
      else None
  | Raise _ => None
  end.

(** The loop over the embeddings of one other user, from index [i] on. *)
Fixpoint scan_user (current_emb : embedding) (user_id : string) (i : nat)
  (user_embeddings : list embedding)
  (found : list violation * list suspicion) : list violation * list suspicion :=
  match user_embeddings with
  | [] => found
  | other_embedding :: rest =>
      let found :=
        match cross_similarity current_emb other_embedding with
        | Some s =>
            if Rgtb s (8 / 10) then
              (fst found ++
                 [{| other_user_id := user_id; embedding_index := i;
                     similarity := s;
                     violation_severity :=
                       if Rgtb s (9 / 10) then "CRITICAL" else "HIGH" |}],
               snd found)
            else if Rgtb s (6 / 10) then
              (fst found,
               snd found ++
                 [{| suspect_user_id := user_id; suspect_embedding_index := i;
                     suspect_similarity := s |}])
            else found
        | None => found
        end in
      scan_user current_emb user_id (S i) rest found
  end.

(** The loop over [all_user_embeddings.items()]. *)
Fixpoint scan_users (current_user_id : string) (current_emb : embedding)
  (items : list (string * list embedding))
  (found : list violation * list suspicion) : list violation * list suspicion :=
  match items with
  | [] => found
  | (user_id, user_embeddings) :: rest =>
      if String.eqb user_id current_user_id
      then scan_users current_user_id current_emb rest found
      else
        scan_users current_user_id current_emb rest
          (scan_user current_emb user_id 0 user_embeddings found)
  end.

Record uniqueness_result : Type := {
  is_unique : bool;
  uniqueness_risk_level : string;
  cross_user_violations : list violation;
  suspicious_similarities : list suspicion;
  total_users_checked : Z;
  uniqueness_recommendation : string
}.

(** The dictionary [all_user_embeddings] is given by its items, in
    iteration order. *)
Definition check_face_uniqueness_across_users (current_user_id : string)
  (live_embedding : embedding)
  (all_user_embeddings : list (string * list embedding)) : uniqueness_result :=
  let '(cross_user_violations, suspicious_similarities) :=
    scan_users current_user_id live_embedding all_user_embeddings ([], []) in
  let is_unique := (List.length cross_user_violations =? 0)%nat in
  let risk_level :=
    if (0 <? List.length cross_user_violations)%nat then
      match
        filter (fun v => String.eqb (violation_severity v) "CRITICAL")
          cross_user_violations
      with
      | _ :: _ => "CRITICAL"%string
      | [] => "HIGH"%string
      end
    else if (2 <? List.length suspicious_similarities)%nat then "MEDIUM"%string
    else "LOW"%string in
  {| is_unique := is_unique;
     uniqueness_risk_level := risk_level;
     cross_user_violations := cross_user_violations;
     suspicious_similarities := suspicious_similarities;
     total_users_checked := (Z.of_nat (List.length all_user_embeddings) - 1)%Z;
     uniqueness_recommendation :=
       if negb is_unique then "BLOCK"%string else "ALLOW"%string |}.

(** *** [_detect_blink] *)

Definition _detect_blink (eye_aspect_ratios : list R) : bool :=
  if (List.length eye_aspect_ratios <? 3)%nat then true
  else Rgtb (std eye_aspect_ratios) (2 / 100).

(** *** [_assess_image_quality] and [extract_embedding] *)

(** What OpenCV measures on the grayscale image: the variance of the
    Laplacian, the mean and the standard deviation of the pixels, and the
    number of faces the cascade finds. *)
Record measurements : Type := {
  laplacian_var : R;
  mean_brightness : R;
  gray_std : R;
  faces_found : nat
}.

(** The image as the quality assessment meets it: the measurements, or an
    exception from one of the OpenCV calls. *)
Inductive gray_image : Type :=
| Measured (m : measurements)
| MeasurementRaises.

Definition _assess_image_quality (image : gray_image) : R :=
  match image with
  | Measured m =>
      let sharpness_score := Rmin (laplacian_var m / 500) 1 in
      let brightness_score := 1 - Rabs (mean_brightness m - 128) / 128 in
      let contrast_score := Rmin (gray_std m / 128) 1 in
      let face_detection_score :=
        if (0 <? faces_found m)%nat then 1 else 0 in
      sharpness_score * (3 / 10) + brightness_score * (2 / 10)
      + contrast_score * (2 / 10) + face_detection_score * (3 / 10)
  | MeasurementRaises => 5 / 10
  end.

(** What the collaborators of [extract_embedding] answer for one image:
    the decoder ([None]: it cannot decode), the two calls of
    [DeepFace.represent] (the embeddings of the faces found, or an
    exception), and the vector the random generator yields in testing
    mode. *)
Record capture : Type := {
  decoded : option gray_image;
  represent : result (list embedding);
  represent_fallback : result (list embedding);
  random_vector : embedding
}.

Definition extract_embedding (self : service) (image_data : capture)
  : option embedding :=
  if testing_mode self then Some (random_vector image_data)
  else
    match decoded image_data with
    | None => None
    | Some image =>
        let image_quality_score := _assess_image_quality image in
        if Rltb image_quality_score (3 / 10) then None
        else
          match represent image_data with
          | Ok (embedding :: _) => Some embedding
          | Ok [] => None
          | Raise _ =>
              match represent_fallback image_data with
              | Ok (embedding :: _) => Some embedding
              | Ok [] => None
              | Raise _ => None
              end
          end
    end.

(** The call of [extract_embedding] at the head of [verify_faces], and the
    test [live_embedding is None]. *)
Definition live_extraction (self : service) (live_image : capture) : extraction :=
  match extract_embedding self live_image with
  | Some live_embedding => Extracted live_embedding
  | None => NoFaceDetected
  end.

End FaceRecognitionService.

(** ** The similarity analysis in double precision *)

(** [_advanced_similarity_analysis] once more, on IEEE 754 binary64
    numbers, every operation rounded to nearest as Python and NumPy
    perform it.  It marks where the idealisation above and the running
    code part.  One thing is NumPy's choice and not written in the source,
    the order in which a reduction adds: [np.mean] and [np.std] add fewer
    than eight items in index order, and [np.dot] adds the products in an
    order of its BLAS.  The embedding adds in index order and is meant for
    lists of fewer than eight items; the examples use vectors whose
    products and sums of products are exact, for which every order gives
    the same dot product. *)
Module Binary64.

Import PrimFloat.
#[local] Set Warnings "-inexact-float".
#[local] Open Scope float_scope.

Definition embedding : Type := list float.

(** [float(n)] for a length [n]. *)
Fixpoint of_nat (n : nat) : float :=
  match n with
  | O => 0
  | S n' => of_nat n' + 1
  end.

(** The sum of the items, in index order. *)
Definition sum (l : list float) : float := fold_left add l 0.

(** [np.dot(a, b)] on one-dimensional arrays. *)
Fixpoint products (a b : embedding) : result (list float) :=
  match a, b with
  | [], [] => Ok []
  | x :: a', y :: b' => p <- products a' b' ;; Ok (x * y :: p)
  | _, _ => Raise (ValueError "shapes not aligned")
  end.

Definition dot (a b : embedding) : result float :=
  p <- products a b ;; Ok (sum p).

(** [np.linalg.norm(a)] *)
Definition norm (a : embedding) : float := sqrt (sum (map (fun x => x * x) a)).

(** [a - b] on arrays. *)
Fixpoint sub (a b : embedding) : result embedding :=
  match a, b with
  | [], [] => Ok []
  | x :: a', y :: b' => d <- sub a' b' ;; Ok ((x - y) :: d)
  | _, _ => Raise (ValueError "operands could not be broadcast together")
  end.

(** Python's [max(0, x)] and [min(1.0, x)]: the first argument unless the
    second is greater, respectively smaller. *)
Definition max0 (x : float) : float := if ltb 0 x then x else 0.
Definition min1 (x : float) : float := if ltb x 1 then x else 1.

(** One iteration of the loop over the stored embeddings. *)
Definition compare_one (current_emb stored_emb : embedding)
  : result (float * float) :=
  dot_product <- dot current_emb stored_emb ;;
  let norm_current := norm current_emb in
  let norm_stored := norm stored_emb in
  let cosine :=
    if ltb 0 norm_current && ltb 0 norm_stored
    then max0 (dot_product / (norm_current * norm_stored))
    else 0 in
  diff <- sub current_emb stored_emb ;;
  let euclidean_dist := norm diff in
  let euclidean_sim := 1 / (1 + euclidean_dist) in
  Ok (cosine, euclidean_sim).

(** [np.mean(l)] *)
Definition mean (l : list float) : float := sum l / of_nat (List.length l).

(** [np.std(l)]: the deviations from the mean, squared, averaged, and the
    square root of that. *)
Definition std (l : list float) : float :=
  let arrmean := mean l in
  sqrt (mean (map (fun x => (x - arrmean) * (x - arrmean)) l)).

(** [np.max] and [np.min] of a non-empty list given as head and tail.  The
    items the analysis passes are results of [max0], none of which is a
    NaN. *)
Definition maxl (x : float) (l : list float) : float :=
  fold_left (fun m y => if ltb m y then y else m) l x.
Definition minl (x : float) (l : list float) : float :=
  fold_left (fun m y => if ltb y m then y else m) l x.

(** The dictionary [_advanced_similarity_analysis] returns. *)
Record analysis : Type := {
  cosine_similarity : float;
  cosine_mean : float;
  cosine_std : float;
  cosine_min : float;
  cosine_range : float;
  euclidean_mean : float;
  consensus_score : float;
  variance_penalty : float;
  range_penalty : float;
  final_confidence : float
}.

Definition statistics (cosine_similarities euclidean_similarities : list float)
  : result analysis :=
  match cosine_similarities with
  | [] => Raise (ValueError "zero-size array to reduction operation maximum")
  | c :: cs =>
      let cosine_mean := mean cosine_similarities in
      let cosine_std := std cosine_similarities in
      let cosine_max := maxl c cs in
      let cosine_min := minl c cs in
      let euclidean_mean := mean euclidean_similarities in
      let consensus_score := cosine_mean * 0.7 + euclidean_mean * 0.3 in
      let variance_ratio := cosine_std / (cosine_mean + 1e-8) in
      let variance_penalty := min1 (variance_ratio * 2) in
      let range_check := cosine_max - cosine_min in
      let range_penalty := min1 (range_check * 3) in
      let final_confidence :=
        consensus_score * (1 - variance_penalty * 0.3)
                        * (1 - range_penalty * 0.2) in
      Ok {| cosine_similarity := cosine_max;
            cosine_mean := cosine_mean;
            cosine_std := cosine_std;
            cosine_min := cosine_min;
            cosine_range := range_check;
            euclidean_mean := euclidean_mean;
            consensus_score := consensus_score;
            variance_penalty := variance_penalty;
            range_penalty := range_penalty;
            final_confidence := final_confidence |}
  end.

Definition _advanced_similarity_analysis
  (current_embedding : embedding) (stored_embeddings : list embedding)
  : result analysis :=
  sims <- mapM (compare_one current_embedding) stored_embeddings ;;
  statistics (map fst sims) (map snd sims).

End Binary64.

(** ** [NetworkVerificationService] (services/network_verification.py) *)

Module NetworkVerificationService.

Open Scope string_scope.

(** *** Strings (SSIDs and addresses are taken to be ASCII) *)

Definition lower_char (c : ascii) : ascii :=
  let n := nat_of_ascii c in
  if ((65 <=? n) && (n <=? 90))%nat then ascii_of_nat (n + 32) else c.

(** [s.lower()] *)
Fixpoint lower (s : string) : string :=
  match s with
  | EmptyString => EmptyString
  | String c s' => String (lower_char c) (lower s')
  end.

Definition is_space (c : ascii) : bool :=
  let n := nat_of_ascii c in
  ((9 <=? n) && (n <=? 13) || (28 <=? n) && (n <=? 32))%nat.

Fixpoint lstrip (s : string) : string :=
  match s with
  | String c s' => if is_space c then lstrip s' else s
  | EmptyString => EmptyString
  end.

Fixpoint rev_string (s acc : string) : string :=
  match s with
  | EmptyString => acc
  | String c s' => rev_string s' (String c acc)
  end.

(** [s.strip()] *)
Definition strip (s : string) : string :=
  rev_string (lstrip (rev_string (lstrip s) "")) "".

(** [s.isascii()] *)
Fixpoint isascii (s : string) : bool :=
  match s with
  | EmptyString => true
  | String c s' => (nat_of_ascii c <? 128)%nat && isascii s'
  end.

(** [pattern in s] *)
Fixpoint contains (pattern s : string) : bool :=
  String.prefix pattern s ||
  match s with
  | EmptyString => false
  | String _ s' => contains pattern s'
  end.

(** The part of [s] before its first newline. *)
Fixpoint first_line (s : string) : string :=
  match s with
  | EmptyString => EmptyString
  | String c s' =>
      if Ascii.eqb c "010"%char then EmptyString else String c (first_line s')
  end.

(** [re.match(r".*word.*", s)]: [.] matches everything but a newline, so
    [word] has to occur before the first newline of [s]. *)
Definition re_match_anywhere (word s : string) : bool :=
  contains word (first_line s).

(** *** IPv4 addresses and networks *)

(** [a.b.c.d] as an integer. *)
Definition ipv4 (a b c d : N) : N :=
  (((a * 256 + b) * 256 + c) * 256 + d)%N.

Record ipv4_network : Type := {
  network_address : N;
  prefixlen : N
}.

Definition netmask (net : ipv4_network) : N :=
  N.shiftl (N.ones (prefixlen net)) (32 - prefixlen net).

(** [ip in net]: [ip & netmask == network_address]. *)
Definition in_network (ip : N) (net : ipv4_network) : bool :=
  N.eqb (N.land ip (netmask net)) (network_address net).

(** What [ipaddress.ip_network] accepts as an IPv4 network: a prefix
    length of at most 32 and a 32-bit address with no host bit set; it
    raises [ValueError] for the others. *)
Definition is_network (net : ipv4_network) : bool :=
  (prefixlen net <=? 32)%N
  && (network_address net <? 2 ^ 32)%N
  && N.eqb (N.land (network_address net) (netmask net)) (network_address net).

Definition is_digit (c : ascii) : bool :=
  let n := nat_of_ascii c in ((48 <=? n) && (n <=? 57))%nat.

Fixpoint split_on (sep : ascii) (s : string) : list string :=
  match s with
  | EmptyString => [EmptyString]
  | String c s' =>
      if Ascii.eqb c sep then EmptyString :: split_on sep s'
      else
        match split_on sep s' with
        | piece :: pieces => String c piece :: pieces
        | [] => [String c EmptyString]
        end
  end.

Fixpoint decimal (s : string) (acc : N) : option N :=
  match s with
  | EmptyString => Some acc
  | String c s' =>
      if is_digit c
      then decimal s' (acc * 10 + N.of_nat (nat_of_ascii c - 48))%N
      else None
  end.

(** One octet of a dotted quad: one to three decimal digits, no leading
    zero, at most 255. *)
Definition parse_octet (s : string) : option N :=
  match s with
  | EmptyString => None
  | String c s' =>
      if (3 <? String.length s)%nat then None
      else if Ascii.eqb c "0"%char && negb (String.eqb s' "") then None
      else
        match decimal s 0 with
        | Some n => if (n <=? 255)%N then Some n else None
        | None => None
        end
  end.

(** [ipaddress.ip_address(s)] for an IPv4 literal.  [None] stands for every
    other string: an IPv6 literal, which is in no IPv4 network, or a string
    for which [ip_address] raises [ValueError]. *)
Definition ip_address (s : string) : option N :=
  match map parse_octet (split_on "."%char s) with
  | [Some a; Some b; Some c; Some d] => Some (ipv4 a b c d)
  | _ => None
  end.

(** *** The service *)

Section Service.

(** [ip_obj.is_private] of the Python library, on IPv4 addresses. *)
Variable is_private : N -> bool.

Record service : Type := {
  allowed_ssids : list string;
  allowed_ip_ranges : list ipv4_network
}.

Record ssid_check : Type := {
  ssid_check_verified : bool;
  matched_ssid : option string
}.

Definition _ssid_pattern_match (ssid pattern : string) : bool :=
  contains pattern ssid || contains ssid pattern.

Fixpoint _verify_ssid_loop (ssid_lower : string) (allowed : list string) : ssid_check :=
  match allowed with
  | [] => {| ssid_check_verified := false; matched_ssid := None |}
  | allowed_ssid :: rest =>
      if String.eqb ssid_lower (lower allowed_ssid)
      then {| ssid_check_verified := true; matched_ssid := Some allowed_ssid |}
      else if _ssid_pattern_match ssid_lower (lower allowed_ssid)
      then {| ssid_check_verified := true; matched_ssid := Some allowed_ssid |}
      else _verify_ssid_loop ssid_lower rest
  end.

Definition _verify_ssid (self : service) (ssid : string) : ssid_check :=
  _verify_ssid_loop (lower ssid) (allowed_ssids self).

Record ip_check : Type := {
  ip_check_verified : bool;
  matched_range : option ipv4_network
}.

(** The result has [verified = False] both when no range contains the
    address and when [ip_address] raises and the [except] answers. *)
Definition _verify_ip_range (self : service) (client_ip : string) : ip_check :=
  match ip_address client_ip with
  | Some client_ip_obj =>
      match find (in_network client_ip_obj) (allowed_ip_ranges self) with
      | Some ip_range => {| ip_check_verified := true; matched_range := Some ip_range |}
      | None => {| ip_check_verified := false; matched_range := None |}
      end
  | None => {| ip_check_verified := false; matched_range := None |}
  end.

Definition hotspot_patterns : list string :=
  ["hotspot"; "iphone"; "android"; "mobile"; "phone"; "demo"; "test"].

Definition _is_mobile_hotspot_pattern (ssid : string) : bool :=
  existsb (fun word => re_match_anywhere word (lower ssid)) hotspot_patterns.

Definition _is_private_ip (ip : string) : bool :=
  match ip_address ip with
  | Some ip_obj => is_private ip_obj
  | None => false
  end.

(** The hotspot check is verified when the SSID matches a pattern and the
    address is private; [typical_hotspot_range] is only reported. *)
Definition _verify_mobile_hotspot (ssid client_ip : string) : bool :=
  _is_mobile_hotspot_pattern ssid && _is_private_ip client_ip.

(** The dictionary [verify_network_access] returns. *)
Record network_result : Type := {
  network_verified : bool;
  ssid_verified : bool;
  ip_verified : bool;
  hotspot_verified : option bool;
  checks_performed : list string;
  security_score : Q
}.

Definition _calculate_security_score (ssid_v ip_v : bool) (hotspot_v : option bool) : Q :=
  let score := 0%Q in
  let score := if ssid_v then (score + (4 # 10))%Q else score in
  let score := if ip_v then (score + (4 # 10))%Q else score in
  let score :=
    match hotspot_v with Some true => (score + (2 # 10))%Q | _ => score end in
  Qmin score 1.

(** What [network_info.get("ssid", "")] holds. *)
Record network_info : Type := {
  ssid : option string
}.

(** [verify_network_access] as it runs: the testing bypass returns before
    any check. *)
Definition verify_network_access (self : service) (info : network_info)
  (client_ip : string) : network_result :=
  {| network_verified := true;
     ssid_verified := true;
     ip_verified := true;
     hotspot_verified := None;
     checks_performed := ["testing_bypass"];
     security_score := 1 |}.

(** The statements of [verify_network_access] after the bypass ("Real
    implementation would be here"), which the early [return] makes
    unreachable. *)
Definition real_implementation (self : service) (info : network_info)
  (client_ip : string) : network_result :=
  let ssid := strip (match ssid info with Some s => s | None => "" end) in
  let '(ssid_v, checks) :=
    if String.eqb ssid "" then (false, [])
    else (ssid_check_verified (_verify_ssid self ssid), ["ssid_check"]) in
  let ip_v := ip_check_verified (_verify_ip_range self client_ip) in
  let checks := (checks ++ ["ip_range_check"])%list in
  let '(hotspot_v, checks) :=
    if _is_mobile_hotspot_pattern ssid
    then (Some (_verify_mobile_hotspot ssid client_ip),
          (checks ++ ["hotspot_pattern_check"])%list)
    else (None, checks) in
  {| network_verified :=
       ssid_v || ip_v || match hotspot_v with Some b => b | None => false end;
     ssid_verified := ssid_v;
     ip_verified := ip_v;
     hotspot_verified := hotspot_v;
     checks_performed := checks;
     security_score := _calculate_security_score ssid_v ip_v hotspot_v |}.

End Service.

End NetworkVerificationService.

(** ** [mark_attendance] (routers/attendance.py) *)

Module AttendanceRouter.

Module Face := FaceRecognitionService.
Module Net := NetworkVerificationService.

(** *** Loading the stored embeddings *)

(** A float as the stored data can hold it.  The scoring code is modelled
    on finite values only; this type is used to state what the loading loop
    does with the others. *)
Inductive pyfloat : Type :=
| Finite (r : R)
| PosInf
| NegInf
| NaN.

Definition is_finite (x : pyfloat) : bool :=
  match x with Finite _ => true | _ => false end.

Section Loading.

(** The representation of a float. *)
Variable num : Type.

(** A decoded value, as far as the loop looks at it: a list, each item
    given by what [float(x)] makes of it ([None]: it raises), or anything
    that is not a list. *)
Inductive value : Type :=
| ListValue (items : list (option num))
| OtherValue.

(** What [record.get("embedding")] holds: a [str], given by what
    [json.loads] makes of it ([None]: [JSONDecodeError]), or a value the
    driver already decoded. *)
Inductive column : Type :=
| Text (parsed : option value)
| Native (v : value).

(** [[float(x) for x in embedding]]; [None] when a conversion raises. *)
Fixpoint floats (items : list (option num)) : option (list num) :=
  match items with
  | [] => Some []
  | Some v :: rest =>
      match floats rest with
      | Some vs => Some (v :: vs)
      | None => None
      end
  | None :: _ => None
  end.

(** One iteration of the loop over [embeddings_result.data]: the embedding
    appended to [stored_embeddings], if any. *)
Definition load_one (record : column) : option (list num) :=
  let embedding :=
    match record with
    | Text None => None                      (* continue *)
    | Text (Some v) => Some v
    | Native v => Some v
    end in
  match embedding with
  | Some (ListValue ((_ :: _) as items)) => floats items
  | _ => None
  end.

Fixpoint load_embeddings (data : list column) : list (list num) :=
  match data with
  | [] => []
  | record :: rest =>
      match load_one record with
      | Some embedding => embedding :: load_embeddings rest
      | None => load_embeddings rest
      end
  end.

End Loading.

Arguments ListValue {num} items.
Arguments OtherValue {num}.
Arguments Text {num} parsed.
Arguments Native {num} v.

(** *** The pipeline *)

Open Scope R_scope.

Record request : Type := {
  live_image : Face.extraction;
  liveness_sequence : option (list Face.frame);
  network_info : Net.network_info;
  client_ip : string
}.

(** What the external store answers during one call, and the clock. *)
Record store : Type := {
  embeddings_query : result (list (column R));
  attempts_query : result (list Face.attempt);
  attendance_insert : result (list Z);
  utcnow : Z
}.

Inductive failure_band : Type :=
| ImageQuality          (* raw_similarity > 0.9 *)
| ModerateMatch         (* raw_similarity > 0.7 *)
| MediumConfidence      (* 0.25 < confidence < 0.5 *)
| LowMatch.

Inductive message : Type :=
| NetworkVerificationFailed
| LivenessDetectionFailed
| NoFaceDataFound
| FaceDataCorrupted
| DatabaseErrorOccurred
| FaceServiceUnavailable
| TemporarilyBlocked
| FaceVerificationFailed (band : failure_band)
| AttendanceMarked
| UnexpectedError.

Record verification_details : Type := {
  vd_face_verification : option Face.face_result;
  vd_liveness_verification : option Face.liveness_result;
  vd_network_verification : option Net.network_result;
  vd_temporal_security : option Face.temporal_result;
  vd_additional_verification_recommended : bool;
  vd_security_check_error : option exn;
  vd_error : option exn
}.

Record attendance_record : Type := {
  location_verified : bool;
  network_ssid : option string;
  device_ip : string;
  ar_confidence_score : R;
  liveness_passed : bool
}.

(** The [network_verification] argument of a response: the result of step 1,
    or the dictionary [{"network_verified": False, "error": ...}] of the
    outermost handler. *)
Inductive shown_network : Type :=
| NetworkResult (r : Net.network_result)
| VerificationInterrupted.

Record response : Type := {
  resp_success : bool;
  resp_message : message;
  attendance_id : option Z;
  resp_verification_details : verification_details;
  resp_network_verification : shown_network;
  resp_liveness_verification : option Face.liveness_result
}.

(** The outcome of a call: the response or the [HTTPException] raised, and
    the record handed to the attendance table, if the call got that far. *)
Record outcome : Type := {
  returned : result response;
  inserted : option attendance_record
}.

Definition failure (m : message) (vd : verification_details)
  (net : Net.network_result) (live : option Face.liveness_result) : outcome :=
  {| returned :=
       Ok {| resp_success := false; resp_message := m; attendance_id := None;
             resp_verification_details := vd;
             resp_network_verification := NetworkResult net;
             resp_liveness_verification := live |};
     inserted := None |}.

(** The message chosen when the face does not match. *)
Definition failure_message (face_result : Face.face_result) : message :=
  let confidence := Face.get_confidence face_result in
  let raw_similarity := Face.get_raw_similarity face_result in
  if Num.Rgtb raw_similarity (9 / 10) then FaceVerificationFailed ImageQuality
  else if Num.Rgtb raw_similarity (7 / 10) then FaceVerificationFailed ModerateMatch
  else if Num.Rgtb confidence (25 / 100) && Num.Rltb confidence (5 / 10)
  then FaceVerificationFailed MediumConfidence
  else FaceVerificationFailed LowMatch.

Section Pipeline.

(** The two global service instances. *)
Variable face_recognition_service : Face.service.
Variable network_verification_service : Net.service.

(** The first statements of the [try] of step 4.5: the query for the recent
    attempts, then the temporal analysis. *)
Definition temporal_step (db : store) (face_result : Face.face_result)
  : result Face.temporal_result :=
  recent_attempts <- attempts_query db ;;
  Face.analyze_temporal_security_patterns (utcnow db) recent_attempts
    (Face.get_confidence face_result).

(** Step 4.5.  The function returns the updated details and whether the
    attempt is blocked; the [except] records the error and blocks
    nothing. *)
Definition advanced_security_checks (db : store) (face_result : Face.face_result)
  (vd : verification_details) : verification_details * bool :=
  match temporal_step db face_result with
  | Ok temporal_analysis =>
      let vd :=
        {| vd_face_verification := vd_face_verification vd;
           vd_liveness_verification := vd_liveness_verification vd;
           vd_network_verification := vd_network_verification vd;
           vd_temporal_security := Some temporal_analysis;
           vd_additional_verification_recommended :=
             vd_additional_verification_recommended vd;
           vd_security_check_error := vd_security_check_error vd;
           vd_error := vd_error vd |} in
      if Face.should_block temporal_analysis then (vd, true)
      else if Face.should_require_additional_verification temporal_analysis
      then
        ({| vd_face_verification := vd_face_verification vd;
            vd_liveness_verification := vd_liveness_verification vd;
            vd_network_verification := vd_network_verification vd;
            vd_temporal_security := vd_temporal_security vd;
            vd_additional_verification_recommended := true;
            vd_security_check_error := vd_security_check_error vd;
            vd_error := vd_error vd |}, false)
      else (vd, false)
  | Raise security_error =>
      ({| vd_face_verification := vd_face_verification vd;
          vd_liveness_verification := vd_liveness_verification vd;
          vd_network_verification := vd_network_verification vd;
          vd_temporal_security := vd_temporal_security vd;
          vd_additional_verification_recommended :=
            vd_additional_verification_recommended vd;
          vd_security_check_error := Some security_error;
          vd_error := vd_error vd |}, false)
  end.

(** Step 5: the insertion and the final response. *)
Definition record_attendance (req : request) (db : store)
  (network_result : Net.network_result) (liveness_passed : bool)
  (shown_liveness : option Face.liveness_result)
  (face_result : Face.face_result) (vd : verification_details) : outcome :=
  let attendance_record :=
    {| location_verified := Net.network_verified network_result;
       network_ssid := Net.ssid (network_info req);
       device_ip := client_ip req;
       ar_confidence_score := Face.get_confidence face_result;
       liveness_passed := liveness_passed |} in
  {| returned :=
       match attendance_insert db with
       | Raise e =>
           Ok {| resp_success := false; resp_message := UnexpectedError;
                 attendance_id := None;
                 resp_verification_details :=
                   {| vd_face_verification := None;
                      vd_liveness_verification := None;
                      vd_network_verification := None;
                      vd_temporal_security := None;
                      vd_additional_verification_recommended := false;
                      vd_security_check_error := None;
                      vd_error := Some e |};
                 resp_network_verification := VerificationInterrupted;
                 resp_liveness_verification := None |}
       | Ok [] => Raise (HTTPException 500 "Failed to record attendance")
       | Ok (id :: _) =>
           Ok {| resp_success := true; resp_message := AttendanceMarked;
                 attendance_id := Some id;
                 resp_verification_details := vd;
                 resp_network_verification := NetworkResult network_result;
                 resp_liveness_verification := shown_liveness |}
       end;
     inserted := Some attendance_record |}.

Definition mark_attendance (req : request) (db : store) : outcome :=
  (* Step 1 *)
  let network_result :=
    Net.verify_network_access network_verification_service
      (network_info req) (client_ip req) in
  let vd :=
    {| vd_face_verification := None;
       vd_liveness_verification := None;
       vd_network_verification := Some network_result;
       vd_temporal_security := None;
       vd_additional_verification_recommended := false;
       vd_security_check_error := None;
       vd_error := None |} in
  if negb (Net.network_verified network_result)
  then failure NetworkVerificationFailed vd network_result None
  else
  (* Step 2 *)
  let supplied :=
    match liveness_sequence req with
    | Some (_ :: _) => true
    | _ => false
    end in
  let liveness_result :=
    match liveness_sequence req with
    | Some ((_ :: _) as sequence) =>
        Face.detect_liveness face_recognition_service sequence
    | _ => Face.NoSequenceProvided
    end in
  let liveness_passed := Face.get_liveness_passed liveness_result in
  let vd :=
    {| vd_face_verification := None;
       vd_liveness_verification :=
         if supplied then Some liveness_result else None;
       vd_network_verification := Some network_result;
       vd_temporal_security := None;
       vd_additional_verification_recommended := false;
       vd_security_check_error := None;
       vd_error := None |} in
  if supplied && negb liveness_passed
  then failure LivenessDetectionFailed vd network_result (Some liveness_result)
  else
  let shown_liveness := if supplied then Some liveness_result else None in
  (* Step 3 *)
  match embeddings_query db with
  | Raise _ => failure DatabaseErrorOccurred vd network_result shown_liveness
  | Ok [] => failure NoFaceDataFound vd network_result shown_liveness
  | Ok ((_ :: _) as data) =>
      match load_embeddings data with
      | [] => failure FaceDataCorrupted vd network_result shown_liveness
      | (_ :: _) as stored_embeddings =>
          (* Step 4 *)
          let face_result :=
            Face.verify_faces face_recognition_service (live_image req)
              stored_embeddings in
          let vd :=
            {| vd_face_verification := Some face_result;
               vd_liveness_verification := vd_liveness_verification vd;
               vd_network_verification := vd_network_verification vd;
               vd_temporal_security := None;
               vd_additional_verification_recommended := false;
               vd_security_check_error := None;
               vd_error := None |} in
          if Face.get_match face_result then
            (* Step 4.5 *)
            let '(vd, blocked) := advanced_security_checks db face_result vd in
            if blocked
            then failure TemporarilyBlocked vd network_result shown_liveness
            else
              (* Step 5 *)
              record_attendance req db network_result liveness_passed
                shown_liveness face_result vd
          else
            failure (failure_message face_result) vd network_result
              (Some liveness_result)
      end
  end.

End Pipeline.

(** *** [get_client_ip] *)

(** The parts of the request the function reads: the two headers ([None]:
    absent) and [request.client.host] ([None]: no client). *)
Record request_meta : Type := {
  x_forwarded_for : option string;
  x_real_ip : option string;
  client_host : option string
}.

(** [s] is truthy. *)
Definition nonempty (s : option string) : option string :=
  match s with
  | Some EmptyString => None
  | other => other
  end.

Definition get_client_ip (request : request_meta) : string :=
  match nonempty (x_forwarded_for request) with
  | Some forwarded_for =>
      Net.strip (hd EmptyString (Net.split_on ","%char forwarded_for))
  | None =>
      match nonempty (x_real_ip request) with
      | Some real_ip => real_ip
      | None =>
          match client_host request with
          | Some host => host
          | None => "unknown"%string
          end
      end
  end.

(** *** [get_today_attendance_summary] *)

(** A row of today's attendance, as the summary reads it. *)
Record attendance_row : Type := {
  row_timestamp : string;
  row_location_verified : bool;
  row_confidence_score : R;
  row_liveness_passed : bool
}.

Record summary : Type := {
  total_records : nat;
  first_attendance : option string;
  last_attendance : option string;
  network_verifications_passed : nat;
  average_confidence : R;
  liveness_checks_passed : nat
}.

(** The summary of the rows the query returned, newest first
    ([result.data or []]). *)
Definition get_today_attendance_summary (records : list attendance_row) : summary :=
  {| total_records := List.length records;
     first_attendance :=
       match records with
       | [] => None
       | r :: rest => Some (row_timestamp (last rest r))
       end;
     last_attendance :=
       match records with
       | [] => None
       | r :: _ => Some (row_timestamp r)
       end;
     network_verifications_passed :=
       List.length (filter row_location_verified records);
     average_confidence :=
       match records with
       | [] => 0
       | _ :: _ =>
           Num.Rsum (map row_confidence_score records)
           / INR (List.length records)
       end;
     liveness_checks_passed :=
       List.length (filter row_liveness_passed records) |}.

(** *** [test_face_recognition] *)

Inductive test_report : Type :=
| NoEmbeddingsRegistered
    (* success False, embeddings_count 0 *)
| EmbeddingsCorrupted (embeddings_count : nat)
    (* success False, valid_embeddings 0 *)
| TestCompleted (embeddings_count valid_embeddings : nat)
    (face_verification : Face.face_result) (status : string)
    (suggestions : list (option string))
| TestFailed (error : exn).

(** The list under ["suggestions"]. *)
Definition suggestions_for (confidence : R) : list (option string) :=
  [ (if Num.Rltb confidence (1 / 10)
     then Some "Ensure good lighting conditions"%string else None);
    (if Num.Rltb confidence (2 / 10)
     then Some "Try to face the camera directly"%string else None);
    (if Num.Rltb confidence (15 / 100)
     then Some "Consider re-registering with clearer images"%string else None);
    (if Num.Rgtb confidence (3 / 10)
     then Some "Recognition looks good!"%string else None) ].

(** The endpoint loads the stored embeddings by the loop of
    [mark_attendance], statement for statement. *)
Definition test_face_recognition (face_recognition_service : Face.service)
  (live_image : Face.extraction) (query : result (list (column R)))
  : test_report :=
  match query with
  | Raise e => TestFailed e
  | Ok [] => NoEmbeddingsRegistered
  | Ok ((_ :: _) as data) =>
      match load_embeddings data with
      | [] => EmbeddingsCorrupted (List.length data)
      | (_ :: _) as stored_embeddings =>
          let face_result :=
            Face.verify_faces face_recognition_service live_image
              stored_embeddings in
          TestCompleted (List.length data) (List.length stored_embeddings)
            face_result
            (if Face.get_match face_result then "PASS" else "FAIL")%string
            (suggestions_for (Face.get_confidence face_result))
      end
  end.

End AttendanceRouter.

(** ** The specification's side: its rule, its formulas, its quantities *)

Module Spec.

Import Num FaceRecognitionService.
Open Scope R_scope.

(** The outcome recorded for the check called [name]. *)
Definition check (name : string) (c : comparison) : bool :=
  match find (fun p => String.eqb (fst p) name) (fr_security_checks c) with
  | Some (_, passed) => passed
  | None => false
  end.

(** The number of checks that passed. *)
Definition passed_checks (c : comparison) : nat :=
  List.length (filter snd (fr_security_checks c)).

Definition critical_pass (c : comparison) : bool :=
  check "Primary threshold" c && check "Minimum baseline" c.

(** The rule as the specification words it: both critical checks, and in
    standard mode four of the five checks as well. *)
Definition claimed_rule (c : comparison) : bool :=
  critical_pass c
  && (if fr_high_similarity_override c then true else (4 <=? passed_checks c)%nat).

(** The rule of the code: the critical checks in override mode, four of the
    five checks in standard mode. *)
Definition coded_rule (c : comparison) : bool :=
  if fr_high_similarity_override c then critical_pass c
  else (4 <=? passed_checks c)%nat.

(** The formulas of the similarity analysis as the specification gives
    them, for embeddings of one dimension. *)

Definition dot_product (a b : list R) : R :=
  Rsum (map (fun p => fst p * snd p) (combine a b)).

Definition magnitude (a : list R) : R := sqrt (dot_product a a).

(** Cosine similarity, clamped to be at least 0. *)
Definition cosine (a b : list R) : R :=
  Rmax 0 (dot_product a b / (magnitude a * magnitude b)).

Definition euclidean_distance (a b : list R) : R :=
  sqrt (Rsum (map (fun p => (fst p - snd p) ^ 2) (combine a b))).

Definition euclidean_similarity (a b : list R) : R :=
  1 / (1 + euclidean_distance a b).

Definition average (l : list R) : R := Rsum l / INR (List.length l).

Definition std_dev (l : list R) : R :=
  sqrt (average (map (fun x => (x - average l) ^ 2) l)).

Definition maximum (l : list R) : R := fold_right Rmax (hd 0 l) l.
Definition minimum (l : list R) : R := fold_right Rmin (hd 0 l) l.

Definition epsilon : R := 1 / 100000000.

Section Formulas.

Variable live : list R.
Variable enrolled : list (list R).

Definition cosines : list R := map (cosine live) enrolled.
Definition euclideans : list R := map (euclidean_similarity live) enrolled.

Definition spec_consensus_score : R :=
  7 / 10 * average cosines + 3 / 10 * average euclideans.

Definition spec_variance_penalty : R :=
  Rmin 1 (std_dev cosines / (average cosines + epsilon) * 2).

Definition spec_range_penalty : R :=
  Rmin 1 ((maximum cosines - minimum cosines) * 3).

Definition spec_final_confidence : R :=
  spec_consensus_score * (1 - spec_variance_penalty * (3 / 10))
                       * (1 - spec_range_penalty * (2 / 10)).

End Formulas.

(** The quantities of the liveness rule, read off the frame sequence. *)

Definition has_face (f : frame) : bool :=
  match f with
  | Decoded (_ :: _) => true
  | _ => false
  end.

(** The area of the first face of a frame, if it shows one. *)
Definition first_face_area (f : frame) : list Q :=
  match f with
  | Decoded ((_, _, w, h) :: _) => [inject_Z (w * h)]
  | _ => []
  end.

Definition frames_with_face (sequence : list frame) : nat :=
  List.length (filter has_face sequence).

Definition areas (sequence : list frame) : list Q :=
  flat_map first_face_area sequence.

(** The attempt history, as the analyzer reads it. *)

(** The timestamps the analyzer can work with: absent, or parsing to a
    naive datetime. *)
Definition well_timed (a : attempt) : Prop :=
  match timestamp a with
  | None | Some (IsoNaive _) => True
  | Some (IsoAware _) | Some IsoMalformed => False
  end.

(** Whether a well-timed attempt falls in the trailing window of [seconds]
    before [now]; an attempt without timestamp is taken to be made now. *)
Definition counted (now seconds : Z) (a : attempt) : bool :=
  match timestamp a with
  | None => true
  | Some (IsoNaive t) => (now - t <? seconds * 1000000)%Z
  | _ => false
  end.

(** The uniqueness check. *)

(** The entry recorded for the embedding at position [index] of the user
    [user_id], whose similarity [s] with the live embedding exceeds 0.8. *)
Definition violation_for (user_id : string) (index : nat) (s : R) : violation :=
  {| other_user_id := user_id; embedding_index := index; similarity := s;
     violation_severity := if Rgtb s (9 / 10) then "CRITICAL" else "HIGH" |}.

(** The image measurements. *)

(** The ranges OpenCV's measurements of an 8-bit grayscale image lie in. *)
Definition measurable (m : measurements) : Prop :=
  0 <= laplacian_var m /\ 0 <= mean_brightness m <= 255 /\ 0 <= gray_std m.

End Spec.

(** ** Concrete inputs used by the examples *)

Module Examples.

Import FaceRecognitionService.
Open Scope R_scope.

(** A live embedding and one enrolled embedding of small norm, at an angle
    whose cosine is 28/53 and at distance 0.0375 from each other. *)
Definition dim_live : embedding := [44 / 1000; 0].
Definition dim_enrolled : embedding := [14 / 1000; 225 / 10000].

(** Two unit vectors. *)
Definition unit_x : embedding := [1; 0].
Definition unit_y : embedding := [0; 1].

(** Two orthogonal vectors at distance 5, and the comparison the service
    as constructed makes of the first against the second. *)
Definition axis_three : embedding := [3; 0].
Definition axis_four : embedding := [0; 4].
Definition orthogonal_comparison : comparison :=
  security_validation init
    {| cosine_similarity := 0;
       cosine_mean := 0;
       cosine_std := 0;
       cosine_min := 0;
       cosine_range := 0;
       euclidean_mean := 1 / 6;
       consensus_score := 0 * (7 / 10) + 1 / 6 * (3 / 10);
       variance_penalty := 0;
       range_penalty := 0;
       final_confidence := 0 * (7 / 10) + 1 / 6 * (3 / 10) |} 1.

(** The analysis of [axis_three] against itself and [axis_four], and the
    comparison the service as constructed makes of it: the best similarity
    is 1, the two similarities are far apart. *)
Definition mixed_analysis : analysis :=
  {| cosine_similarity := 1;
     cosine_mean := 1 / 2;
     cosine_std := 1 / 2;
     cosine_min := 0;
     cosine_range := 1;
     euclidean_mean := 7 / 12;
     consensus_score := 1 / 2 * (7 / 10) + 7 / 12 * (3 / 10);
     variance_penalty := 1;
     range_penalty := 1;
     final_confidence :=
       (1 / 2 * (7 / 10) + 7 / 12 * (3 / 10))
       * (1 - 1 * (3 / 10)) * (1 - 1 * (2 / 10)) |}.
Definition mixed_comparison : comparison := security_validation init mixed_analysis 2.

(** The analysis of [unit_x] against itself as the only enrolled
    embedding, and the comparison the service as constructed makes of it. *)
Definition unit_analysis : analysis :=
  {| cosine_similarity := 1;
     cosine_mean := 1;
     cosine_std := 0;
     cosine_min := 1;
     cosine_range := 0;
     euclidean_mean := 1;
     consensus_score := 1 * (7 / 10) + 1 * (3 / 10);
     variance_penalty := 0;
     range_penalty := 0;
     final_confidence := 1 * (7 / 10) + 1 * (3 / 10) |}.

Definition unit_comparison : comparison := security_validation init unit_analysis 1.

(** History rows: one without timestamp, one whose timestamp does not
    parse, one made a second before the epoch. *)
Definition untimed_attempt : attempt :=
  {| timestamp := None; confidence_score := None; success := None |}.
Definition malformed_attempt : attempt :=
  {| timestamp := Some IsoMalformed; confidence_score := Some (8 / 10);
     success := Some true |}.
Definition timed_attempt : attempt :=
  {| timestamp := Some (IsoNaive (-1000000)); confidence_score := Some (8 / 10);
     success := Some true |}.

(** A sharp, well lit picture of a face, and what the collaborators of
    [extract_embedding] answer for it. *)
Definition portrait : measurements :=
  {| laplacian_var := 400; mean_brightness := 120; gray_std := 64;
     faces_found := 1 |}.
Definition portrait_capture : capture :=
  {| decoded := Some (Measured portrait);
     represent := Ok [unit_x];
     represent_fallback := Ok [];
     random_vector := [] |}.
(** An image the decoder rejects. *)
Definition broken_capture : capture :=
  {| decoded := None;
     represent := Raise (ValueError "Face could not be detected");
     represent_fallback := Ok [];
     random_vector := [] |}.

(** A frame showing one face, the same in every frame of a sequence. *)
Definition still_frame : frame := Decoded [(120, 80, 200, 200)%Z].
Definition five_still_frames : list frame := repeat still_frame 5.
Definition ten_still_frames : list frame := repeat still_frame 10.

(** Ten frames in which the face alternates between two sizes, and six
    frames of which two cannot be decoded and one shows no face. *)
Definition near_frame : frame := Decoded [(100, 60, 240, 240)%Z].
Definition moving_frames : list frame :=
  [still_frame; near_frame; still_frame; near_frame; still_frame;
   near_frame; still_frame; near_frame; still_frame; near_frame].
Definition patchy_frames : list frame :=
  [still_frame; Undecodable; near_frame; Decoded []; Undecodable; still_frame].

(** Six frames in which a face of constant size moves across the image. *)
Definition sliding_frames : list frame :=
  [Decoded [(10, 80, 200, 200)%Z]; Decoded [(60, 85, 200, 200)%Z];
   Decoded [(110, 90, 200, 200)%Z]; Decoded [(160, 95, 200, 200)%Z];
   Decoded [(210, 100, 200, 200)%Z]; Decoded [(260, 105, 200, 200)%Z]].

(** What the analyzer answers for an empty history, and for eleven rows
    without timestamp. *)
Definition quiet_result : temporal_result :=
  {| risk_level := "LOW"; suspicious_patterns := [];
     total_attempts_24h := 0; total_attempts_1h := 0;
     should_block := false; should_require_additional_verification := false;
     security_recommendation := "ALLOW" |}.
Definition rapid_result : temporal_result :=
  {| risk_level := "HIGH"; suspicious_patterns := [rapid_attempts];
     total_attempts_24h := 11; total_attempts_1h := 11;
     should_block := true; should_require_additional_verification := false;
     security_recommendation := "BLOCK" |}.

(** A failed attempt made a minute before the epoch. *)
Definition failed_attempt : attempt :=
  {| timestamp := Some (IsoNaive (-60000000)); confidence_score := None;
     success := Some false |}.

(** A successful attempt of that minute, and what the analyzer answers at
    the epoch for two failures and for four successes. *)
Definition successful_attempt : attempt :=
  {| timestamp := Some (IsoNaive (-60000000)); confidence_score := None;
     success := Some true |}.
Definition two_failures_result : temporal_result :=
  {| risk_level := "LOW"; suspicious_patterns := [];
     total_attempts_24h := 2; total_attempts_1h := 2;
     should_block := false; should_require_additional_verification := false;
     security_recommendation := "ALLOW" |}.
Definition four_successes_result : temporal_result :=
  {| risk_level := "LOW"; suspicious_patterns := [];
     total_attempts_24h := 4; total_attempts_1h := 4;
     should_block := false; should_require_additional_verification := false;
     security_recommendation := "ALLOW" |}.

End Examples.

(** Inputs of the analysis in double precision: a live embedding and three
    copies of one enrolled embedding. *)
Module DoubleExamples.

Import PrimFloat.
#[local] Open Scope float_scope.

Definition live_one : Binary64.embedding := [1; 0].
Definition one_eight : Binary64.embedding := [1; 8].
Definition ones : Binary64.embedding := [1; 1; 1].

End DoubleExamples.

(** Inputs of the loading loop and of the network check. *)
Module RouterExamples.

Import NetworkVerificationService AttendanceRouter.

(** Three stored rows: one holding [nan], one holding [inf], one finite. *)
Definition nan_row : column pyfloat :=
  Native (ListValue [Some NaN; Some (Finite 1)]).
Definition inf_row : column pyfloat :=
  Text (Some (ListValue [Some (Finite 0); Some PosInf])).
Definition finite_row : column pyfloat :=
  Native (ListValue [Some (Finite 1); Some (Finite 0)]).

(** The allowed range [192.168.0.0/16]. *)
Definition campus_range : ipv4_network :=
  {| network_address := ipv4 192 168 0 0; prefixlen := 16 |}.

Definition campus_service (ssids : list string) : service :=
  {| allowed_ssids := ssids; allowed_ip_ranges := [campus_range] |}.

Definition outside_ip : string := "203.0.113.5".

(** A request whose live image yields [unit_x], for an identity whose one
    stored embedding is [unit_x]; the history query returns a row whose
    timestamp does not parse, and the insertion succeeds with id 42. *)
Definition example_request : request :=
  {| live_image := FaceRecognitionService.Extracted Examples.unit_x;
     liveness_sequence := None;
     network_info := {| ssid := Some "KLU_Attendance" |};
     client_ip := "192.168.43.10" |}.

Definition example_store : store :=
  {| embeddings_query := Ok [Native (ListValue [Some 1%R; Some 0%R])];
     attempts_query := Ok [Examples.malformed_attempt];
     attendance_insert := Ok [42%Z];
     utcnow := 0 |}.

(** The same request against a store whose history holds eleven rows
    without timestamp, and against one whose history holds three failures
    of a minute ago. *)
Definition busy_store : store :=
  {| embeddings_query := Ok [Native (ListValue [Some 1%R; Some 0%R])];
     attempts_query := Ok (repeat Examples.untimed_attempt 11);
     attendance_insert := Ok [42%Z];
     utcnow := 0 |}.

Definition retry_store : store :=
  {| embeddings_query := Ok [Native (ListValue [Some 1%R; Some 0%R])];
     attempts_query := Ok (repeat Examples.failed_attempt 3);
     attendance_insert := Ok [42%Z];
     utcnow := 0 |}.

(** What the analyzer answers for the history of [retry_store] and a
    confidence of 1. *)
Definition retry_result : FaceRecognitionService.temporal_result :=
  {| FaceRecognitionService.risk_level := "HIGH";
     FaceRecognitionService.suspicious_patterns :=
       [FaceRecognitionService.sudden_success_after_failures];
     FaceRecognitionService.total_attempts_24h := 3;
     FaceRecognitionService.total_attempts_1h := 3;
     FaceRecognitionService.should_block := false;
     FaceRecognitionService.should_require_additional_verification := true;
     FaceRecognitionService.security_recommendation := "ADDITIONAL_VERIFICATION" |}.

End RouterExamples.

(** * Properties *)

Unset Implicit Arguments.

Import Num.

(** ** Comparisons *)

Section Comparisons.

Open Scope R_scope.

Lemma Rleb_true (x y : R) : Rleb x y = true <-> x <= y.
Proof. unfold Rleb; destruct (Rle_dec x y); split; intros; try easy. Qed.

Lemma Rleb_false (x y : R) : Rleb x y = false <-> y < x.
Proof.
  unfold Rleb; destruct (Rle_dec x y); split; intros; try easy; lra.
Qed.

Lemma Rltb_true (x y : R) : Rltb x y = true <-> x < y.
Proof. unfold Rltb; destruct (Rlt_dec x y); split; intros; try easy. Qed.

Lemma Rltb_false (x y : R) : Rltb x y = false <-> y <= x.
Proof.
  unfold Rltb; destruct (Rlt_dec x y); split; intros; try easy; lra.
Qed.

Lemma Rgeb_true (x y : R) : Rgeb x y = true <-> y <= x.
Proof. apply Rleb_true. Qed.

Lemma Rgeb_false (x y : R) : Rgeb x y = false <-> x < y.
Proof. apply Rleb_false. Qed.

Lemma Rgtb_true (x y : R) : Rgtb x y = true <-> y < x.
Proof. apply Rltb_true. Qed.

Lemma Rgtb_false (x y : R) : Rgtb x y = false <-> x <= y.
Proof. apply Rltb_false. Qed.

(** A square root is known once a non-negative root is exhibited. *)
Lemma sqrt_unique (x y : R) : 0 <= y -> y * y = x -> sqrt x = y.
Proof.
  intros Hy Hx. subst x. apply sqrt_square. exact Hy.
Qed.

End Comparisons.

(** ** NumPy reductions *)

Section Reductions.

Open Scope R_scope.

Lemma Rsum_repeat (c : R) (n : nat) : Rsum (repeat c n) = INR n * c.
Proof.
  induction n as [|n IH].
  - simpl. lra.
  - rewrite S_INR. cbn [repeat Rsum fold_right]. fold (Rsum (repeat c n)).
    rewrite IH. lra.
Qed.

Lemma mean_repeat (c : R) (n : nat) : mean (repeat c (S n)) = c.
Proof.
  unfold mean. rewrite Rsum_repeat, repeat_length.
  field. apply not_0_INR. discriminate.
Qed.

Lemma var_repeat (c : R) (n : nat) : var (repeat c (S n)) = 0.
Proof.
  unfold var. rewrite mean_repeat, map_repeat.
  replace ((c - c) * (c - c)) with 0 by lra.
  apply mean_repeat.
Qed.

Lemma std_repeat (c : R) (n : nat) : std (repeat c (S n)) = 0.
Proof. unfold std. rewrite var_repeat. apply sqrt_0. Qed.

Lemma maxl_repeat (c : R) (n : nat) : maxl c (repeat c n) = c.
Proof.
  unfold maxl. induction n as [|n IH]; simpl.
  - reflexivity.
  - rewrite Rmax_left by lra. exact IH.
Qed.

Lemma minl_repeat (c : R) (n : nat) : minl c (repeat c n) = c.
Proof.
  unfold minl. induction n as [|n IH]; simpl.
  - reflexivity.
  - rewrite Rmin_left by lra. exact IH.
Qed.

End Reductions.

(** ** Vector arithmetic *)

Section Vectors.

Import FaceRecognitionService Spec.
Open Scope R_scope.

Lemma dot_defined (a b : embedding) :
  List.length a = List.length b -> dot a b = Ok (dot_product a b).
Proof.
  revert b. induction a as [|x a IH]; intros [|y b] Hlen; try discriminate.
  - reflexivity.
  - injection Hlen as Hlen. cbn [dot]. rewrite (IH b Hlen). reflexivity.
Qed.

Lemma dot_raises (a b : embedding) :
  List.length a <> List.length b -> exists e, dot a b = Raise e.
Proof.
  revert b. induction a as [|x a IH]; intros [|y b] Hlen; cbn [dot].
  - now elim Hlen.
  - eexists; reflexivity.
  - eexists; reflexivity.
  - destruct (IH b) as [e He].
    + intros H. apply Hlen. simpl. now rewrite H.
    + rewrite He. cbn [bind]. eexists; reflexivity.
Qed.

Lemma sub_defined (a b : embedding) :
  List.length a = List.length b ->
  sub a b = Ok (map (fun p => fst p - snd p) (combine a b)).
Proof.
  revert b. induction a as [|x a IH]; intros [|y b] Hlen; try discriminate.
  - reflexivity.
  - injection Hlen as Hlen. cbn [sub]. rewrite (IH b Hlen). reflexivity.
Qed.

Lemma norm_magnitude (a : embedding) : norm a = magnitude a.
Proof.
  unfold norm, magnitude, dot_product. f_equal. f_equal.
  induction a as [|x a IH]; simpl; [reflexivity | now rewrite IH].
Qed.

Lemma norm_sub (a b : embedding) :
  norm (map (fun p => fst p - snd p) (combine a b)) = euclidean_distance a b.
Proof.
  unfold norm, euclidean_distance. f_equal. rewrite map_map.
  f_equal. apply map_ext. intros p. ring.
Qed.

Lemma Rsum_squares_nonneg (a : list R) : 0 <= Rsum (map (fun x => x * x) a).
Proof.
  induction a as [|x a IH]; simpl.
  - lra.
  - nra.
Qed.

Lemma dot_product_self_nonneg (a : list R) : 0 <= dot_product a a.
Proof.
  unfold dot_product. induction a as [|x a IH]; simpl.
  - lra.
  - nra.
Qed.

Lemma magnitude_nonneg (a : list R) : 0 <= magnitude a.
Proof. apply sqrt_pos. Qed.

(** The guard on the norms changes nothing: where a norm is zero the
    quotient is already zero. *)
Lemma compare_one_defined (live e : embedding) :
  List.length e = List.length live ->
  compare_one live e = Ok (cosine live e, euclidean_similarity live e).
Proof.
  intros Hlen. unfold compare_one.
  rewrite dot_defined, sub_defined by (symmetry; exact Hlen).
  cbn [bind]. rewrite norm_sub, !norm_magnitude. f_equal. f_equal.
  unfold cosine.
  destruct (Rgtb (magnitude live) 0) eqn:Hl; cbn [andb].
  - destruct (Rgtb (magnitude e) 0) eqn:He.
    + reflexivity.
    + apply Rgtb_false in He.
      assert (magnitude e = 0) by (pose proof (magnitude_nonneg e); lra).
      rewrite H, Rmult_0_r, Rdiv_0_r. symmetry. apply Rmax_left. lra.
  - apply Rgtb_false in Hl.
    assert (magnitude live = 0) by (pose proof (magnitude_nonneg live); lra).
    rewrite H, Rmult_0_l, Rdiv_0_r. symmetry. apply Rmax_left. lra.
Qed.

Lemma compare_one_raises (live e : embedding) :
  List.length e <> List.length live -> exists x, compare_one live e = Raise x.
Proof.
  intros Hlen. unfold compare_one.
  destruct (dot_raises live e) as [x Hx].
  - intros H. apply Hlen. now symmetry.
  - rewrite Hx. cbn [bind]. eexists; reflexivity.
Qed.

Lemma mapM_compare_defined (live : embedding) (stored : list embedding) :
  Forall (fun e => List.length e = List.length live) stored ->
  mapM (compare_one live) stored
  = Ok (map (fun e => (cosine live e, euclidean_similarity live e)) stored).
Proof.
  induction 1 as [|e stored He _ IH]; cbn [mapM map].
  - reflexivity.
  - rewrite compare_one_defined by exact He. cbn [bind].
    rewrite IH. reflexivity.
Qed.

End Vectors.

(** ** Bounds on the similarities *)

Section Bounds.

Import FaceRecognitionService Spec.
Open Scope R_scope.

Lemma square_le (u v : R) : 0 <= v -> u * u <= v * v -> u <= v.
Proof. intros Hv H. destruct (Rle_lt_dec u v) as [|Hlt]; [assumption | nra]. Qed.

Lemma div_le_upper (a b c : R) : 0 < b -> a <= c * b -> a / b <= c.
Proof.
  intros Hb H. apply Rmult_le_reg_r with b; [exact Hb|].
  unfold Rdiv. rewrite Rmult_assoc, Rinv_l by lra. lra.
Qed.

Lemma div_le_lower (a b c : R) : 0 < b -> c * b <= a -> c <= a / b.
Proof.
  intros Hb H. apply Rmult_le_reg_r with b; [exact Hb|].
  unfold Rdiv. rewrite Rmult_assoc, Rinv_l by lra. lra.
Qed.

Lemma dot_product_cons (x y : R) (a b : list R) :
  dot_product (x :: a) (y :: b) = x * y + dot_product a b.
Proof. reflexivity. Qed.

Lemma cauchy_schwarz_step (x y A B C : R) :
  0 <= A -> 0 <= C -> B * B <= A * C ->
  (x * y + B) * (x * y + B) <= (x * x + A) * (y * y + C).
Proof.
  intros HA HC HB.
  assert (Hcross : 2 * x * y * B <= x * x * C + y * y * A).
  { assert (Hx : 0 <= x * x) by apply Rle_0_sqr.
    assert (Hy : 0 <= y * y) by apply Rle_0_sqr.
    apply square_le.
    - apply Rplus_le_le_0_compat; apply Rmult_le_pos; assumption.
    - assert (H1 : 0 <= (x * x * C - y * y * A) * (x * x * C - y * y * A))
        by apply Rle_0_sqr.
      assert (H2 : x * x * (y * y) * (B * B) <= x * x * (y * y) * (A * C)).
      { apply Rmult_le_compat_l; [apply Rmult_le_pos; assumption | exact HB]. }
      lra. }
  lra.
Qed.

(** Cauchy-Schwarz. *)
Lemma cauchy_schwarz (a b : list R) :
  dot_product a b * dot_product a b <= dot_product a a * dot_product b b.
Proof.
  revert b. induction a as [|x a IH]; intros b.
  - pose proof (dot_product_self_nonneg b).
    replace (dot_product [] b) with 0 by reflexivity.
    replace (dot_product [] []) with 0 by reflexivity. lra.
  - destruct b as [|y b].
    + pose proof (dot_product_self_nonneg (x :: a)).
      replace (dot_product (x :: a) []) with 0 by reflexivity.
      replace (dot_product [] []) with 0 by reflexivity. lra.
    + rewrite !dot_product_cons.
      apply cauchy_schwarz_step;
        auto using dot_product_self_nonneg.
Qed.

Lemma cosine_bounds (a b : list R) : 0 <= cosine a b <= 1.
Proof.
  unfold cosine. split; [apply Rmax_l|].
  apply Rmax_lub; [lra|].
  pose proof (magnitude_nonneg a) as Ha.
  pose proof (magnitude_nonneg b) as Hb.
  destruct (Req_dec (magnitude a * magnitude b) 0) as [H0|Hn0].
  - rewrite H0, Rdiv_0_r. lra.
  - assert (Hpos : 0 < magnitude a * magnitude b) by nra.
    apply div_le_upper; [exact Hpos|]. rewrite Rmult_1_l.
    apply square_le; [lra|].
    pose proof (cauchy_schwarz a b) as Hcs.
    unfold magnitude in *.
    pose proof (sqrt_sqrt _ (dot_product_self_nonneg a)).
    pose proof (sqrt_sqrt _ (dot_product_self_nonneg b)).
    nra.
Qed.

Lemma euclidean_similarity_bounds (a b : list R) :
  0 < euclidean_similarity a b <= 1.
Proof.
  unfold euclidean_similarity, euclidean_distance.
  set (d := sqrt _). assert (0 <= d) by apply sqrt_pos.
  split.
  - apply Rdiv_lt_0_compat; lra.
  - apply div_le_upper; lra.
Qed.

Lemma Rsum_bounds (lo hi : R) (l : list R) :
  Forall (fun x => lo <= x <= hi) l ->
  INR (List.length l) * lo <= Rsum l <= INR (List.length l) * hi.
Proof.
  induction 1 as [|x l Hx _ IH].
  - simpl. lra.
  - cbn [List.length Rsum fold_right]. fold (Rsum l). rewrite S_INR. lra.
Qed.

Lemma average_bounds (lo hi : R) (l : list R) :
  l <> [] -> Forall (fun x => lo <= x <= hi) l -> lo <= average l <= hi.
Proof.
  intros Hne Hall. unfold average.
  assert (0 < INR (List.length l)).
  { apply lt_0_INR. destruct l; [contradiction | simpl; lia]. }
  pose proof (Rsum_bounds lo hi l Hall).
  split.
  - apply div_le_lower; lra.
  - apply div_le_upper; lra.
Qed.

Lemma fold_max_ge (x : R) (l : list R) : x <= fold_right Rmax x l.
Proof.
  induction l as [|y l IH]; simpl; [lra|].
  eapply Rle_trans; [exact IH | apply Rmax_r].
Qed.

Lemma fold_min_le (x : R) (l : list R) : fold_right Rmin x l <= x.
Proof.
  induction l as [|y l IH]; simpl; [lra|].
  eapply Rle_trans; [apply Rmin_r | exact IH].
Qed.

Lemma minimum_le_maximum (l : list R) : minimum l <= maximum l.
Proof.
  unfold minimum, maximum.
  eapply Rle_trans; [apply fold_min_le | apply fold_max_ge].
Qed.

Lemma maxl_maximum (x : R) (l : list R) : maxl x l = maximum (x :: l).
Proof.
  unfold maxl, maximum. cbn [hd fold_right].
  rewrite (fold_symmetric Rmax Rmax_assoc x (Rmax_comm x)).
  symmetry. apply Rmax_right. apply fold_max_ge.
Qed.

Lemma minl_minimum (x : R) (l : list R) : minl x l = minimum (x :: l).
Proof.
  unfold minl, minimum. cbn [hd fold_right].
  rewrite (fold_symmetric Rmin Rmin_assoc x (Rmin_comm x)).
  symmetry. apply Rmin_right. apply fold_min_le.
Qed.

Lemma std_std_dev (l : list R) : std l = std_dev l.
Proof.
  unfold std, var, std_dev, average, mean. f_equal. f_equal; [|now rewrite !length_map].
  f_equal. apply map_ext. intros x. ring.
Qed.

End Bounds.

(** ** The similarity analysis *)

Section Analysis.

Import FaceRecognitionService Spec.
Open Scope R_scope.

Lemma analysis_closed_form (live : embedding) (stored : list embedding) :
  Forall (fun e => List.length e = List.length live) stored ->
  _advanced_similarity_analysis live stored
  = statistics (cosines live stored) (euclideans live stored).
Proof.
  intros Hdim. unfold _advanced_similarity_analysis.
  rewrite mapM_compare_defined by exact Hdim. cbn [bind].
  rewrite !map_map. reflexivity.
Qed.

Lemma mapM_compare_dimensions (live : embedding) (stored : list embedding)
  (sims : list (R * R)) :
  mapM (compare_one live) stored = Ok sims ->
  Forall (fun e => List.length e = List.length live) stored.
Proof.
  revert sims. induction stored as [|e stored IH]; intros sims H.
  - constructor.
  - cbn [mapM] in H.
    destruct (Nat.eq_dec (List.length e) (List.length live)) as [Heq|Hne].
    + constructor; [exact Heq|].
      destruct (compare_one live e); [|discriminate].
      cbn [bind] in H.
      destruct (mapM (compare_one live) stored) as [sims'|]; [|discriminate].
      eapply IH; reflexivity.
    + destruct (compare_one_raises live e Hne) as [x Hx]. rewrite Hx in H. discriminate.
Qed.

Lemma analysis_dimensions (live : embedding) (stored : list embedding)
  (a : analysis) :
  _advanced_similarity_analysis live stored = Ok a ->
  Forall (fun e => List.length e = List.length live) stored.
Proof.
  unfold _advanced_similarity_analysis. intros H.
  destruct (mapM (compare_one live) stored) as [sims|] eqn:Hs; [|discriminate].
  eapply mapM_compare_dimensions; exact Hs.
Qed.

Lemma statistics_bounds (cs es : list R) (a : analysis) :
  Forall (fun x => 0 <= x <= 1) cs ->
  Forall (fun x => 0 <= x <= 1) es ->
  List.length es = List.length cs ->
  statistics cs es = Ok a ->
  0 <= variance_penalty a <= 1 /\ 0 <= range_penalty a <= 1 /\
  0 <= consensus_score a <= 1 /\ 0 <= final_confidence a <= 1.
Proof.
  intros Hcs Hes Hlen Hstat. unfold statistics in Hstat.
  destruct cs as [|c cs']; [discriminate|].
  set (cs := c :: cs') in *.
  assert (Hm : 0 <= mean cs <= 1).
  { apply (average_bounds 0 1 cs); [discriminate | exact Hcs]. }
  assert (He : 0 <= mean es <= 1).
  { apply (average_bounds 0 1 es); [|exact Hes].
    destruct es; [discriminate | discriminate]. }
  assert (Hstd : 0 <= std cs) by apply sqrt_pos.
  assert (Hrange : 0 <= maxl c cs' - minl c cs').
  { rewrite maxl_maximum, minl_minimum.
    pose proof (minimum_le_maximum cs). fold cs. lra. }
  assert (Hratio : 0 <= std cs / (mean cs + 1 / 100000000)).
  { apply div_le_lower; lra. }
  injection Hstat as <-. cbn [variance_penalty range_penalty consensus_score
                                final_confidence].
  set (vp := Rmin 1 (std cs / (mean cs + 1 / 100000000) * 2)).
  set (rp := Rmin 1 ((maxl c cs' - minl c cs') * 3)).
  assert (Hvp : 0 <= vp <= 1).
  { split; [apply Rmin_glb; lra | apply Rmin_l]. }
  assert (Hrp : 0 <= rp <= 1).
  { split; [apply Rmin_glb; lra | apply Rmin_l]. }
  set (k := mean cs * (7 / 10) + mean es * (3 / 10)).
  assert (Hk : 0 <= k <= 1) by (unfold k; lra).
  repeat split; try lra.
  - apply Rmult_le_pos; [apply Rmult_le_pos|]; lra.
  - assert (k * (1 - vp * (3 / 10)) <= 1).
    { replace 1 with (1 * 1) at 2 by lra.
      apply Rmult_le_compat; lra. }
    replace 1 with (1 * 1) by lra.
    apply Rmult_le_compat; try lra.
    apply Rmult_le_pos; lra.
Qed.

Lemma cosines_bounded (live : embedding) (stored : list embedding) :
  Forall (fun x => 0 <= x <= 1) (cosines live stored).
Proof.
  unfold cosines. apply Forall_map, Forall_forall. intros e _.
  apply cosine_bounds.
Qed.

Lemma euclideans_bounded (live : embedding) (stored : list embedding) :
  Forall (fun x => 0 <= x <= 1) (euclideans live stored).
Proof.
  unfold euclideans. apply Forall_map, Forall_forall. intros e _.
  pose proof (euclidean_similarity_bounds live e). lra.
Qed.

Lemma analysis_bounds (live : embedding) (stored : list embedding) (a : analysis) :
  _advanced_similarity_analysis live stored = Ok a ->
  0 <= variance_penalty a <= 1 /\ 0 <= range_penalty a <= 1 /\
  0 <= consensus_score a <= 1 /\ 0 <= final_confidence a <= 1.
Proof.
  intros H. pose proof (analysis_dimensions live stored a H) as Hdim.
  rewrite analysis_closed_form in H by exact Hdim.
  eapply statistics_bounds; [| | |exact H].
  - apply cosines_bounded.
  - apply euclideans_bounded.
  - unfold cosines, euclideans. now rewrite !length_map.
Qed.

End Analysis.

(** ** The decision rule of [verify_faces] *)

Section DecisionRule.

Import FaceRecognitionService Spec.
Open Scope R_scope.

Ltac case_checks :=
  repeat match goal with
         | |- context [Rgeb ?x ?y] => destruct (Rgeb x y)
         | |- context [Rltb ?x ?y] => destruct (Rltb x y)
         end.

(** Whatever the analysis gave, the match flag is the rule of the code
    applied to the recorded checks. *)
Lemma security_validation_rule (self : service) (a : analysis) (n : nat) :
  fr_match (security_validation self a n)
  = coded_rule (security_validation self a n).
Proof.
  unfold coded_rule, critical_pass, passed_checks, check, security_validation.
  cbn [fr_match fr_high_similarity_override fr_security_checks].
  destruct (Rgeb (cosine_similarity a) (high_similarity_override self));
    case_checks; reflexivity.
Qed.

(** The result records exactly the five checks, in the order of the code. *)
Lemma security_validation_names (self : service) (a : analysis) (n : nat) :
  map fst (fr_security_checks (security_validation self a n))
  = ["Primary threshold"; "Consensus threshold"; "Variance check";
     "Range consistency"; "Minimum baseline"]%string.
Proof. reflexivity. Qed.

End DecisionRule.

(** ** Worked example: one enrolled embedding of small norm *)

Section DimExample.

Import FaceRecognitionService Spec Examples.
Open Scope R_scope.

Lemma statistics_single (c eu : R) :
  statistics [c] [eu]
  = Ok {| cosine_similarity := c;
          cosine_mean := c;
          cosine_std := 0;
          cosine_min := c;
          cosine_range := 0;
          euclidean_mean := eu;
          consensus_score := c * (7 / 10) + eu * (3 / 10);
          variance_penalty := 0;
          range_penalty := 0;
          final_confidence := c * (7 / 10) + eu * (3 / 10) |}.
Proof.
  unfold statistics.
  change [c] with (repeat c 1). rewrite std_repeat, mean_repeat.
  change [eu] with (repeat eu 1). rewrite mean_repeat.
  change (maxl c []) with c. change (minl c []) with c.
  replace (c - c) with 0 by lra.
  replace (0 / (c + 1 / 100000000) * 2) with 0 by (unfold Rdiv; lra).
  replace (0 * 3) with 0 by lra.
  rewrite Rmin_right by lra.
  f_equal. f_equal. lra.
Qed.

Lemma dim_cosine : cosine dim_live dim_enrolled = 28 / 53.
Proof.
  assert (Hl : magnitude dim_live = 44 / 1000).
  { unfold magnitude, dot_product, dim_live.
    cbn [combine map Rsum fold_right fst snd]. apply sqrt_unique; lra. }
  assert (He : magnitude dim_enrolled = 265 / 10000).
  { unfold magnitude, dot_product, dim_enrolled.
    cbn [combine map Rsum fold_right fst snd]. apply sqrt_unique; lra. }
  unfold cosine. rewrite Hl, He.
  unfold dot_product, dim_live, dim_enrolled.
  cbn [combine map Rsum fold_right fst snd].
  rewrite Rmax_right; lra.
Qed.

Lemma dim_euclidean : euclidean_similarity dim_live dim_enrolled = 10000 / 10375.
Proof.
  unfold euclidean_similarity, euclidean_distance, dim_live, dim_enrolled.
  cbn [combine map Rsum fold_right fst snd].
  rewrite (sqrt_unique _ (375 / 10000)) by lra. lra.
Qed.

Lemma dim_analysis :
  _advanced_similarity_analysis dim_live [dim_enrolled]
  = statistics [28 / 53] [10000 / 10375].
Proof.
  rewrite analysis_closed_form by (repeat constructor).
  unfold cosines, euclideans. cbn [map].
  now rewrite dim_cosine, dim_euclidean.
Qed.

End DimExample.

(** ** Claims about the face matcher *)

Section FaceMatcher.

Import FaceRecognitionService Spec Examples.
Open Scope R_scope.

(** C1, as stated, fails.  With the service as constructed, the live embedding
    [dim_live] and the single enrolled embedding [dim_enrolled], the raw
    similarity is 28/53, below the minimum baseline 0.55 and below the
    override point 0.9; the four other checks pass, and [verify_faces]
    answers [match = True], although a critical check failed. *)
Lemma standard_mode_accepts_below_baseline :
  exists c,
    verify_faces init (Extracted dim_live) [dim_enrolled] = Compared c
    /\ fr_high_similarity_override c = false
    /\ check "Minimum baseline" c = false
    /\ passed_checks c = 4%nat
    /\ fr_match c = true
    /\ claimed_rule c = false.
Proof.
  eexists. split.
  - unfold verify_faces. cbn [testing_mode init].
    rewrite dim_analysis, statistics_single. reflexivity.
  - unfold claimed_rule, critical_pass, passed_checks, check, security_validation.
    cbn [fr_match fr_high_similarity_override fr_security_checks
         cosine_similarity final_confidence consensus_score variance_penalty
         range_penalty threshold consensus_threshold min_acceptable_threshold
         high_similarity_override init].
    assert (H1 : Rgeb (28 / 53) (9 / 10) = false) by (apply Rgeb_false; lra).
    rewrite H1.
    assert (H2 : Rgeb (28 / 53 * (7 / 10) + 10000 / 10375 * (3 / 10)) (65 / 100)
                 = true) by (apply Rgeb_true; lra).
    assert (H3 : Rltb 0 (5 / 10) = true) by (apply Rltb_true; lra).
    assert (H4 : Rltb 0 (3 / 10) = true) by (apply Rltb_true; lra).
    assert (H5 : Rgeb (28 / 53) (55 / 100) = false) by (apply Rgeb_false; lra).
    rewrite H2, H3, H4, H5. repeat split; reflexivity.
Qed.

(** C1, amended: with testing mode off, [verify_faces] answers
    [match = True] exactly when a comparison was completed and, in
    high-similarity-override mode, both critical checks passed, or, in
    standard mode, at least four of the five checks passed, whichever they
    are. *)
Theorem verify_faces_match_rule (self : service) (live_image : extraction)
  (stored_embeddings : list embedding) :
  testing_mode self = false ->
  get_match (verify_faces self live_image stored_embeddings) = true
  <-> exists c,
        verify_faces self live_image stored_embeddings = Compared c
        /\ (if fr_high_similarity_override c
            then check "Primary threshold" c && check "Minimum baseline" c
            else (4 <=? passed_checks c)%nat) = true.
Proof.
  intros Htest. unfold verify_faces. rewrite Htest.
  destruct stored_embeddings as [|e stored].
  { split; [discriminate | intros (c & Hc & _); discriminate]. }
  destruct live_image as [live| |msg];
    try (split; [discriminate | intros (c & Hc & _); discriminate]).
  destruct (_advanced_similarity_analysis live (e :: stored)) as [a|x];
    [|split; [discriminate | intros (c & Hc & _); discriminate]].
  cbn [get_match]. rewrite security_validation_rule.
  split.
  - intros H. eexists. split; [reflexivity | exact H].
  - intros (c & Hc & H). injection Hc as <-. exact H.
Qed.

Lemma verify_faces_match_rule_witness :
  get_match (verify_faces init (Extracted dim_live) [dim_enrolled]) = true
  <-> exists c,
        verify_faces init (Extracted dim_live) [dim_enrolled] = Compared c
        /\ (if fr_high_similarity_override c
            then check "Primary threshold" c && check "Minimum baseline" c
            else (4 <=? passed_checks c)%nat) = true.
Proof.
  apply (verify_faces_match_rule init (Extracted dim_live) [dim_enrolled]).
  reflexivity.
Defined.

End FaceMatcher.

Section SimilarityClaims.

Import FaceRecognitionService Spec Examples.
Open Scope R_scope.

(** C2: for a live embedding and a non-empty list of enrolled embeddings of
    its dimension, the analysis returns, and its consensus score, variance
    penalty, range penalty and final confidence are the values of the
    specification's formulas. *)
Theorem analysis_computes_spec_formulas (live : embedding)
  (enrolled : list embedding) :
  enrolled <> [] ->
  Forall (fun e => List.length e = List.length live) enrolled ->
  exists a,
    _advanced_similarity_analysis live enrolled = Ok a
    /\ consensus_score a = spec_consensus_score live enrolled
    /\ variance_penalty a = spec_variance_penalty live enrolled
    /\ range_penalty a = spec_range_penalty live enrolled
    /\ final_confidence a = spec_final_confidence live enrolled.
Proof.
  intros Hne Hdim. rewrite analysis_closed_form by exact Hdim.
  unfold spec_final_confidence, spec_consensus_score, spec_variance_penalty,
    spec_range_penalty.
  destruct enrolled as [|e rest]; [contradiction|].
  unfold cosines, euclideans. cbn [map].
  set (c := cosine live e). set (cs := map (cosine live) rest).
  set (es := euclidean_similarity live e :: map (euclidean_similarity live) rest).
  unfold statistics. eexists. split; [reflexivity|].
  cbn [consensus_score variance_penalty range_penalty final_confidence].
  rewrite maxl_maximum, minl_minimum, std_std_dev.
  change (mean (c :: cs)) with (average (c :: cs)).
  change (mean es) with (average es).
  unfold epsilon.
  repeat split; try reflexivity; ring.
Qed.

Lemma analysis_computes_spec_formulas_witness :
  exists a,
    _advanced_similarity_analysis unit_x [unit_x; unit_y] = Ok a
    /\ consensus_score a = spec_consensus_score unit_x [unit_x; unit_y]
    /\ variance_penalty a = spec_variance_penalty unit_x [unit_x; unit_y]
    /\ range_penalty a = spec_range_penalty unit_x [unit_x; unit_y]
    /\ final_confidence a = spec_final_confidence unit_x [unit_x; unit_y].
Proof.
  apply (analysis_computes_spec_formulas unit_x [unit_x; unit_y]).
  - discriminate.
  - repeat constructor.
Defined.

(** C6: the confidence [verify_faces] returns lies in [0, 1], for every
    service, live image and enrolled set; and on every path that reports an
    error (no stored embeddings, no face in the live image, extraction
    failure, failed comparison) it is 0. *)
Theorem verify_faces_confidence_bounded (self : service)
  (live_image : extraction) (stored_embeddings : list embedding) :
  0 <= get_confidence (verify_faces self live_image stored_embeddings) <= 1
  /\ (forall error,
        verify_faces self live_image stored_embeddings = ErrorResult error ->
        get_match (verify_faces self live_image stored_embeddings) = false
        /\ get_confidence (verify_faces self live_image stored_embeddings) = 0).
Proof.
  split.
  - unfold verify_faces.
    destruct (testing_mode self); [cbn; lra|].
    destruct stored_embeddings as [|e stored]; [cbn; lra|].
    destruct live_image as [live| |msg]; try (cbn; lra).
    destruct (_advanced_similarity_analysis live (e :: stored)) as [a|x] eqn:Ha;
      [|cbn; lra].
    cbn [get_confidence security_validation fr_confidence].
    apply (analysis_bounds live (e :: stored) a Ha).
  - intros error H. rewrite H. split; reflexivity.
Qed.

(** The error paths of [verify_faces], with testing mode off. *)
Lemma verify_faces_error_paths (self : service) (live_image : extraction)
  (stored_embeddings : list embedding) :
  testing_mode self = false ->
  (stored_embeddings = []
   \/ live_image = NoFaceDetected
   \/ (exists msg, live_image = ExtractionRaises msg)
   \/ (exists live, live_image = Extracted live
        /\ Exists (fun e => List.length e <> List.length live) stored_embeddings)) ->
  exists error, verify_faces self live_image stored_embeddings = ErrorResult error.
Proof.
  intros Htest H. unfold verify_faces. rewrite Htest.
  destruct stored_embeddings as [|e stored]; [eauto|].
  destruct H as [H|[H|[[msg H]|(live & H & Hex)]]]; subst; try discriminate; eauto.
  destruct (_advanced_similarity_analysis live (e :: stored)) as [a|x] eqn:Ha;
    [|eauto].
  apply analysis_dimensions in Ha. apply Exists_exists in Hex.
  destruct Hex as (e' & Hin & Hlen). rewrite Forall_forall in Ha.
  now elim Hlen; apply Ha.
Qed.

End SimilarityClaims.

Section IdenticalInDoubles.

Import PrimFloat DoubleExamples.
#[local] Set Warnings "-inexact-float".
#[local] Open Scope float_scope.

(** C9, as stated, fails in the arithmetic the code runs in.  For the live
    embedding [1, 0] and three copies of the enrolled embedding [1, 8],
    every cosine similarity is the same number, yet their mean is the next
    number up: the standard deviation is 1.39e-17, not 0, and the variance
    penalty 2.24e-16, not 0.  The range penalty is 0. *)
Lemma identical_embeddings_penalty_in_doubles :
  exists a,
    Binary64._advanced_similarity_analysis live_one
      [one_eight; one_eight; one_eight] = Ok a
    /\ Binary64.cosine_similarity a = 0.12403473458920847
    /\ Binary64.cosine_min a = 0.12403473458920847
    /\ Binary64.cosine_mean a = 0.12403473458920848
    /\ Binary64.cosine_std a = 1.3877787807814457e-17
    /\ Binary64.range_penalty a = 0
    /\ Binary64.variance_penalty a = 2.2377258652446775e-16
    /\ ltb 0 (Binary64.variance_penalty a) = true.
Proof.
  eexists. split; [vm_compute; reflexivity|].
  vm_compute. repeat split.
Qed.

(** Rounding shows in other places of the analysis too: the cosine of
    [1, 1, 1] with itself is the number after 1, and the mean of the
    similarities of three enrolled embeddings depends on their order. *)
Example rounding_in_the_analysis :
  Binary64.compare_one ones ones = Ok (1.0000000000000002, 1)
  /\ (exists a b,
        Binary64._advanced_similarity_analysis live_one
          [[3; 4]; [4; 3]; [12; 5]] = Ok a
        /\ Binary64._advanced_similarity_analysis live_one
             [[12; 5]; [4; 3]; [3; 4]] = Ok b
        /\ Binary64.cosine_mean a = 0.77435897435897427
        /\ Binary64.cosine_mean b = 0.77435897435897438).
Proof.
  split; [vm_compute; reflexivity|].
  eexists. eexists. split; [vm_compute; reflexivity|].
  split; [vm_compute; reflexivity|]. vm_compute. split; reflexivity.
Qed.

End IdenticalInDoubles.

Section OverrideAndIdentical.

Import FaceRecognitionService Spec Examples.
Open Scope R_scope.

(** C8: with a positive base threshold and the override point 0.9, a
    comparison whose best raw cosine similarity is at least 0.9 is in
    override mode; the threshold compared against the final confidence is
    0.85 times the base threshold, strictly below it; the base threshold
    itself is reported unchanged, and a comparison by the same service whose
    raw similarity is below 0.9 is held to the base threshold. *)
Theorem high_similarity_override_relaxes_threshold (self : service)
  (live_image : extraction) (stored_embeddings : list embedding)
  (c : comparison) :
  0 < threshold self ->
  high_similarity_override self = 9 / 10 ->
  verify_faces self live_image stored_embeddings = Compared c ->
  9 / 10 <= fr_raw_similarity c ->
  fr_high_similarity_override c = true
  /\ fr_effective_threshold c = threshold self * (85 / 100)
  /\ fr_effective_threshold c < threshold self
  /\ check "Primary threshold" c
     = Rgeb (fr_confidence c) (fr_effective_threshold c)
  /\ fr_threshold c = threshold self
  /\ (forall live_image' stored_embeddings' c',
        verify_faces self live_image' stored_embeddings' = Compared c' ->
        fr_raw_similarity c' < 9 / 10 ->
        fr_effective_threshold c' = threshold self
        /\ check "Primary threshold" c'
           = Rgeb (fr_confidence c') (threshold self)).
Proof.
  intros Hpos Hpoint Hv Hraw.
  assert (Hshape : forall li st c0,
             verify_faces self li st = Compared c0 ->
             exists a n, c0 = security_validation self a n).
  { intros li st c0. unfold verify_faces.
    destruct (testing_mode self); [discriminate|].
    destruct st as [|e st]; [discriminate|].
    destruct li as [live| |msg]; try discriminate.
    destruct (_advanced_similarity_analysis live (e :: st)) as [a|x];
      [|discriminate].
    intros H. injection H as <-. eauto. }
  destruct (Hshape _ _ _ Hv) as (a & n & ->).
  unfold check, security_validation in *.
  cbn [fr_raw_similarity fr_high_similarity_override fr_effective_threshold
       fr_security_checks fr_confidence fr_threshold] in *.
  rewrite Hpoint.
  assert (Ho : Rgeb (cosine_similarity a) (9 / 10) = true)
    by (apply Rgeb_true; exact Hraw).
  rewrite Ho. cbn [find fst String.eqb Ascii.eqb Bool.eqb].
  split; [reflexivity|]. split; [reflexivity|]. split; [lra|].
  split; [reflexivity|]. split; [reflexivity|].
  intros li st c' Hv' Hraw'.
  destruct (Hshape _ _ _ Hv') as (a' & n' & ->).
  cbn [fr_raw_similarity fr_effective_threshold fr_security_checks
       fr_confidence] in *.
  rewrite Hpoint.
  assert (Ho' : Rgeb (cosine_similarity a') (9 / 10) = false)
    by (apply Rgeb_false; exact Hraw').
  rewrite Ho'. split; reflexivity.
Qed.

(** C9, amended: in exact arithmetic, when the enrolled embeddings are all
    equal (and of the dimension of the live embedding), the analysis
    returns with variance penalty 0 and range penalty 0. *)
Theorem identical_embeddings_no_penalty (live e : embedding)
  (enrolled : list embedding) :
  enrolled <> [] ->
  Forall (eq e) enrolled ->
  List.length e = List.length live ->
  exists a,
    _advanced_similarity_analysis live enrolled = Ok a
    /\ variance_penalty a = 0
    /\ range_penalty a = 0.
Proof.
  intros Hne Hall Hlen.
  apply Forall_eq_repeat in Hall.
  destruct enrolled as [|e0 rest]; [contradiction|].
  cbn [List.length] in Hall. set (n := List.length rest) in *.
  rewrite Hall.
  rewrite analysis_closed_form
    by (apply Forall_forall; intros x Hx; apply repeat_spec in Hx; now subst).
  unfold cosines, euclideans. rewrite !map_repeat.
  set (c := cosine live e). set (eu := euclidean_similarity live e).
  cbn [repeat]. unfold statistics.
  eexists. split; [reflexivity|].
  cbn [variance_penalty range_penalty].
  change (c :: repeat c n) with (repeat c (S n)).
  rewrite std_repeat, maxl_repeat, minl_repeat.
  split.
  - replace (0 / (mean (repeat c (S n)) + 1 / 100000000) * 2) with 0
      by (unfold Rdiv; lra).
    apply Rmin_right. lra.
  - replace ((c - c) * 3) with 0 by lra. apply Rmin_right. lra.
Qed.

End OverrideAndIdentical.

Section UnitExample.

Import FaceRecognitionService Spec Examples.
Open Scope R_scope.

Lemma unit_verify_faces :
  verify_faces init (Extracted unit_x) [unit_x] = Compared unit_comparison.
Proof.
  assert (Hm : magnitude unit_x = 1).
  { unfold magnitude, dot_product, unit_x.
    cbn [combine map Rsum fold_right fst snd]. apply sqrt_unique; lra. }
  assert (Hc : cosine unit_x unit_x = 1).
  { unfold cosine. rewrite Hm. unfold dot_product, unit_x.
    cbn [combine map Rsum fold_right fst snd]. rewrite Rmax_right; lra. }
  assert (He : euclidean_similarity unit_x unit_x = 1).
  { unfold euclidean_similarity, euclidean_distance, unit_x.
    cbn [combine map Rsum fold_right fst snd].
    rewrite (sqrt_unique _ 0) by lra. lra. }
  unfold verify_faces. cbn [testing_mode init].
  rewrite analysis_closed_form by (repeat constructor).
  unfold cosines, euclideans. cbn [map]. rewrite Hc, He, statistics_single.
  reflexivity.
Qed.

Lemma high_similarity_override_relaxes_threshold_witness :
  fr_high_similarity_override unit_comparison = true
  /\ fr_effective_threshold unit_comparison = threshold init * (85 / 100)
  /\ fr_effective_threshold unit_comparison < threshold init
  /\ check "Primary threshold" unit_comparison
     = Rgeb (fr_confidence unit_comparison) (fr_effective_threshold unit_comparison)
  /\ fr_threshold unit_comparison = threshold init
  /\ (forall live_image' stored_embeddings' c',
        verify_faces init live_image' stored_embeddings' = Compared c' ->
        fr_raw_similarity c' < 9 / 10 ->
        fr_effective_threshold c' = threshold init
        /\ check "Primary threshold" c'
           = Rgeb (fr_confidence c') (threshold init)).
Proof.
  apply (high_similarity_override_relaxes_threshold init (Extracted unit_x)
           [unit_x] unit_comparison).
  - cbn. lra.
  - reflexivity.
  - exact unit_verify_faces.
  - cbn. lra.
Defined.

Lemma identical_embeddings_no_penalty_witness :
  exists a,
    _advanced_similarity_analysis unit_x [unit_y; unit_y; unit_y] = Ok a
    /\ variance_penalty a = 0
    /\ range_penalty a = 0.
Proof.
  apply (identical_embeddings_no_penalty unit_x unit_y [unit_y; unit_y; unit_y]).
  - discriminate.
  - repeat constructor.
  - reflexivity.
Defined.

End UnitExample.

(** ** Liveness *)

Section Liveness.

Import FaceRecognitionService Spec.

Lemma scan_frames_spec (sequence : list frame) (count : nat) (acc : list Q) :
  scan_frames sequence count acc
  = ((count + frames_with_face sequence)%nat, (acc ++ areas sequence)%list).
Proof.
  revert count acc. unfold frames_with_face, areas.
  induction sequence as [|f sequence IH]; intros count acc.
  - cbn. now rewrite Nat.add_0_r, app_nil_r.
  - destruct f as [|[|[[[x y] w] h] faces]]; cbn [scan_frames].
    + rewrite IH. reflexivity.
    + rewrite IH. reflexivity.
    + rewrite IH. cbn [filter has_face flat_map first_face_area List.length].
      rewrite <- app_assoc. f_equal. lia.
Qed.

Lemma Qsum_repeat (a : Q) (n : nat) :
  (Qsum (repeat a n) == inject_Z (Z.of_nat n) * a)%Q.
Proof.
  induction n as [|n IH].
  - cbn. ring.
  - cbn [repeat Qsum fold_right]. fold (Qsum (repeat a n)). rewrite IH.
    rewrite Nat2Z.inj_succ. unfold Z.succ. rewrite inject_Z_plus. ring.
Qed.

Lemma inject_Z_succ_nonzero (n : nat) : ~ (inject_Z (Z.of_nat (S n)) == 0)%Q.
Proof.
  unfold Qeq. cbn [Qnum Qden inject_Z]. lia.
Qed.

Lemma Qmean_repeat (a : Q) (n : nat) : (Qmean (repeat a (S n)) == a)%Q.
Proof.
  unfold Qmean. rewrite Qsum_repeat, repeat_length.
  field. apply inject_Z_succ_nonzero.
Qed.

Lemma Qvar_repeat (a : Q) (n : nat) : (Qvar (repeat a (S n)) == 0)%Q.
Proof.
  unfold Qvar. rewrite map_repeat, Qmean_repeat.
  rewrite (Qmean_repeat a n). ring.
Qed.

End Liveness.

Section LivenessClaim.

Import FaceRecognitionService Spec.

(** C7: with testing mode off, [detect_liveness] on a sequence of at least
    three frames evaluates it; the detection rate is the share of frames
    showing a face, movement is a variance of the face areas above 100, and
    [liveness_passed] is [rate >= 0.7 and (movement or length <= 5)].  On a
    sequence of identical frames showing a face the rate is 1, no movement
    is detected, and the sequence passes exactly when it has at most five
    frames: five such frames pass, ten fail. *)
Theorem liveness_pass_rule (self : service) (image_sequence : list frame) :
  testing_mode self = false ->
  (3 <= List.length image_sequence)%nat ->
  exists e,
    detect_liveness self image_sequence = Evaluated e
    /\ lv_liveness_passed e
       = Qgeb (lv_face_detection_rate e) (7 # 10)
         && (lv_movement_detected e || (List.length image_sequence <=? 5)%nat)
    /\ lv_face_detection_rate e
       = (inject_Z (Z.of_nat (frames_with_face image_sequence))
          / inject_Z (Z.of_nat (List.length image_sequence)))%Q
    /\ lv_movement_detected e
       = (1 <? List.length (areas image_sequence))%nat
         && Qgtb (Qvar (areas image_sequence)) 100
    /\ (forall face faces,
          image_sequence
          = repeat (Decoded (face :: faces)) (List.length image_sequence) ->
          (lv_face_detection_rate e == 1)%Q
          /\ lv_movement_detected e = false
          /\ lv_liveness_passed e = (List.length image_sequence <=? 5)%nat).
Proof.
  intros Htest Hlen. unfold detect_liveness. rewrite Htest.
  apply Nat.ltb_ge in Hlen. rewrite Hlen.
  rewrite scan_frames_spec. cbn [Nat.add app].
  eexists. split; [reflexivity|].
  cbn [lv_liveness_passed lv_face_detection_rate lv_movement_detected].
  split; [reflexivity|]. split; [reflexivity|].
  split.
  { destruct (1 <? List.length (areas image_sequence))%nat; reflexivity. }
  intros face faces Hrep.
  apply Nat.ltb_ge in Hlen.
  destruct (List.length image_sequence) as [|n] eqn:Hn; [lia|].
  assert (Hcount : frames_with_face image_sequence = S n).
  { rewrite Hrep. unfold frames_with_face. clear.
    generalize (S n). intros k. induction k as [|k IH]; [reflexivity|].
    cbn [repeat filter has_face List.length]. now rewrite IH. }
  assert (Hareas : exists a, areas image_sequence = repeat a (S n)).
  { destruct face as [[[x y] w] h]. exists (inject_Z (w * h)).
    rewrite Hrep. unfold areas. clear.
    generalize (S n). intros k. induction k as [|k IH]; [reflexivity|].
    cbn [repeat flat_map first_face_area app]. now rewrite IH. }
  destruct Hareas as [a Hareas].
  assert (Hrate : (inject_Z (Z.of_nat (frames_with_face image_sequence))
                   / inject_Z (Z.of_nat (S n)) == 1)%Q).
  { rewrite Hcount. field. apply inject_Z_succ_nonzero. }
  assert (Hmove : (if (1 <? List.length (areas image_sequence))%nat
                   then Qgtb (Qvar (areas image_sequence)) 100
                   else false) = false).
  { destruct (1 <? List.length (areas image_sequence))%nat; [|reflexivity].
    rewrite Hareas. unfold Qgtb. apply negb_false_iff.
    apply Qle_bool_iff. rewrite Qvar_repeat. discriminate. }
  split; [exact Hrate|]. split; [exact Hmove|].
  rewrite Hmove. cbn [orb].
  replace (Qgeb _ (7 # 10)) with true; [reflexivity|].
  symmetry. unfold Qgeb. apply Qle_bool_iff. rewrite Hrate. discriminate.
Qed.

End LivenessClaim.

Section LivenessExamples.

Import FaceRecognitionService Spec Examples.

Lemma liveness_pass_rule_witness :
  exists e,
    detect_liveness init five_still_frames = Evaluated e
    /\ lv_liveness_passed e
       = Qgeb (lv_face_detection_rate e) (7 # 10)
         && (lv_movement_detected e || (List.length five_still_frames <=? 5)%nat)
    /\ lv_face_detection_rate e
       = (inject_Z (Z.of_nat (frames_with_face five_still_frames))
          / inject_Z (Z.of_nat (List.length five_still_frames)))%Q
    /\ lv_movement_detected e
       = (1 <? List.length (areas five_still_frames))%nat
         && Qgtb (Qvar (areas five_still_frames)) 100
    /\ (forall face faces,
          five_still_frames
          = repeat (Decoded (face :: faces)) (List.length five_still_frames) ->
          (lv_face_detection_rate e == 1)%Q
          /\ lv_movement_detected e = false
          /\ lv_liveness_passed e = (List.length five_still_frames <=? 5)%nat).
Proof.
  apply (liveness_pass_rule init five_still_frames).
  - reflexivity.
  - vm_compute. lia.
Defined.

(** The two sequences of the specification, evaluated. *)
Example five_still_frames_pass :
  get_liveness_passed (detect_liveness init five_still_frames) = true.
Proof. vm_compute. reflexivity. Qed.

Example ten_still_frames_fail :
  get_liveness_passed (detect_liveness init ten_still_frames) = false.
Proof. vm_compute. reflexivity. Qed.

Example moving_frames_pass :
  get_liveness_passed (detect_liveness init moving_frames) = true.
Proof. vm_compute. reflexivity. Qed.

(** Three faces in six frames: the detection rate 1/2 is below 0.7. *)
Example patchy_frames_fail :
  detect_liveness init patchy_frames
  = Evaluated {| lv_liveness_passed := false;
                 lv_face_detection_rate := (3 # 1) / (6 # 1);
                 lv_movement_detected := true;
                 lv_frames_processed := 6;
                 lv_face_areas_variance :=
                   Qvar [inject_Z 40000; inject_Z 57600; inject_Z 40000] |}.
Proof. vm_compute. reflexivity. Qed.

End LivenessExamples.

(** ** Temporal analysis *)

Section Temporal.

Import FaceRecognitionService Spec Examples.
Open Scope R_scope.

Lemma within_counted (now seconds : Z) (a : attempt) :
  (0 < seconds)%Z -> well_timed a ->
  within now seconds a = Ok (counted now seconds a).
Proof.
  intros Hs Hw. unfold within, age, counted, well_timed in *.
  destruct (timestamp a) as [[t|t|]|]; try contradiction; cbn [bind].
  - reflexivity.
  - rewrite Z.sub_diag. f_equal. apply Z.ltb_lt. lia.
Qed.

Lemma filterM_within (now seconds : Z) (attempts : list attempt) :
  (0 < seconds)%Z -> Forall well_timed attempts ->
  filterM (within now seconds) attempts
  = Ok (filter (counted now seconds) attempts).
Proof.
  intros Hs. induction 1 as [|a attempts Ha _ IH]; cbn [filterM filter].
  - reflexivity.
  - rewrite (within_counted now seconds a Hs Ha), IH. reflexivity.
Qed.

Lemma within_raises (now seconds : Z) (a : attempt) :
  ~ well_timed a -> exists e, within now seconds a = Raise e.
Proof.
  unfold within, age, well_timed.
  destruct (timestamp a) as [[t|t|]|]; intros H;
    try (now elim H); cbn [bind]; eexists; reflexivity.
Qed.

Lemma filterM_within_raises (now seconds : Z) (attempts : list attempt) :
  Exists (fun a => ~ well_timed a) attempts ->
  exists e, filterM (within now seconds) attempts = Raise e.
Proof.
  induction 1 as [a attempts Ha|a attempts _ IH]; cbn [filterM].
  - destruct (within_raises now seconds a Ha) as [e He]. rewrite He.
    eexists; reflexivity.
  - destruct IH as [e He].
    destruct (within now seconds a) as [b|e']; cbn [bind].
    + rewrite He. eexists; reflexivity.
    + eexists; reflexivity.
Qed.

Lemma mapM_parsed_time (now : Z) (attempts : list attempt) :
  Forall well_timed attempts ->
  exists times,
    mapM (parsed_time now) attempts = Ok times
    /\ List.length times = List.length attempts.
Proof.
  induction 1 as [|a attempts Ha _ (times & Ht & Hl)]; cbn [mapM].
  - exists []. split; reflexivity.
  - unfold parsed_time at 1. unfold well_timed in Ha.
    destruct (timestamp a) as [[t|t|]|]; try contradiction; cbn [bind];
      rewrite Ht; cbn [bind]; eexists; (split; [reflexivity|]);
      cbn [List.length]; now rewrite Hl.
Qed.

Lemma Forall_filter_weaken {A : Type} (P : A -> Prop) (f : A -> bool) (l : list A) :
  Forall P l -> Forall P (filter f l).
Proof.
  intros H. apply Forall_forall. intros x Hx. apply filter_In in Hx.
  rewrite Forall_forall in H. now apply H.
Qed.

End Temporal.

Section TemporalClaim.

Import FaceRecognitionService Spec Examples.
Open Scope R_scope.

(** C5, as stated, fails on both counts.  A history holding a row whose
    timestamp does not parse makes the analyzer raise: the row is not
    skipped.  And rows without timestamp are not excluded from the windows:
    eleven of them are eleven attempts in the last hour, and the analyzer
    recommends blocking. *)
Lemma malformed_history_raises_and_untimed_counts :
  analyze_temporal_security_patterns 0 [timed_attempt; malformed_attempt] (8 / 10)
  = Raise (ValueError "Invalid isoformat string")
  /\ exists r,
       analyze_temporal_security_patterns 0 (repeat untimed_attempt 11) (8 / 10)
       = Ok r
       /\ total_attempts_24h r = 11%nat
       /\ total_attempts_1h r = 11%nat
       /\ should_block r = true.
Proof.
  split.
  - reflexivity.
  - eexists. split; [reflexivity|]. repeat split; reflexivity.
Qed.

(** C5, amended: when every timestamp that is present parses to a naive
    datetime, the analyzer returns, and its two windows count the rows
    [counted] selects; a row without timestamp is taken to be made now and
    is counted in both windows; a row whose timestamp is malformed or
    timezone-aware makes the analyzer raise. *)
Theorem temporal_analysis_timestamps (now : Z) (recent_attempts : list attempt)
  (current_confidence : R) :
  (Forall well_timed recent_attempts ->
   exists r,
     analyze_temporal_security_patterns now recent_attempts current_confidence
     = Ok r
     /\ total_attempts_24h r
        = List.length (filter (counted now 86400) recent_attempts)
     /\ total_attempts_1h r
        = List.length (filter (counted now 3600) recent_attempts))
  /\ (forall a, timestamp a = None ->
        counted now 86400 a = true /\ counted now 3600 a = true)
  /\ (Exists (fun a => ~ well_timed a) recent_attempts ->
      exists e,
        analyze_temporal_security_patterns now recent_attempts current_confidence
        = Raise e).
Proof.
  split; [|split].
  - intros Hw. unfold analyze_temporal_security_patterns.
    rewrite !filterM_within by (assumption || lia). cbn [bind].
    set (recent_24h := filter (counted now 86400) recent_attempts).
    set (failed_attempts := filter failed recent_24h).
    assert (Hf : Forall well_timed failed_attempts).
    { unfold failed_attempts, recent_24h.
      now apply Forall_filter_weaken, Forall_filter_weaken. }
    destruct (mapM_parsed_time now failed_attempts Hf) as (times & Ht & Hl).
    destruct ((3 <=? List.length failed_attempts)%nat
              && Rgtb current_confidence (5 / 10)) eqn:Hcond.
    + rewrite Ht. cbn [bind].
      destruct times as [|t ts].
      * apply andb_prop in Hcond. destruct Hcond as [Hcond _].
        apply Nat.leb_le in Hcond. cbn [List.length] in Hl. lia.
      * cbn [bind]. eexists. split; [reflexivity|]. split; reflexivity.
    + cbn [bind]. eexists. split; [reflexivity|]. split; reflexivity.
  - intros a Ha. unfold counted. rewrite Ha. split; reflexivity.
  - intros Hex. unfold analyze_temporal_security_patterns.
    destruct (filterM_within_raises now 86400 recent_attempts Hex) as [e He].
    rewrite He. cbn [bind]. eexists; reflexivity.
Qed.

End TemporalClaim.

(** ** Loading the enrolled set *)

Section LoadingClaim.

Import AttendanceRouter RouterExamples.

Lemma floats_convertible {num : Type} (values : list num) :
  floats (map Some values) = Some values.
Proof.
  induction values as [|v values IH]; cbn [map floats].
  - reflexivity.
  - now rewrite IH.
Qed.

(** C4, as stated, fails.  Of three stored rows, one holding [nan], one
    holding [inf] and one finite, the loading loop keeps all three: the
    enrolled set handed to the scoring is not the set with the non-finite
    embeddings removed. *)
Lemma nonfinite_embeddings_are_loaded :
  load_embeddings [nan_row; inf_row; finite_row]
  = [[NaN; Finite 1]; [Finite 0; PosInf]; [Finite 1; Finite 0]]
  /\ load_embeddings [nan_row; inf_row; finite_row]
     <> load_embeddings [finite_row]
  /\ existsb (fun e => negb (forallb is_finite e))
       (load_embeddings [nan_row; inf_row; finite_row]) = true.
Proof.
  split; [reflexivity|]. split; [discriminate | reflexivity].
Qed.

(** C4, amended: the loading loop keeps a stored embedding exactly when it
    is, or decodes to, a non-empty list all of whose items [float()]
    converts; it tests no value for finiteness, so rows holding NaN or an
    infinity are kept, in order; and [verify_faces] scores against every
    embedding it is handed: in a completed comparison every stored
    embedding has the dimension of the live one, the raw similarity is the
    maximum of the cosine similarities with all of them, the consensus
    score, the penalties and the confidence are the specification's
    formulas over the whole list, and the count reported is its length. *)
Theorem loading_drops_only_malformed (data : list (column pyfloat)) :
  (forall e,
      In e (load_embeddings data)
      <-> exists record, In record data /\ load_one record = Some e)
  /\ (forall record e,
        load_one record = Some e <->
        exists items : list (option pyfloat),
          (record = Native (ListValue items)
           \/ record = Text (Some (ListValue items)))
          /\ items <> [] /\ floats items = Some e)
  /\ (forall rows : list (list pyfloat),
        Forall (fun row => row <> []) rows ->
        load_embeddings (map (fun row => Native (ListValue (map Some row))) rows)
        = rows)
  /\ (forall self live_image stored_embeddings c,
        FaceRecognitionService.verify_faces self live_image stored_embeddings
        = FaceRecognitionService.Compared c ->
        exists live,
          live_image = FaceRecognitionService.Extracted live
          /\ Forall (fun e => List.length e = List.length live) stored_embeddings
          /\ FaceRecognitionService.fr_total_embeddings_compared c
             = List.length stored_embeddings
          /\ FaceRecognitionService.fr_raw_similarity c
             = Spec.maximum (Spec.cosines live stored_embeddings)
          /\ FaceRecognitionService.fr_consensus_score c
             = Spec.spec_consensus_score live stored_embeddings
          /\ FaceRecognitionService.fr_variance_penalty c
             = Spec.spec_variance_penalty live stored_embeddings
          /\ FaceRecognitionService.fr_range_penalty c
             = Spec.spec_range_penalty live stored_embeddings
          /\ FaceRecognitionService.fr_confidence c
             = Spec.spec_final_confidence live stored_embeddings)%R.
Proof.
  split; [|split; [|split]].
  - intros e. induction data as [|record data IH]; cbn [load_embeddings].
    + split; [contradiction | intros (r & [] & _)].
    + destruct (load_one record) as [e'|] eqn:Hr.
      * cbn [In]. rewrite IH. split.
        -- intros [<-|(r & Hin & Hl)].
           ++ exists record. split; [now left | exact Hr].
           ++ exists r. split; [now right | exact Hl].
        -- intros (r & [<-|Hin] & Hl).
           ++ left. congruence.
           ++ right. exists r. split; assumption.
      * rewrite IH. split.
        -- intros (r & Hin & Hl). exists r. split; [now right | exact Hl].
        -- intros (r & [<-|Hin] & Hl); [congruence|].
           exists r. split; assumption.
  - intros record e. unfold load_one. split.
    + destruct record as [[[[|i items]|]|]|[[|i items]|]]; try discriminate;
        intros H; exists (i :: items); (split; [auto|]);
        (split; [discriminate | exact H]).
    + intros (items & [->| ->] & Hne & Hf);
        (destruct items; [contradiction | exact Hf]).
  - intros rows. induction 1 as [|row rows Hrow _ IH]; cbn [map load_embeddings].
    + reflexivity.
    + unfold load_one. destruct row as [|v row]; [contradiction|].
      cbn [map]. change (Some v :: map Some row) with (map Some (v :: row)).
      rewrite floats_convertible, IH. reflexivity.
  - intros self live_image stored_embeddings c.
    unfold FaceRecognitionService.verify_faces.
    destruct (FaceRecognitionService.testing_mode self); [discriminate|].
    destruct stored_embeddings as [|e stored]; [discriminate|].
    destruct live_image as [live| |msg]; try discriminate.
    destruct (FaceRecognitionService._advanced_similarity_analysis live (e :: stored))
      as [a|x] eqn:Ha; [|discriminate].
    intros H. injection H as <-. exists live.
    pose proof (analysis_dimensions live (e :: stored) a Ha) as Hdim.
    rewrite analysis_closed_form in Ha by exact Hdim.
    split; [reflexivity|]. split; [exact Hdim|]. split; [reflexivity|].
    unfold Spec.spec_final_confidence, Spec.spec_consensus_score,
      Spec.spec_variance_penalty, Spec.spec_range_penalty.
    unfold Spec.cosines, Spec.euclideans in *. cbn [map] in *.
    set (c := Spec.cosine live e) in *.
    set (cs := map (Spec.cosine live) stored) in *.
    set (es := Spec.euclidean_similarity live e
               :: map (Spec.euclidean_similarity live) stored) in *.
    unfold FaceRecognitionService.statistics in Ha. injection Ha as <-.
    unfold FaceRecognitionService.security_validation.
    cbn [FaceRecognitionService.fr_raw_similarity
         FaceRecognitionService.fr_consensus_score
         FaceRecognitionService.fr_variance_penalty
         FaceRecognitionService.fr_range_penalty
         FaceRecognitionService.fr_confidence
         FaceRecognitionService.cosine_similarity
         FaceRecognitionService.consensus_score
         FaceRecognitionService.variance_penalty
         FaceRecognitionService.range_penalty
         FaceRecognitionService.final_confidence].
    rewrite maxl_maximum, minl_minimum, std_std_dev.
    change (Num.mean (c :: cs)) with (Spec.average (c :: cs)).
    change (Num.mean es) with (Spec.average es).
    unfold Spec.epsilon.
    repeat split; try reflexivity; ring.
Qed.

End LoadingClaim.

(** ** Network verification *)

Section NetworkClaim.

Import NetworkVerificationService RouterExamples.
Open Scope string_scope.

Lemma outside_ip_parsed : ip_address outside_ip = Some (ipv4 203 0 113 5).
Proof. vm_compute. reflexivity. Qed.

Lemma outside_ip_not_in_campus_range :
  in_network (ipv4 203 0 113 5) campus_range = false.
Proof. vm_compute. reflexivity. Qed.

(** C3, as stated, fails: with the allowed range [192.168.0.0/16], an SSID
    that matches neither the allow-list nor a hotspot pattern and the
    client address 203.0.113.5, [verify_network_access] reports the address
    and the network as verified. *)
Lemma bypass_verifies_outside_address :
  let self := campus_service ["CampusNet"] in
  let result :=
    verify_network_access self {| ssid := Some "CoffeeShop" |} outside_ip in
  ssid_check_verified (_verify_ssid self "CoffeeShop") = false
  /\ _is_mobile_hotspot_pattern "CoffeeShop" = false
  /\ ip_verified result = true
  /\ network_verified result = true.
Proof.
  cbv zeta. split; [vm_compute; reflexivity|].
  split; [vm_compute; reflexivity|]. split; reflexivity.
Qed.

(** C3, amended: [verify_network_access] is bypassed for testing and
    reports every attempt as verified, whatever the address; the
    range check itself, [_verify_ip_range], does not verify 203.0.113.5
    against [192.168.0.0/16]; and the statements behind the bypass, for an
    SSID that matches neither the allow-list nor a hotspot pattern, give
    [ip_verified = False] and [network_verified = False]. *)
Theorem network_bypass_and_range_check (is_private : N -> bool)
  (ssids : list string) (info : network_info) :
  let self := campus_service ssids in
  (forall client_ip,
      network_verified (verify_network_access self info client_ip) = true
      /\ ip_verified (verify_network_access self info client_ip) = true
      /\ ssid_verified (verify_network_access self info client_ip) = true
      /\ checks_performed (verify_network_access self info client_ip)
         = ["testing_bypass"])
  /\ ip_check_verified (_verify_ip_range self outside_ip) = false
  /\ (let name := strip (match ssid info with Some s => s | None => "" end) in
      ssid_check_verified (_verify_ssid self name) = false ->
      _is_mobile_hotspot_pattern name = false ->
      ip_verified (real_implementation is_private self info outside_ip) = false
      /\ network_verified (real_implementation is_private self info outside_ip)
         = false).
Proof.
  cbv zeta.
  assert (Hip : ip_check_verified (_verify_ip_range (campus_service ssids) outside_ip)
                = false).
  { unfold _verify_ip_range. rewrite outside_ip_parsed.
    cbn [allowed_ip_ranges campus_service find].
    rewrite outside_ip_not_in_campus_range. reflexivity. }
  split; [|split].
  - intros client_ip. repeat split; reflexivity.
  - exact Hip.
  - intros Hssid Hhot. unfold real_implementation.
    set (name := strip (match ssid info with Some s => s | None => "" end)) in *.
    rewrite Hhot, Hip.
    destruct (String.eqb name ""); cbn [ip_verified network_verified].
    + split; reflexivity.
    + rewrite Hssid. split; reflexivity.
Qed.

End NetworkClaim.

(** ** The pipeline *)

Section PipelineClaim.

Import AttendanceRouter RouterExamples.
Import FaceRecognitionService Examples.
Open Scope R_scope.

(** C10: when the face matched and the temporal step (the history query or
    the analysis) raises, the error is recorded under
    [security_check_error], the attempt is neither blocked nor denied for
    its face, and the attendance record is handed to the table; when the
    insertion succeeds the response has [success = True]. *)
Theorem temporal_failure_is_fail_open
  (face_recognition_service : Face.service)
  (network_verification_service : Net.service)
  (req : request) (db : store) (data : list (column R)) (security_error : exn) :
  match liveness_sequence req with
  | Some ((_ :: _) as sequence) =>
      get_liveness_passed (detect_liveness face_recognition_service sequence) = true
  | _ => True
  end ->
  embeddings_query db = Ok data ->
  load_embeddings data <> [] ->
  get_match (verify_faces face_recognition_service (live_image req)
               (load_embeddings data)) = true ->
  temporal_step db (verify_faces face_recognition_service (live_image req)
                      (load_embeddings data)) = Raise security_error ->
  let out :=
    mark_attendance face_recognition_service network_verification_service req db in
  inserted out <> None
  /\ (forall resp, returned out = Ok resp ->
        resp_message resp <> TemporarilyBlocked
        /\ forall band, resp_message resp <> FaceVerificationFailed band)
  /\ (forall id ids, attendance_insert db = Ok (id :: ids) ->
        exists resp,
          returned out = Ok resp
          /\ resp_success resp = true
          /\ resp_message resp = AttendanceMarked
          /\ attendance_id resp = Some id
          /\ vd_security_check_error (resp_verification_details resp)
             = Some security_error
          /\ vd_temporal_security (resp_verification_details resp) = None).
Proof.
  intros Hlive Hquery Hstored Hmatch Hraise. cbv zeta.
  unfold mark_attendance.
  cbn [Net.verify_network_access Net.network_verified negb].
  assert (Hliveness :
    (match liveness_sequence req with
     | Some (_ :: _) => true
     | _ => false
     end
     && negb (get_liveness_passed
                match liveness_sequence req with
                | Some ((_ :: _) as sequence) =>
                    detect_liveness face_recognition_service sequence
                | _ => NoSequenceProvided
                end)) = false).
  { destruct (liveness_sequence req) as [[|f fs]|]; try reflexivity.
    rewrite Hlive. reflexivity. }
  rewrite Hliveness, Hquery.
  destruct data as [|record data']; [now elim Hstored|].
  set (rows := record :: data') in *.
  destruct (load_embeddings rows) as [|e stored] eqn:Hload; [now elim Hstored|].
  rewrite Hmatch. unfold advanced_security_checks. rewrite Hraise.
  unfold record_attendance. cbn [inserted returned].
  split; [discriminate|]. split.
  - intros resp. destruct (attendance_insert db) as [[|id ids]|x];
      intros H; try discriminate; injection H as <-; cbn [resp_message];
      split; try discriminate; intros band; discriminate.
  - intros id ids Hins. rewrite Hins. eexists. split; [reflexivity|].
    cbn. repeat split; reflexivity.
Qed.

Lemma unit_comparison_matches : fr_match unit_comparison = true.
Proof.
  unfold unit_comparison, security_validation, unit_analysis.
  cbn [fr_match cosine_similarity final_confidence consensus_score
       variance_penalty range_penalty threshold consensus_threshold
       min_acceptable_threshold high_similarity_override init].
  assert (H1 : Rgeb 1 (9 / 10) = true) by (apply Rgeb_true; lra).
  assert (H2 : Rgeb (1 * (7 / 10) + 1 * (3 / 10)) (65 / 100 * (85 / 100)) = true)
    by (apply Rgeb_true; lra).
  assert (H3 : Rgeb 1 (55 / 100) = true) by (apply Rgeb_true; lra).
  rewrite H1, H2, H3. reflexivity.
Qed.

Lemma temporal_failure_is_fail_open_witness :
  let out := mark_attendance init (campus_service []) example_request example_store in
  inserted out <> None
  /\ (forall resp, returned out = Ok resp ->
        resp_message resp <> TemporarilyBlocked
        /\ forall band, resp_message resp <> FaceVerificationFailed band)
  /\ (forall id ids, attendance_insert example_store = Ok (id :: ids) ->
        exists resp,
          returned out = Ok resp
          /\ resp_success resp = true
          /\ resp_message resp = AttendanceMarked
          /\ attendance_id resp = Some id
          /\ vd_security_check_error (resp_verification_details resp)
             = Some (ValueError "Invalid isoformat string")
          /\ vd_temporal_security (resp_verification_details resp) = None).
Proof.
  apply (temporal_failure_is_fail_open init (campus_service []) example_request
           example_store [Native (ListValue [Some 1; Some 0])]
           (ValueError "Invalid isoformat string")).
  - exact I.
  - reflexivity.
  - discriminate.
  - change (load_embeddings [Native (ListValue [Some 1; Some 0])]) with [unit_x].
    cbn [live_image example_request]. rewrite unit_verify_faces.
    exact unit_comparison_matches.
  - reflexivity.
Defined.

End PipelineClaim.

(** ** Runs of the model on concrete inputs *)

Section Runs.

Import NetworkVerificationService RouterExamples.
Open Scope string_scope.

Example lower_run : lower "AndroidAP" = "androidap".
Proof. reflexivity. Qed.

Example strip_run : strip "  Campus Net  " = "Campus Net".
Proof. reflexivity. Qed.

Example ip_address_runs :
  ip_address "192.168.43.10" = Some (ipv4 192 168 43 10)
  /\ ip_address "256.1.1.1" = None
  /\ ip_address "01.2.3.4" = None
  /\ ip_address "1.2.3" = None
  /\ ip_address "unknown" = None.
Proof. repeat split; vm_compute; reflexivity. Qed.

Example range_check_runs :
  ip_check_verified (_verify_ip_range (campus_service []) "192.168.43.10") = true
  /\ ip_check_verified (_verify_ip_range (campus_service []) "10.0.0.7") = false
  /\ ip_check_verified (_verify_ip_range (campus_service []) "not an address") = false.
Proof. repeat split; vm_compute; reflexivity. Qed.

Example hotspot_pattern_runs :
  _is_mobile_hotspot_pattern "AndroidAP" = true
  /\ _is_mobile_hotspot_pattern "Dhanush" = false.
Proof. split; vm_compute; reflexivity. Qed.

Example ssid_runs :
  ssid_check_verified (_verify_ssid (campus_service ["KLU_Attendance"]) "klu_attendance")
  = true
  /\ ssid_check_verified (_verify_ssid (campus_service ["KLU_Attendance"]) "KLU")
     = true
  /\ ssid_check_verified (_verify_ssid (campus_service ["KLU_Attendance"]) "Guest")
     = false.
Proof. repeat split; vm_compute; reflexivity. Qed.

End Runs.

Section TemporalRuns.

Import FaceRecognitionService Examples.
Open Scope R_scope.

(** Twelve attempts within the last hour: the analyzer recommends blocking,
    at risk level HIGH. *)
Example twelve_attempts_block :
  exists r,
    analyze_temporal_security_patterns 0 (repeat timed_attempt 12) (9 / 10) = Ok r
    /\ should_block r = true
    /\ risk_level r = "HIGH"%string
    /\ security_recommendation r = "BLOCK"%string.
Proof.
  unfold analyze_temporal_security_patterns.
  cbn [repeat filterM within age timestamp timed_attempt bind Z.sub Z.ltb].
  change ((0 - -1000000 <? 86400 * 1000000)%Z) with true.
  change ((0 - -1000000 <? 3600 * 1000000)%Z) with true.
  cbn [bind filter failed success negb List.length Nat.leb Nat.ltb andb].
  cbn [truthy_confidence confidence_score].
  destruct (Req_dec_T (8 / 10) 0) as [H|_]; [lra|].
  cbn [map confidence_of confidence_score].
  assert (Hc : Rltb (9 / 10) (6 / 10) = false) by (apply Rltb_false; lra).
  rewrite Hc, andb_false_r.
  eexists. split; [reflexivity|]. repeat split; reflexivity.
Qed.

(** Three failures a minute ago, then a confident success: additional
    verification is recommended, nothing is blocked. *)
Example sudden_success_flagged :
  exists r,
    analyze_temporal_security_patterns 0 (repeat failed_attempt 3) (9 / 10) = Ok r
    /\ suspicious_patterns r = [sudden_success_after_failures]
    /\ should_block r = false
    /\ should_require_additional_verification r = true
    /\ risk_level r = "HIGH"%string.
Proof.
  unfold analyze_temporal_security_patterns.
  cbn [repeat filterM within age timestamp failed_attempt bind].
  change ((0 - -60000000 <? 86400 * 1000000)%Z) with true.
  change ((0 - -60000000 <? 3600 * 1000000)%Z) with true.
  cbn [bind filter failed success negb List.length Nat.leb Nat.ltb andb
       truthy_confidence confidence_score map].
  assert (Hc : Rgtb (9 / 10) (5 / 10) = true) by (apply Rgtb_true; lra).
  rewrite Hc.
  cbn [mapM parsed_time timestamp failed_attempt bind].
  change ((0 - Zmaxl (-60000000) [-60000000; -60000000] <? 600 * 1000000)%Z)
    with true.
  eexists. split; [reflexivity|]. repeat split; reflexivity.
Qed.

End TemporalRuns.

Section PipelineRuns.

Import AttendanceRouter RouterExamples.
Import FaceRecognitionService Examples.
Open Scope R_scope.

(** The example request, through the whole pipeline: the analysis raises on
    the unparsable timestamp, the error is recorded, attendance is marked. *)
Example example_request_marked :
  exists resp,
    returned (mark_attendance init (campus_service []) example_request example_store)
    = Ok resp
    /\ resp_success resp = true
    /\ attendance_id resp = Some 42%Z
    /\ vd_face_verification (resp_verification_details resp)
       = Some (Compared unit_comparison).
Proof.
  unfold mark_attendance.
  cbn [Net.verify_network_access Net.network_verified negb liveness_sequence
       example_request embeddings_query example_store andb].
  change (load_embeddings [Native (ListValue [Some 1; Some 0])]) with [unit_x].
  change (live_image example_request) with (Extracted unit_x).
  cbv beta iota.
  change (Face.verify_faces init (Extracted unit_x) _)
    with (verify_faces init (Extracted unit_x) [unit_x]).
  rewrite unit_verify_faces.
  cbn [get_match]. rewrite unit_comparison_matches.
  unfold advanced_security_checks.
  change (temporal_step example_store (Compared unit_comparison))
    with (@Raise temporal_result (ValueError "Invalid isoformat string")).
  unfold record_attendance. cbn [returned attendance_insert example_store].
  eexists. split; [reflexivity|]. repeat split; reflexivity.
Qed.

End PipelineRuns.

(** ** Instances of the conditional statements *)

Section Instances.

Import AttendanceRouter RouterExamples.
Import FaceRecognitionService Examples.
Open Scope R_scope.

Lemma verify_faces_confidence_bounded_witness :
  (0 <= get_confidence (verify_faces init (Extracted unit_x) [unit_x]) <= 1)
  /\ get_confidence (verify_faces init NoFaceDetected [unit_x]) = 0.
Proof.
  split.
  - apply (verify_faces_confidence_bounded init (Extracted unit_x) [unit_x]).
  - apply (verify_faces_confidence_bounded init NoFaceDetected [unit_x])
      with (error := "No face detected in live image"%string).
    reflexivity.
Defined.

Lemma temporal_analysis_timestamps_witness :
  (exists r,
     analyze_temporal_security_patterns 0 (repeat untimed_attempt 11) (8 / 10)
     = Ok r
     /\ total_attempts_24h r
        = List.length (filter (Spec.counted 0 86400) (repeat untimed_attempt 11))
     /\ total_attempts_1h r
        = List.length (filter (Spec.counted 0 3600) (repeat untimed_attempt 11)))
  /\ (exists e,
        analyze_temporal_security_patterns 0 [timed_attempt; malformed_attempt]
          (8 / 10) = Raise e).
Proof.
  split.
  - apply (temporal_analysis_timestamps 0 (repeat untimed_attempt 11) (8 / 10)).
    repeat constructor.
  - apply (temporal_analysis_timestamps 0 [timed_attempt; malformed_attempt]
             (8 / 10)).
    apply Exists_cons_tl, Exists_cons_hd. intros H. exact H.
Defined.

Lemma loading_drops_only_malformed_witness :
  load_embeddings
    (map (fun row => Native (ListValue (map Some row)))
       [[NaN; Finite 1]; [Finite 0; PosInf]; [Finite 1; Finite 0]])
  = [[NaN; Finite 1]; [Finite 0; PosInf]; [Finite 1; Finite 0]].
Proof.
  apply (loading_drops_only_malformed []).
  repeat constructor; discriminate.
Defined.

Lemma network_bypass_and_range_check_witness :
  Net.ip_verified
    (Net.real_implementation (fun _ => false) (campus_service ["CampusNet"%string])
       {| Net.ssid := Some "CoffeeShop"%string |} outside_ip) = false
  /\ Net.network_verified
       (Net.real_implementation (fun _ => false)
          (campus_service ["CampusNet"%string])
          {| Net.ssid := Some "CoffeeShop"%string |} outside_ip) = false.
Proof.
  apply (network_bypass_and_range_check (fun _ => false) ["CampusNet"%string]
           {| Net.ssid := Some "CoffeeShop"%string |}).
  - vm_compute. reflexivity.
  - vm_compute. reflexivity.
Defined.

End Instances.

(** * Further properties of the code *)

(** ** The similarity analysis: order and bounds *)

Section AnalysisInvariants.

Import FaceRecognitionService Spec.
Open Scope R_scope.

Lemma fold_max_upper (d x : R) (l : list R) :
  In x l -> x <= fold_right Rmax d l.
Proof.
  induction l as [|y l IH]; [contradiction|].
  intros [->|Hin]; cbn [fold_right].
  - apply Rmax_l.
  - eapply Rle_trans; [apply IH, Hin | apply Rmax_r].
Qed.

Lemma fold_min_lower (d x : R) (l : list R) :
  In x l -> fold_right Rmin d l <= x.
Proof.
  induction l as [|y l IH]; [contradiction|].
  intros [->|Hin]; cbn [fold_right].
  - apply Rmin_l.
  - eapply Rle_trans; [apply Rmin_r | apply IH, Hin].
Qed.

Lemma average_between_extremes (l : list R) :
  l <> [] -> minimum l <= average l <= maximum l.
Proof.
  intros Hne. apply average_bounds; [exact Hne|].
  apply Forall_forall. intros x Hx. split.
  - apply fold_min_lower, Hx.
  - apply fold_max_upper, Hx.
Qed.

(** What a returned analysis is made of. *)
Lemma analysis_inversion (live : embedding) (stored : list embedding)
  (a : analysis) :
  _advanced_similarity_analysis live stored = Ok a ->
  exists c cs es,
    Forall (fun x => 0 <= x <= 1) (c :: cs)
    /\ Forall (fun x => 0 <= x <= 1) es
    /\ List.length es = List.length (c :: cs)
    /\ statistics (c :: cs) es = Ok a.
Proof.
  intros H. pose proof (analysis_dimensions live stored a H) as Hdim.
  rewrite analysis_closed_form in H by exact Hdim.
  pose proof (cosines_bounded live stored) as Hc.
  pose proof (euclideans_bounded live stored) as He.
  assert (Hl : List.length (euclideans live stored)
               = List.length (cosines live stored)).
  { unfold cosines, euclideans. now rewrite !length_map. }
  destruct (cosines live stored) as [|c cs]; [discriminate|].
  exists c, cs, (euclideans live stored). auto.
Qed.

Lemma statistics_order (c : R) (cs es : list R) (a : analysis) :
  Forall (fun x => 0 <= x <= 1) (c :: cs) ->
  Forall (fun x => 0 <= x <= 1) es ->
  List.length es = List.length (c :: cs) ->
  statistics (c :: cs) es = Ok a ->
  0 <= cosine_min a
  /\ cosine_min a <= cosine_mean a
  /\ cosine_mean a <= cosine_similarity a
  /\ cosine_similarity a <= 1
  /\ cosine_range a = cosine_similarity a - cosine_min a
  /\ 0 <= euclidean_mean a <= 1
  /\ consensus_score a = cosine_mean a * (7 / 10) + euclidean_mean a * (3 / 10)
  /\ final_confidence a
     = consensus_score a * (1 - variance_penalty a * (3 / 10))
                         * (1 - range_penalty a * (2 / 10)).
Proof.
  intros Hcs Hes Hlen Hstat. unfold statistics in Hstat.
  injection Hstat as <-.
  cbn [cosine_min cosine_mean cosine_similarity cosine_range euclidean_mean
       consensus_score final_confidence variance_penalty range_penalty].
  rewrite maxl_maximum, minl_minimum.
  change (mean (c :: cs)) with (average (c :: cs)).
  change (mean es) with (average es).
  pose proof (average_between_extremes (c :: cs)) as Havg.
  assert (Hne : c :: cs <> []) by discriminate. specialize (Havg Hne).
  assert (Hmin : 0 <= minimum (c :: cs)).
  { unfold minimum. cbn [hd].
    assert (Hall : forall d l, 0 <= d -> Forall (fun x => 0 <= x <= 1) l ->
                               0 <= fold_right Rmin d l).
    { intros d l Hd. induction 1 as [|x l Hx _ IH]; cbn [fold_right];
        [exact Hd | apply Rmin_glb; [apply Hx | exact IH]]. }
    apply Hall; [|exact Hcs]. inversion Hcs; subst. lra. }
  assert (Hmax : maximum (c :: cs) <= 1).
  { unfold maximum. cbn [hd].
    assert (Hall : forall d l, d <= 1 -> Forall (fun x => 0 <= x <= 1) l ->
                               fold_right Rmax d l <= 1).
    { intros d l Hd. induction 1 as [|x l Hx _ IH]; cbn [fold_right];
        [exact Hd | apply Rmax_lub; [apply Hx | exact IH]]. }
    apply Hall; [|exact Hcs]. inversion Hcs; subst. lra. }
  assert (He : 0 <= average es <= 1).
  { apply average_bounds; [|exact Hes]. destruct es; discriminate. }
  repeat split; try reflexivity; lra.
Qed.

(** The facts about a returned analysis that the decision depends on. *)
Lemma analysis_summary (live : embedding) (stored : list embedding) (a : analysis) :
  _advanced_similarity_analysis live stored = Ok a ->
  0 <= variance_penalty a <= 1 /\ 0 <= range_penalty a <= 1
  /\ 0 <= consensus_score a
  /\ consensus_score a <= 7 / 10 * cosine_similarity a + 3 / 10
  /\ final_confidence a <= consensus_score a
  /\ final_confidence a
     = consensus_score a * (1 - variance_penalty a * (3 / 10))
                         * (1 - range_penalty a * (2 / 10)).
Proof.
  intros H.
  pose proof (analysis_bounds live stored a H) as (Hvp & Hrp & Hk & _).
  destruct (analysis_inversion live stored a H) as (c & cs & es & Hc & He & Hl & Hs).
  destruct (statistics_order c cs es a Hc He Hl Hs)
    as (H1 & H2 & H3 & H4 & H5 & H6 & H7 & H8).
  repeat split; try assumption; try lra.
  rewrite H8.
  assert (consensus_score a * (1 - variance_penalty a * (3 / 10))
          <= consensus_score a).
  { rewrite <- (Rmult_1_r (consensus_score a)) at 2.
    apply Rmult_le_compat_l; lra. }
  assert (0 <= consensus_score a * (1 - variance_penalty a * (3 / 10))).
  { apply Rmult_le_pos; lra. }
  eapply Rle_trans; [|eassumption].
  rewrite <- (Rmult_1_r (consensus_score a * _)) at 2.
  apply Rmult_le_compat_l; lra.
Qed.

(** X1: in exact arithmetic, the cosine statistics of a returned analysis
    are ordered, [0 <= min <= mean <= max <= 1], the reported range is
    [max - min], the final confidence never exceeds the consensus score,
    and the consensus score never exceeds [0.7 * max + 0.3]. *)
Theorem analysis_statistics_ordered (live : embedding)
  (stored : list embedding) (a : analysis) :
  _advanced_similarity_analysis live stored = Ok a ->
  0 <= cosine_min a
  /\ cosine_min a <= cosine_mean a
  /\ cosine_mean a <= cosine_similarity a
  /\ cosine_similarity a <= 1
  /\ cosine_range a = cosine_similarity a - cosine_min a
  /\ final_confidence a <= consensus_score a
  /\ consensus_score a <= 7 / 10 * cosine_similarity a + 3 / 10.
Proof.
  intros H.
  destruct (analysis_summary live stored a H) as (_ & _ & _ & Hk & Hf & _).
  destruct (analysis_inversion live stored a H) as (c & cs & es & Hc & He & Hl & Hs).
  destruct (statistics_order c cs es a Hc He Hl Hs)
    as (H1 & H2 & H3 & H4 & H5 & _).
  repeat split; assumption.
Qed.

End AnalysisInvariants.

(** ** The decision of the service as constructed *)

Section InitDecision.

Import FaceRecognitionService Spec Examples.
Open Scope R_scope.

Lemma unit_analysis_run :
  _advanced_similarity_analysis unit_x [unit_x] = Ok unit_analysis.
Proof.
  assert (Hm : magnitude unit_x = 1).
  { unfold magnitude, dot_product, unit_x.
    cbn [combine map Rsum fold_right fst snd]. apply sqrt_unique; lra. }
  assert (Hc : cosine unit_x unit_x = 1).
  { unfold cosine. rewrite Hm. unfold dot_product, unit_x.
    cbn [combine map Rsum fold_right fst snd]. rewrite Rmax_right; lra. }
  assert (He : euclidean_similarity unit_x unit_x = 1).
  { unfold euclidean_similarity, euclidean_distance, unit_x.
    cbn [combine map Rsum fold_right fst snd].
    rewrite (sqrt_unique _ 0) by lra. lra. }
  rewrite analysis_closed_form by (repeat constructor).
  unfold cosines, euclideans. cbn [map]. rewrite Hc, He, statistics_single.
  reflexivity.
Qed.

(** A completed comparison is the validation of a returned analysis. *)
Lemma verify_faces_compared (self : service) (live_image : extraction)
  (stored_embeddings : list embedding) (c : comparison) :
  verify_faces self live_image stored_embeddings = Compared c ->
  exists live a,
    live_image = Extracted live
    /\ _advanced_similarity_analysis live stored_embeddings = Ok a
    /\ c = security_validation self a (List.length stored_embeddings).
Proof.
  unfold verify_faces.
  destruct (testing_mode self); [discriminate|].
  destruct stored_embeddings as [|e stored]; [discriminate|].
  destruct live_image as [live| |msg]; try discriminate.
  destruct (_advanced_similarity_analysis live (e :: stored)) as [a|x] eqn:Ha;
    [|discriminate].
  intros H. injection H as <-. exists live, a. auto.
Qed.

Ltac decide_checks :=
  repeat match goal with
         | |- context [Rgeb ?x ?y] =>
             let H := fresh "Hge" in destruct (Rgeb x y) eqn:H;
             [apply Rgeb_true in H | apply Rgeb_false in H]
         | |- context [Rltb ?x ?y] =>
             let H := fresh "Hlt" in destruct (Rltb x y) eqn:H;
             [apply Rltb_true in H | apply Rltb_false in H]
         end.

(** With the thresholds of the service as constructed, the checks that
    have to pass for a match put the final confidence above 0.51. *)
Lemma init_match_floor (live_image : extraction)
  (stored_embeddings : list embedding) :
  get_match (verify_faces init live_image stored_embeddings) = true ->
  51 / 100 < get_confidence (verify_faces init live_image stored_embeddings).
Proof.
  destruct (verify_faces init live_image stored_embeddings) as [t|err|c] eqn:Hv;
    cbn [get_match get_confidence]; try discriminate.
  { unfold verify_faces in Hv. cbn [testing_mode init] in Hv.
    destruct stored_embeddings; [discriminate|].
    destruct live_image; try discriminate.
    destruct (_advanced_similarity_analysis _ _); discriminate. }
  destruct (verify_faces_compared init live_image stored_embeddings c Hv)
    as (live & a & _ & Ha & ->).
  destruct (analysis_summary live stored_embeddings a Ha)
    as (Hvp & Hrp & Hk0 & _ & _ & Hfinal).
  unfold security_validation.
  cbn [fr_match fr_confidence threshold consensus_threshold
       min_acceptable_threshold high_similarity_override init].
  set (k := consensus_score a) in *. set (f := final_confidence a) in *.
  set (vp := variance_penalty a) in *. set (rp := range_penalty a) in *.
  set (raw := cosine_similarity a) in *.
  assert (Hprod : 65 / 100 <= k -> vp < 5 / 10 -> rp < 3 / 10 -> 51 / 100 < f).
  { intros H1 H2 H3. rewrite Hfinal.
    assert (65 / 100 * (85 / 100) <= k * (1 - vp * (3 / 10))).
    { apply Rmult_le_compat; lra. }
    assert (65 / 100 * (85 / 100) * (94 / 100)
            <= k * (1 - vp * (3 / 10)) * (1 - rp * (2 / 10))).
    { apply Rmult_le_compat; lra. }
    lra. }
  destruct (Rgeb raw (9 / 10)) eqn:Ho; decide_checks;
    cbn; intros Hm; try discriminate; try lra; apply Hprod; lra.
Qed.

(** X2: the service as constructed never reports a match with a final
    confidence of 0.51 or less, although in standard mode the primary
    threshold check may be the one check that failed. *)
Theorem match_confidence_above_half (live_image : extraction)
  (stored_embeddings : list embedding) :
  get_match (verify_faces init live_image stored_embeddings) = true ->
  51 / 100 < get_confidence (verify_faces init live_image stored_embeddings).
Proof.
  exact (init_match_floor live_image stored_embeddings).
Qed.

Lemma match_confidence_above_half_witness :
  51 / 100 < get_confidence (verify_faces init (Extracted unit_x) [unit_x]).
Proof.
  apply (match_confidence_above_half (Extracted unit_x) [unit_x]).
  rewrite unit_verify_faces. exact unit_comparison_matches.
Defined.

(** X3: the service as constructed never reports a match when the best
    raw cosine similarity is below 0.5, whatever the other scores. *)
Theorem low_similarity_never_matches (live_image : extraction)
  (stored_embeddings : list embedding) (c : comparison) :
  verify_faces init live_image stored_embeddings = Compared c ->
  fr_raw_similarity c < 1 / 2 ->
  fr_match c = false.
Proof.
  intros Hv.
  destruct (verify_faces_compared init live_image stored_embeddings c Hv)
    as (live & a & _ & Ha & ->).
  destruct (analysis_summary live stored_embeddings a Ha)
    as (Hvp & Hrp & Hk0 & Hk & Hf & _).
  unfold security_validation.
  cbn [fr_match fr_raw_similarity threshold consensus_threshold
       min_acceptable_threshold high_similarity_override init].
  intros Hraw.
  destruct (Rgeb (cosine_similarity a) (9 / 10)) eqn:Ho;
    [apply Rgeb_true in Ho; lra|].
  decide_checks; cbn; try reflexivity; lra.
Qed.

End InitDecision.

Section SelfMatch.

Import FaceRecognitionService Spec Examples.
Open Scope R_scope.

Lemma orthogonal_verify_faces :
  verify_faces init (Extracted axis_three) [axis_four]
  = Compared orthogonal_comparison.
Proof.
  assert (H3 : magnitude axis_three = 3).
  { unfold magnitude, dot_product, axis_three.
    cbn [combine map Rsum fold_right fst snd]. apply sqrt_unique; lra. }
  assert (H4 : magnitude axis_four = 4).
  { unfold magnitude, dot_product, axis_four.
    cbn [combine map Rsum fold_right fst snd]. apply sqrt_unique; lra. }
  assert (Hc : cosine axis_three axis_four = 0).
  { unfold cosine. rewrite H3, H4. unfold dot_product, axis_three, axis_four.
    cbn [combine map Rsum fold_right fst snd]. rewrite Rmax_left; lra. }
  assert (He : euclidean_similarity axis_three axis_four = 1 / 6).
  { unfold euclidean_similarity, euclidean_distance, axis_three, axis_four.
    cbn [combine map Rsum fold_right fst snd].
    rewrite (sqrt_unique _ 5) by lra. lra. }
  unfold verify_faces. cbn [testing_mode init].
  rewrite analysis_closed_form by (repeat constructor).
  unfold cosines, euclideans. cbn [map]. rewrite Hc, He, statistics_single.
  reflexivity.
Qed.

Lemma low_similarity_never_matches_witness :
  fr_match orthogonal_comparison = false.
Proof.
  apply (low_similarity_never_matches (Extracted axis_three) [axis_four]
           orthogonal_comparison).
  - exact orthogonal_verify_faces.
  - cbn. lra.
Defined.

Lemma statistics_repeat (c eu : R) (n : nat) :
  statistics (repeat c (S n)) (repeat eu (S n))
  = Ok {| cosine_similarity := c;
          cosine_mean := c;
          cosine_std := 0;
          cosine_min := c;
          cosine_range := 0;
          euclidean_mean := eu;
          consensus_score := c * (7 / 10) + eu * (3 / 10);
          variance_penalty := 0;
          range_penalty := 0;
          final_confidence := c * (7 / 10) + eu * (3 / 10) |}.
Proof.
  unfold statistics. cbn [repeat].
  change (c :: repeat c n) with (repeat c (S n)).
  change (eu :: repeat eu n) with (repeat eu (S n)).
  rewrite std_repeat, !mean_repeat, maxl_repeat, minl_repeat.
  replace (c - c) with 0 by lra.
  replace (0 / (c + 1 / 100000000) * 2) with 0 by (unfold Rdiv; lra).
  replace (0 * 3) with 0 by lra.
  rewrite Rmin_right by lra.
  f_equal. f_equal. lra.
Qed.

Lemma dot_product_self_positive (e : list R) :
  Exists (fun x => x <> 0) e -> 0 < dot_product e e.
Proof.
  induction 1 as [x e Hx|x e _ IH]; rewrite dot_product_cons;
    pose proof (dot_product_self_nonneg e); nra.
Qed.

Lemma cosine_self (e : list R) :
  Exists (fun x => x <> 0) e -> cosine e e = 1.
Proof.
  intros He. pose proof (dot_product_self_positive e He) as Hpos.
  unfold cosine, magnitude. rewrite sqrt_sqrt by lra.
  replace (dot_product e e / dot_product e e) with 1 by (field; lra).
  apply Rmax_right. lra.
Qed.

Lemma euclidean_similarity_self (e : list R) : euclidean_similarity e e = 1.
Proof.
  unfold euclidean_similarity, euclidean_distance.
  assert (H : Rsum (map (fun p => (fst p - snd p) ^ 2) (combine e e)) = 0).
  { induction e as [|x e IH]; cbn [combine map Rsum fold_right fst snd].
    - reflexivity.
    - unfold Rsum in IH. rewrite IH. ring. }
  rewrite H, sqrt_0. lra.
Qed.

(** X4: when every enrolled embedding equals the live embedding, which has
    a nonzero component, the service as constructed reports a match in
    override mode with raw similarity 1 and confidence 1. *)
Theorem self_match (e : embedding) (n : nat) :
  Exists (fun x => x <> 0) e ->
  exists c,
    verify_faces init (Extracted e) (repeat e (S n)) = Compared c
    /\ fr_match c = true
    /\ fr_high_similarity_override c = true
    /\ fr_raw_similarity c = 1
    /\ fr_confidence c = 1.
Proof.
  intros He. unfold verify_faces. cbn [testing_mode init repeat].
  change (e :: repeat e n) with (repeat e (S n)).
  rewrite analysis_closed_form
    by (apply Forall_forall; intros x Hx; apply repeat_spec in Hx; now subst).
  unfold cosines, euclideans. rewrite !map_repeat.
  rewrite (cosine_self e He), euclidean_similarity_self, statistics_repeat.
  eexists. split; [reflexivity|].
  unfold security_validation.
  cbn [fr_match fr_high_similarity_override fr_raw_similarity fr_confidence
       cosine_similarity final_confidence consensus_score variance_penalty
       range_penalty threshold consensus_threshold min_acceptable_threshold
       high_similarity_override init].
  assert (H1 : Rgeb 1 (9 / 10) = true) by (apply Rgeb_true; lra).
  assert (H2 : Rgeb (1 * (7 / 10) + 1 * (3 / 10)) (65 / 100 * (85 / 100)) = true)
    by (apply Rgeb_true; lra).
  assert (H3 : Rgeb 1 (55 / 100) = true) by (apply Rgeb_true; lra).
  rewrite H1, H2, H3. repeat split; try reflexivity. lra.
Qed.

Lemma self_match_witness :
  exists c,
    verify_faces init (Extracted axis_three) (repeat axis_three 3) = Compared c
    /\ fr_match c = true
    /\ fr_high_similarity_override c = true
    /\ fr_raw_similarity c = 1
    /\ fr_confidence c = 1.
Proof.
  apply (self_match axis_three 2).
  apply Exists_cons_hd. lra.
Defined.

End SelfMatch.

(** ** The order of the enrolled embeddings *)


Section OrderIndependence.

Import FaceRecognitionService Spec.
Open Scope R_scope.

Lemma Rsum_permutation (l l' : list R) : Permutation l l' -> Rsum l = Rsum l'.
Proof.
  unfold Rsum. induction 1; cbn [fold_right]; lra.
Qed.

Lemma mean_permutation (l l' : list R) : Permutation l l' -> mean l = mean l'.
Proof.
  intros H. unfold mean.
  now rewrite (Rsum_permutation l l' H), (Permutation_length H).
Qed.

Lemma std_permutation (l l' : list R) : Permutation l l' -> std l = std l'.
Proof.
  intros H. unfold std, var. rewrite (mean_permutation l l' H).
  f_equal. apply mean_permutation. now apply Permutation_map.
Qed.

Lemma fold_max_in (d : R) (l : list R) : In (fold_right Rmax d l) (d :: l).
Proof.
  induction l as [|x l IH]; cbn [fold_right]; [now left|].
  unfold Rmax at 1. destruct (Rle_dec x (fold_right Rmax d l)).
  - destruct IH as [<-|Hin]; [now left | now right; right].
  - right. now left.
Qed.

Lemma fold_min_in (d : R) (l : list R) : In (fold_right Rmin d l) (d :: l).
Proof.
  induction l as [|x l IH]; cbn [fold_right]; [now left|].
  unfold Rmin at 1. destruct (Rle_dec x (fold_right Rmin d l)).
  - right. now left.
  - destruct IH as [<-|Hin]; [now left | now right; right].
Qed.

Lemma maximum_in (l : list R) : l <> [] -> In (maximum l) l.
Proof.
  destruct l as [|x l]; [contradiction|]. intros _.
  unfold maximum. cbn [hd].
  destruct (fold_max_in x (x :: l)) as [Heq|Hin]; [|exact Hin].
  rewrite <- Heq. now left.
Qed.

Lemma minimum_in (l : list R) : l <> [] -> In (minimum l) l.
Proof.
  destruct l as [|x l]; [contradiction|]. intros _.
  unfold minimum. cbn [hd].
  destruct (fold_min_in x (x :: l)) as [Heq|Hin]; [|exact Hin].
  rewrite <- Heq. now left.
Qed.

Lemma maximum_permutation (l l' : list R) :
  l <> [] -> Permutation l l' -> maximum l = maximum l'.
Proof.
  intros Hne Hp.
  assert (Hne' : l' <> []).
  { intros ->. symmetry in Hp. apply Permutation_nil in Hp. contradiction. }
  apply Rle_antisym.
  - apply fold_max_upper. eapply Permutation_in; [exact Hp|].
    now apply maximum_in.
  - apply fold_max_upper. eapply Permutation_in; [symmetry; exact Hp|].
    now apply maximum_in.
Qed.

Lemma minimum_permutation (l l' : list R) :
  l <> [] -> Permutation l l' -> minimum l = minimum l'.
Proof.
  intros Hne Hp.
  assert (Hne' : l' <> []).
  { intros ->. symmetry in Hp. apply Permutation_nil in Hp. contradiction. }
  apply Rle_antisym.
  - apply fold_min_lower. eapply Permutation_in; [symmetry; exact Hp|].
    now apply minimum_in.
  - apply fold_min_lower. eapply Permutation_in; [exact Hp|].
    now apply minimum_in.
Qed.

Lemma statistics_permutation (cs cs' es es' : list R) :
  Permutation cs cs' -> Permutation es es' ->
  statistics cs es = statistics cs' es'.
Proof.
  intros Hc He. unfold statistics.
  destruct cs as [|c t].
  { apply Permutation_nil in Hc. now subst. }
  destruct cs' as [|c' t'].
  { symmetry in Hc. apply Permutation_nil in Hc. discriminate. }
  rewrite !maxl_maximum, !minl_minimum.
  rewrite (mean_permutation _ _ Hc), (std_permutation _ _ Hc),
    (mean_permutation _ _ He),
    (maximum_permutation (c :: t) (c' :: t')), 
    (minimum_permutation (c :: t) (c' :: t')); try assumption; try discriminate.
  reflexivity.
Qed.

Lemma dot_raises_shapes (a b : embedding) :
  List.length a <> List.length b ->
  dot a b = Raise (ValueError "shapes not aligned").
Proof.
  revert b. induction a as [|x a IH]; intros [|y b] Hlen; cbn [dot].
  - now elim Hlen.
  - reflexivity.
  - reflexivity.
  - rewrite IH; [reflexivity|]. intros H. apply Hlen. simpl. now rewrite H.
Qed.

Lemma mapM_compare_raises (live : embedding) (stored : list embedding) :
  Exists (fun e => List.length e <> List.length live) stored ->
  mapM (compare_one live) stored = Raise (ValueError "shapes not aligned").
Proof.
  induction stored as [|e stored IH]; intros Hex.
  - inversion Hex.
  - cbn [mapM].
    destruct (Nat.eq_dec (List.length e) (List.length live)) as [Heq|Hne].
    + rewrite (compare_one_defined live e Heq). cbn [bind].
      rewrite IH; [reflexivity|].
      inversion Hex; subst; [contradiction | assumption].
    + unfold compare_one. rewrite dot_raises_shapes; [reflexivity|].
      intros H. apply Hne. now symmetry.
Qed.

(** X5: in exact arithmetic, the analysis does not depend on the order in
    which the enrolled embeddings are stored: on a permutation of the list
    it returns the same statistics, or raises the same exception. *)
Theorem analysis_order_independent (live : embedding)
  (stored stored' : list embedding) :
  Permutation stored stored' ->
  _advanced_similarity_analysis live stored
  = _advanced_similarity_analysis live stored'.
Proof.
  intros Hp.
  destruct (Forall_Exists_dec (fun e => List.length e = List.length live)
              (fun e => Nat.eq_dec (List.length e) (List.length live)) stored)
    as [Hall|Hex].
  - assert (Hall' : Forall (fun e => List.length e = List.length live) stored').
    { eapply Permutation_Forall; eassumption. }
    rewrite !analysis_closed_form by assumption.
    apply statistics_permutation; unfold cosines, euclideans;
      now apply Permutation_map.
  - assert (Hex' : Exists (fun e => List.length e <> List.length live) stored').
    { apply Exists_exists in Hex. destruct Hex as (e & Hin & Hlen).
      apply Exists_exists. exists e. split; [|exact Hlen].
      eapply Permutation_in; eassumption. }
    unfold _advanced_similarity_analysis.
    rewrite !mapM_compare_raises by assumption. reflexivity.
Qed.

Lemma analysis_order_independent_witness :
  _advanced_similarity_analysis Examples.unit_x [Examples.unit_x; Examples.unit_y]
  = _advanced_similarity_analysis Examples.unit_x [Examples.unit_y; Examples.unit_x].
Proof.
  apply (analysis_order_independent Examples.unit_x).
  apply perm_swap.
Defined.

End OrderIndependence.

(** ** The uniqueness check across users *)

Section Uniqueness.

Import FaceRecognitionService Spec.
Open Scope R_scope.

Lemma scan_user_violations (live : embedding) (user_id : string)
  (embeddings : list embedding) :
  forall (i : nat) (found : list violation * list suspicion) (v : violation),
    In v (fst (scan_user live user_id i embeddings found))
    <-> In v (fst found)
        \/ exists k e s,
             nth_error embeddings k = Some e
             /\ cross_similarity live e = Some s
             /\ 8 / 10 < s
             /\ v = violation_for user_id (i + k) s.
Proof.
  induction embeddings as [|e0 rest IH]; intros i found v; cbn [scan_user].
  - split; [now left|]. intros [H|(k & e & s & Hk & _)]; [exact H|].
    destruct k; discriminate.
  - rewrite IH. clear IH.
    assert (Hshift : (exists k e s,
                         nth_error rest k = Some e
                         /\ cross_similarity live e = Some s
                         /\ 8 / 10 < s
                         /\ v = violation_for user_id (S i + k) s)
                     <-> exists k e s,
                         nth_error (e0 :: rest) (S k) = Some e
                         /\ cross_similarity live e = Some s
                         /\ 8 / 10 < s
                         /\ v = violation_for user_id (i + S k) s).
    { split; intros (k & e & s & H1 & H2 & H3 & H4); exists k, e, s;
        (repeat split; try assumption);
        [replace (i + S k)%nat with (S i + k)%nat by lia
        |replace (S i + k)%nat with (i + S k)%nat by lia]; exact H4. }
    rewrite Hshift. clear Hshift.
    destruct (cross_similarity live e0) as [s0|] eqn:Hs0.
    + destruct (Rgtb s0 (8 / 10)) eqn:Hgt.
      * apply Rgtb_true in Hgt. cbn [fst]. rewrite in_app_iff. cbn [In].
        split.
        -- intros [[H|[H|[]]]|(k & e & s & H)].
           ++ now left.
           ++ right. exists 0%nat, e0, s0. rewrite Nat.add_0_r.
              repeat split; try assumption. now symmetry.
           ++ right. exists (S k), e, s. exact H.
        -- intros [H|(k & e & s & H1 & H2 & H3 & H4)].
           ++ left. now left.
           ++ destruct k as [|k].
              ** cbn in H1. injection H1 as <-. rewrite Hs0 in H2.
                 injection H2 as <-. rewrite Nat.add_0_r in H4.
                 left. right. left. now symmetry.
              ** right. exists k, e, s. auto 10.
      * apply Rgtb_false in Hgt.
        assert (Hsame : fst (if Rgtb s0 (6 / 10)
                            then (fst found,
                                  snd found ++
                                    [{| suspect_user_id := user_id;
                                        suspect_embedding_index := i;
                                        suspect_similarity := s0 |}])
                            else found) = fst found)
          by (destruct (Rgtb s0 (6 / 10)); reflexivity).
        rewrite Hsame. split.
        -- intros [H|(k & e & s & H)]; [now left|].
           right. exists (S k), e, s. exact H.
        -- intros [H|(k & e & s & H1 & H2 & H3 & H4)]; [now left|].
           destruct k as [|k].
           ++ cbn in H1. injection H1 as <-. rewrite Hs0 in H2.
              injection H2 as <-. lra.
           ++ right. exists k, e, s. auto 10.
    + split.
      * intros [H|(k & e & s & H)]; [now left|].
        right. exists (S k), e, s. exact H.
      * intros [H|(k & e & s & H1 & H2 & H3 & H4)]; [now left|].
        destruct k as [|k].
        -- cbn in H1. injection H1 as <-. rewrite Hs0 in H2. discriminate.
        -- right. exists k, e, s. auto 10.
Qed.

Lemma scan_users_violations (current_user_id : string) (live : embedding)
  (items : list (string * list embedding)) :
  forall (found : list violation * list suspicion) (v : violation),
    In v (fst (scan_users current_user_id live items found))
    <-> In v (fst found)
        \/ exists user_id embeddings k e s,
             In (user_id, embeddings) items
             /\ user_id <> current_user_id
             /\ nth_error embeddings k = Some e
             /\ cross_similarity live e = Some s
             /\ 8 / 10 < s
             /\ v = violation_for user_id k s.
Proof.
  induction items as [|[uid embs] rest IH]; intros found v; cbn [scan_users].
  - split; [now left|]. intros [H|(u & es & k & e & s & [] & _)]. exact H.
  - destruct (String.eqb uid current_user_id) eqn:Heq.
    + apply String.eqb_eq in Heq. subst uid. rewrite IH. split.
      * intros [H|(u & es & k & e & s & Hin & H)]; [now left|].
        right. exists u, es, k, e, s. split; [now right | exact H].
      * intros [H|(u & es & k & e & s & [Hin|Hin] & Hne & H)]; [now left| |].
        -- injection Hin as <- <-. now elim Hne.
        -- right. exists u, es, k, e, s. auto 10.
    + apply String.eqb_neq in Heq. rewrite IH, scan_user_violations. split.
      * intros [[H|(k & e & s & H1 & H2 & H3 & H4)]|(u & es & k & e & s & Hin & H)].
        -- now left.
        -- right. exists uid, embs, k, e, s. cbn [Nat.add] in H4.
           repeat split; try assumption. now left.
        -- right. exists u, es, k, e, s. split; [now right | exact H].
      * intros [H|(u & es & k & e & s & [Hin|Hin] & Hne & H1 & H2 & H3 & H4)].
        -- left. now left.
        -- injection Hin as <- <-. left. right. exists k, e, s. auto 10.
        -- right. exists u, es, k, e, s. auto 10.
Qed.

(** The similarity of the inner [try] is defined exactly for embeddings of
    one shape and positive norms, and is then their dot product over the
    product of their norms. *)
Lemma cross_similarity_spec (live e : embedding) (s : R) :
  cross_similarity live e = Some s
  <-> List.length e = List.length live
      /\ 0 < magnitude live
      /\ 0 < magnitude e
      /\ s = dot_product live e / (magnitude live * magnitude e).
Proof.
  unfold cross_similarity.
  destruct (Nat.eq_dec (List.length live) (List.length e)) as [Hlen|Hlen].
  - rewrite (dot_defined live e Hlen), !norm_magnitude.
    destruct (Rgtb (magnitude live) 0) eqn:H1;
      [apply Rgtb_true in H1 | apply Rgtb_false in H1];
      (destruct (Rgtb (magnitude e) 0) eqn:H2;
       [apply Rgtb_true in H2 | apply Rgtb_false in H2]);
      cbn [andb]; split.
    + intros H. injection H as <-. auto.
    + intros (_ & _ & _ & ->). reflexivity.
    + discriminate.
    + intros (_ & _ & H & _). lra.
    + discriminate.
    + intros (_ & H & _). lra.
    + discriminate.
    + intros (_ & H & _). lra.
  - rewrite (dot_raises_shapes live e Hlen). split; [discriminate|].
    intros (H & _). now elim Hlen.
Qed.

(** X6: with the similarity taken in exact arithmetic, the uniqueness check
    records a violation exactly for each embedding of another user that
    has the shape of the live embedding, positive norms, and a cosine
    similarity with it (the dot product over the product of the norms)
    above 0.8, under that user's id and the embedding's position;
    [is_unique] is false and the recommendation is BLOCK exactly when
    there is such an embedding, and the risk level is CRITICAL exactly
    when one has a similarity above 0.9. *)
Theorem uniqueness_violations_characterised (current_user_id : string)
  (live_embedding : embedding)
  (all_user_embeddings : list (string * list embedding)) :
  let r :=
    check_face_uniqueness_across_users current_user_id live_embedding
      all_user_embeddings in
  (forall v,
      In v (cross_user_violations r)
      <-> exists user_id embeddings k e s,
            In (user_id, embeddings) all_user_embeddings
            /\ user_id <> current_user_id
            /\ nth_error embeddings k = Some e
            /\ List.length e = List.length live_embedding
            /\ 0 < magnitude live_embedding
            /\ 0 < magnitude e
            /\ s = dot_product live_embedding e
                   / (magnitude live_embedding * magnitude e)
            /\ 8 / 10 < s
            /\ v = violation_for user_id k s)
  /\ (is_unique r = true <-> cross_user_violations r = [])
  /\ (uniqueness_recommendation r = "BLOCK"%string <-> is_unique r = false)
  /\ (uniqueness_risk_level r = "CRITICAL"%string
      <-> exists v, In v (cross_user_violations r) /\ 9 / 10 < similarity v).
Proof.
  cbv zeta. unfold check_face_uniqueness_across_users.
  pose proof (scan_users_violations current_user_id live_embedding
                all_user_embeddings ([], [])) as Hscan.
  destruct (scan_users current_user_id live_embedding all_user_embeddings ([], []))
    as [violations suspicions] eqn:Hrun.
  cbn [fst] in Hscan.
  cbn [cross_user_violations is_unique uniqueness_recommendation
       uniqueness_risk_level].
  split; [|split; [|split]].
  - intros v. rewrite Hscan. split.
    + intros [[]|(u & es & k & e & s & Hin & Hne & Hnth & Hcs & Hgt & Hv)].
      apply cross_similarity_spec in Hcs.
      destruct Hcs as (Hlen & Hm1 & Hm2 & Hs).
      exists u, es, k, e, s. repeat split; assumption.
    + intros (u & es & k & e & s & Hin & Hne & Hnth & Hlen & Hm1 & Hm2 & Hs
              & Hgt & Hv).
      right. exists u, es, k, e, s. repeat split; try assumption.
      apply cross_similarity_spec. repeat split; assumption.
  - destruct violations; cbn; split; intros; try reflexivity; discriminate.
  - destruct violations; cbn; split; intros; try reflexivity; discriminate.
  - assert (Hsev : forall v, In v violations ->
                     (String.eqb (violation_severity v) "CRITICAL" = true
                      <-> 9 / 10 < similarity v)).
    { intros v Hv. apply Hscan in Hv.
      destruct Hv as [[]|(u & es & k & e & s & _ & _ & _ & _ & _ & ->)].
      unfold violation_for. cbn [violation_severity similarity].
      destruct (Rgtb s (9 / 10)) eqn:Hgt.
      - apply Rgtb_true in Hgt. split; [intros _; exact Hgt | reflexivity].
      - apply Rgtb_false in Hgt. split; [discriminate | lra]. }
    destruct violations as [|v0 vs].
    + cbn. destruct (List.length suspicions) as [|[|[|n]]]; split;
        try discriminate; intros (v & Hv & _); destruct Hv.
    + set (violations := v0 :: vs) in *.
      replace (0 <? List.length violations)%nat with true by reflexivity.
      destruct (filter (fun v => String.eqb (violation_severity v) "CRITICAL")
                  violations) as [|w ws] eqn:Hf.
      * split; [discriminate|]. intros (v & Hv & Hgt).
        assert (Hin : In v (filter (fun v => String.eqb (violation_severity v)
                                               "CRITICAL") violations)).
        { apply filter_In. split; [exact Hv|]. now apply Hsev. }
        rewrite Hf in Hin. contradiction.
      * split; [|reflexivity]. intros _.
        assert (Hin : In w (filter (fun v => String.eqb (violation_severity v)
                                               "CRITICAL") violations))
          by (rewrite Hf; now left).
        apply filter_In in Hin. destruct Hin as [Hw Hc].
        exists w. split; [exact Hw | now apply Hsev].
Qed.

End Uniqueness.

Section UniquenessBlindSpots.

Import FaceRecognitionService Spec Examples.
Open Scope R_scope.

Lemma norm_zero (e : embedding) : Forall (fun x => x = 0) e -> norm e = 0.
Proof.
  intros H. unfold norm.
  assert (Hs : Rsum (map (fun x => x * x) e) = 0).
  { induction H as [|x e Hx _ IH]; cbn [map Rsum fold_right]; [reflexivity|].
    unfold Rsum in IH. rewrite IH, Hx. lra. }
  rewrite Hs. apply sqrt_0.
Qed.

Lemma cross_similarity_zero_live (live e : embedding) :
  Forall (fun x => x = 0) live -> cross_similarity live e = None.
Proof.
  intros H. unfold cross_similarity.
  destruct (dot live e); [|reflexivity].
  rewrite (norm_zero live H).
  replace (Rgtb 0 0) with false; [reflexivity|].
  symmetry. apply Rgtb_false. lra.
Qed.

Lemma cross_similarity_shape (live e : embedding) :
  List.length e <> List.length live -> cross_similarity live e = None.
Proof.
  intros H. unfold cross_similarity.
  rewrite dot_raises_shapes; [reflexivity|]. intros Heq. apply H. now symmetry.
Qed.

Lemma scan_user_blind (live : embedding) (user_id : string)
  (embeddings : list embedding) :
  (forall e, In e embeddings -> cross_similarity live e = None) ->
  forall i found, scan_user live user_id i embeddings found = found.
Proof.
  induction embeddings as [|e rest IH]; intros Hnone i found; cbn [scan_user].
  - reflexivity.
  - rewrite (Hnone e) by now left. apply IH. intros e' He'. apply Hnone.
    now right.
Qed.

Lemma scan_users_blind (current_user_id : string) (live : embedding)
  (items : list (string * list embedding)) :
  (forall user_id embeddings e,
      In (user_id, embeddings) items -> user_id <> current_user_id ->
      In e embeddings -> cross_similarity live e = None) ->
  forall found, scan_users current_user_id live items found = found.
Proof.
  induction items as [|[uid embs] rest IH]; intros Hnone found; cbn [scan_users].
  - reflexivity.
  - assert (Hrest : forall user_id embeddings e,
               In (user_id, embeddings) rest -> user_id <> current_user_id ->
               In e embeddings -> cross_similarity live e = None).
    { intros u es e Hin. apply Hnone. now right. }
    destruct (String.eqb uid current_user_id) eqn:Heq.
    + now apply IH.
    + apply String.eqb_neq in Heq. rewrite scan_user_blind.
      * now apply IH.
      * intros e He. apply (Hnone uid embs e); [now left | exact Heq | exact He].
Qed.

(** X7: the uniqueness check fails open.  A live embedding that is all
    zeros, or whose dimension differs from that of every embedding of the
    other users, is reported unique, at risk LOW, with recommendation
    ALLOW, whatever the other users' embeddings are; and
    [total_users_checked] is the number of entries minus one, whether or
    not the current user has an entry. *)
Theorem uniqueness_check_fails_open (current_user_id : string)
  (live_embedding : embedding)
  (all_user_embeddings : list (string * list embedding)) :
  Forall (fun x => x = 0) live_embedding
  \/ (forall user_id embeddings e,
        In (user_id, embeddings) all_user_embeddings ->
        user_id <> current_user_id -> In e embeddings ->
        List.length e <> List.length live_embedding) ->
  check_face_uniqueness_across_users current_user_id live_embedding
    all_user_embeddings
  = {| is_unique := true;
       uniqueness_risk_level := "LOW";
       cross_user_violations := [];
       suspicious_similarities := [];
       total_users_checked :=
         (Z.of_nat (List.length all_user_embeddings) - 1)%Z;
       uniqueness_recommendation := "ALLOW" |}.
Proof.
  intros H. unfold check_face_uniqueness_across_users.
  rewrite scan_users_blind; [reflexivity|].
  intros u es e Hin Hne He. destruct H as [Hzero|Hshape].
  - now apply cross_similarity_zero_live.
  - apply cross_similarity_shape. eapply Hshape; eassumption.
Qed.

Lemma uniqueness_check_fails_open_witness :
  check_face_uniqueness_across_users "F100" [0; 0]
    [("F200"%string, [unit_x; unit_y])]
  = {| is_unique := true;
       uniqueness_risk_level := "LOW";
       cross_user_violations := [];
       suspicious_similarities := [];
       total_users_checked := 0;
       uniqueness_recommendation := "ALLOW" |}.
Proof.
  apply (uniqueness_check_fails_open "F100" [0; 0]
           [("F200"%string, [unit_x; unit_y])]).
  left. repeat constructor.
Defined.

(** A run: the live embedding [unit_x] of user F100, against the entries
    of F100 and of F200, who has enrolled [unit_y] and [unit_x]. *)
Example uniqueness_run :
  check_face_uniqueness_across_users "F100" unit_x
    [("F100"%string, [unit_x]); ("F200"%string, [unit_y; unit_x])]
  = {| is_unique := false;
       uniqueness_risk_level := "CRITICAL";
       cross_user_violations := [violation_for "F200" 1 (1 / (1 * 1))];
       suspicious_similarities := [];
       total_users_checked := 1;
       uniqueness_recommendation := "BLOCK" |}.
Proof.
  assert (Hn : norm unit_x = 1).
  { unfold norm, unit_x. cbn [map Rsum fold_right]. apply sqrt_unique; lra. }
  assert (Hy : norm unit_y = 1).
  { unfold norm, unit_y. cbn [map Rsum fold_right]. apply sqrt_unique; lra. }
  assert (Hpos : Rgtb 1 0 = true) by (apply Rgtb_true; lra).
  assert (H1 : cross_similarity unit_x unit_y = Some (0 / (1 * 1))).
  { unfold cross_similarity. rewrite Hn, Hy, Hpos. cbn [dot unit_x unit_y bind andb].
    f_equal. f_equal. lra. }
  assert (H2 : cross_similarity unit_x unit_x = Some (1 / (1 * 1))).
  { unfold cross_similarity. rewrite Hn, Hpos. cbn [dot unit_x bind andb].
    f_equal. f_equal. lra. }
  unfold check_face_uniqueness_across_users.
  cbn [scan_users scan_user String.eqb Ascii.eqb Bool.eqb].
  rewrite H1, H2.
  assert (G1 : Rgtb (0 / (1 * 1)) (8 / 10) = false) by (apply Rgtb_false; lra).
  assert (G2 : Rgtb (0 / (1 * 1)) (6 / 10) = false) by (apply Rgtb_false; lra).
  assert (G3 : Rgtb (1 / (1 * 1)) (8 / 10) = true) by (apply Rgtb_true; lra).
  assert (G4 : Rgtb (1 / (1 * 1)) (9 / 10) = true) by (apply Rgtb_true; lra).
  rewrite G1, G2, G3. unfold violation_for. rewrite !G4. reflexivity.
Qed.

End UniquenessBlindSpots.

(** ** The cosine helper *)

Section CosineHelper.

Import FaceRecognitionService Spec.
Open Scope R_scope.

Lemma dot_product_comm (a b : list R) : dot_product a b = dot_product b a.
Proof.
  unfold dot_product. revert b.
  induction a as [|x a IH]; intros [|y b]; cbn [combine map Rsum fold_right fst snd];
    try reflexivity.
  specialize (IH b). unfold Rsum in IH. rewrite IH. ring.
Qed.

Lemma dot_comm (a b : embedding) : dot a b = dot b a.
Proof.
  destruct (Nat.eq_dec (List.length a) (List.length b)) as [Heq|Hne].
  - rewrite (dot_defined a b Heq), (dot_defined b a (eq_sym Heq)).
    now rewrite dot_product_comm.
  - rewrite (dot_raises_shapes a b Hne), dot_raises_shapes; [reflexivity|].
    intros H. apply Hne. now symmetry.
Qed.

Lemma quotient_bounds (a b : list R) :
  -1 <= dot_product a b / (magnitude a * magnitude b) <= 1.
Proof.
  pose proof (magnitude_nonneg a) as Ha.
  pose proof (magnitude_nonneg b) as Hb.
  destruct (Req_dec (magnitude a * magnitude b) 0) as [H0|Hn0].
  - rewrite H0, Rdiv_0_r. lra.
  - assert (Hpos : 0 < magnitude a * magnitude b) by nra.
    pose proof (cauchy_schwarz a b) as Hcs.
    assert (Hsq : magnitude a * magnitude b * (magnitude a * magnitude b)
                  = dot_product a a * dot_product b b).
    { unfold magnitude.
      pose proof (sqrt_sqrt _ (dot_product_self_nonneg a)).
      pose proof (sqrt_sqrt _ (dot_product_self_nonneg b)). nra. }
    split.
    + apply div_le_lower; [exact Hpos|].
      assert (- dot_product a b <= magnitude a * magnitude b).
      { apply square_le; [lra|]. lra. }
      lra.
    + apply div_le_upper; [exact Hpos|]. rewrite Rmult_1_l.
      apply square_le; lra.
Qed.

(** X8: in exact arithmetic, [_cosine_similarity] answers a value in
    [-1, 1] for every pair of embeddings; it answers 0.0 when their shapes
    differ; it is symmetric; and on embeddings of one shape the similarity
    the analysis uses is its value clamped at 0. *)
Theorem cosine_helper_bounded_symmetric (embedding1 embedding2 : embedding) :
  -1 <= _cosine_similarity embedding1 embedding2 <= 1
  /\ _cosine_similarity embedding1 embedding2
     = _cosine_similarity embedding2 embedding1
  /\ (List.length embedding1 <> List.length embedding2 ->
      _cosine_similarity embedding1 embedding2 = 0)
  /\ (List.length embedding1 = List.length embedding2 ->
      cosine embedding1 embedding2
      = Rmax 0 (_cosine_similarity embedding1 embedding2)).
Proof.
  split; [|split; [|split]].
  - unfold _cosine_similarity.
    destruct (Nat.eq_dec (List.length embedding1) (List.length embedding2))
      as [Heq|Hne].
    + rewrite (dot_defined _ _ Heq), !norm_magnitude.
      destruct (Req_dec_T (magnitude embedding1) 0);
        destruct (Req_dec_T (magnitude embedding2) 0); cbn [orb]; try lra.
      apply quotient_bounds.
    + rewrite (dot_raises_shapes _ _ Hne). lra.
  - unfold _cosine_similarity. rewrite (dot_comm embedding1 embedding2).
    destruct (dot embedding2 embedding1); [|reflexivity].
    destruct (Req_dec_T (norm embedding1) 0);
      destruct (Req_dec_T (norm embedding2) 0); cbn [orb]; try reflexivity.
    now rewrite Rmult_comm.
  - intros Hne. unfold _cosine_similarity.
    now rewrite (dot_raises_shapes _ _ Hne).
  - intros Heq. unfold _cosine_similarity, cosine.
    rewrite (dot_defined _ _ Heq), !norm_magnitude.
    destruct (Req_dec_T (magnitude embedding1) 0) as [H1|H1];
      [rewrite H1, Rmult_0_l, Rdiv_0_r; reflexivity|].
    destruct (Req_dec_T (magnitude embedding2) 0) as [H2|H2];
      [rewrite H2, Rmult_0_r, Rdiv_0_r; reflexivity|].
    reflexivity.
Qed.

End CosineHelper.

(** ** Image quality and extraction *)

Section Quality.

Import FaceRecognitionService Spec Examples.
Open Scope R_scope.

(** The three measured components of the score. *)
Lemma quality_components (m : measurements) :
  measurable m ->
  0 <= Rmin (laplacian_var m / 500) 1 <= 1
  /\ 0 <= 1 - Rabs (mean_brightness m - 128) / 128 <= 1
  /\ 0 <= Rmin (gray_std m / 128) 1 <= 1.
Proof.
  intros (Hl & Hb & Hs). split; [|split].
  - split; [|apply Rmin_r]. apply Rmin_glb; [|lra]. apply div_le_lower; lra.
  - assert (0 <= Rabs (mean_brightness m - 128) <= 128).
    { split; [apply Rabs_pos|]. unfold Rabs.
      destruct (Rcase_abs (mean_brightness m - 128)); lra. }
    assert (0 <= Rabs (mean_brightness m - 128) / 128 <= 1).
    { split; [apply div_le_lower | apply div_le_upper]; lra. }
    lra.
  - split; [|apply Rmin_r]. apply Rmin_glb; [|lra]. apply div_le_lower; lra.
Qed.

(** X9: for measurements in their ranges the quality score lies in
    [0, 1]; it is at least 0.3 when the cascade finds a face and at most
    0.7 when it finds none. *)
Theorem image_quality_bounds (m : measurements) :
  measurable m ->
  0 <= _assess_image_quality (Measured m) <= 1
  /\ ((0 < faces_found m)%nat -> 3 / 10 <= _assess_image_quality (Measured m))
  /\ (faces_found m = 0%nat -> _assess_image_quality (Measured m) <= 7 / 10).
Proof.
  intros Hm. destruct (quality_components m Hm) as (Hsharp & Hbright & Hcontrast).
  unfold _assess_image_quality.
  destruct (faces_found m) as [|k]; cbn [Nat.ltb Nat.leb].
  - split; [lra|]. split; [intros H; inversion H | intros _; lra].
  - split; [lra|]. split; [intros _; lra | discriminate].
Qed.

Lemma image_quality_bounds_witness :
  0 <= _assess_image_quality (Measured portrait) <= 1
  /\ ((0 < faces_found portrait)%nat
      -> 3 / 10 <= _assess_image_quality (Measured portrait))
  /\ (faces_found portrait = 0%nat
      -> _assess_image_quality (Measured portrait) <= 7 / 10).
Proof.
  apply (image_quality_bounds portrait).
  unfold measurable, portrait. cbn. lra.
Defined.

(** X10: with testing mode off, the quality check of [extract_embedding]
    never rejects an image in which the cascade finds a face: the result is
    then what the embedding extractor answers, the fallback call being
    consulted only when the first call raises.  An image the decoder
    rejects yields no embedding, and [verify_faces] then reports no match,
    with confidence 0. *)
Theorem quality_check_passes_detected_faces (self : service)
  (image_data : capture) :
  testing_mode self = false ->
  (forall m,
      decoded image_data = Some (Measured m) -> measurable m ->
      (0 < faces_found m)%nat ->
      extract_embedding self image_data
      = match represent image_data with
        | Ok (e :: _) => Some e
        | Ok [] => None
        | Raise _ =>
            match represent_fallback image_data with
            | Ok (e :: _) => Some e
            | _ => None
            end
        end)
  /\ (decoded image_data = None ->
      extract_embedding self image_data = None
      /\ forall stored_embeddings,
           get_match (verify_faces self (live_extraction self image_data)
                        stored_embeddings) = false
           /\ get_confidence (verify_faces self (live_extraction self image_data)
                                stored_embeddings) = 0).
Proof.
  intros Htest. split.
  - intros m Hd Hm Hf. unfold extract_embedding. rewrite Htest, Hd.
    destruct (quality_components m Hm) as (Hsharp & Hbright & Hcontrast).
    assert (Hq : 3 / 10 <= _assess_image_quality (Measured m)).
    { unfold _assess_image_quality.
      destruct (faces_found m) as [|k]; [inversion Hf|].
      cbn [Nat.ltb Nat.leb]. lra. }
    replace (Rltb (_assess_image_quality (Measured m)) (3 / 10)) with false
      by (symmetry; apply Rltb_false; exact Hq).
    destruct (represent image_data) as [[|e es]|x]; reflexivity.
  - intros Hd.
    assert (Hnone : extract_embedding self image_data = None).
    { unfold extract_embedding. now rewrite Htest, Hd. }
    split; [exact Hnone|]. intros stored.
    unfold live_extraction, verify_faces. rewrite Hnone, Htest.
    destruct stored; split; reflexivity.
Qed.

Lemma quality_check_passes_detected_faces_witness :
  extract_embedding init portrait_capture = Some unit_x
  /\ extract_embedding init broken_capture = None.
Proof.
  split.
  - apply (quality_check_passes_detected_faces init portrait_capture)
      with (m := portrait).
    + reflexivity.
    + reflexivity.
    + unfold measurable, portrait. cbn. lra.
    + cbn. lia.
  - apply (quality_check_passes_detected_faces init broken_capture).
    + reflexivity.
    + reflexivity.
Defined.

End Quality.

(** ** Liveness: what cannot pass *)

Section LivenessLimits.

Import FaceRecognitionService Spec Examples.

Lemma rate_at_least_seven_tenths (count len : nat) :
  (0 < len)%nat ->
  Qgeb (inject_Z (Z.of_nat count) / inject_Z (Z.of_nat len)) (7 # 10) = true ->
  (7 * len <= 10 * count)%nat.
Proof.
  intros Hlen H. unfold Qgeb in H. apply Qle_bool_iff in H.
  assert (Hpos : (0 < inject_Z (Z.of_nat len))%Q).
  { unfold Qlt. cbn [Qnum Qden inject_Z]. lia. }
  assert (Hmul : ((7 # 10) * inject_Z (Z.of_nat len) <= inject_Z (Z.of_nat count))%Q).
  { apply (Qmult_le_compat_r _ _ (inject_Z (Z.of_nat len))) in H;
      [|apply Qlt_le_weak; exact Hpos].
    eapply Qle_trans; [exact H|].
    rewrite Qmult_comm, Qmult_div_r; [apply Qle_refl|].
    intros Hz. rewrite Hz in Hpos. discriminate. }
  unfold Qle in Hmul. cbn [Qnum Qden Qmult inject_Z] in Hmul. lia.
Qed.

(** X11: liveness never passes, unless testing mode is on, on fewer than
    three frames, nor when fewer than seven in ten of the submitted frames
    show a face; frames that cannot be decoded count as frames without a
    face. *)
Theorem liveness_requires_faces (self : service) (image_sequence : list frame) :
  get_liveness_passed (detect_liveness self image_sequence) = true ->
  testing_mode self = true
  \/ ((3 <= List.length image_sequence)%nat
      /\ (7 * List.length image_sequence
          <= 10 * frames_with_face image_sequence)%nat).
Proof.
  unfold detect_liveness.
  destruct (testing_mode self); [now left|].
  destruct (List.length image_sequence <? 3)%nat eqn:Hlen; [discriminate|].
  apply Nat.ltb_ge in Hlen.
  rewrite scan_frames_spec. cbn [Nat.add app get_liveness_passed lv_liveness_passed].
  intros H. apply andb_prop in H. destruct H as [Hrate _].
  right. split; [exact Hlen|].
  apply rate_at_least_seven_tenths; [lia | exact Hrate].
Qed.

Lemma liveness_requires_faces_witness :
  testing_mode init = true
  \/ ((3 <= List.length five_still_frames)%nat
      /\ (7 * List.length five_still_frames
          <= 10 * frames_with_face five_still_frames)%nat).
Proof.
  apply (liveness_requires_faces init five_still_frames).
  vm_compute. reflexivity.
Defined.

Lemma constant_size_frames (w h : Z) (image_sequence : list frame) :
  Forall (fun f => exists x y faces, f = Decoded ((x, y, w, h) :: faces))
    image_sequence ->
  frames_with_face image_sequence = List.length image_sequence
  /\ areas image_sequence
     = repeat (inject_Z (w * h)) (List.length image_sequence).
Proof.
  unfold frames_with_face, areas.
  induction 1 as [|f l (x & y & faces & ->) _ (IH1 & IH2)].
  - split; reflexivity.
  - cbn [filter has_face flat_map first_face_area List.length app repeat].
    now rewrite IH1, IH2.
Qed.

(** X12: movement is judged by the area of the first face alone.  With
    testing mode off, a sequence of at least three frames whose first face
    keeps its width and height, wherever it is in the frame, passes exactly
    when it has at most five frames: a face sliding across the image over
    six frames or more is rejected like a still photograph. *)
Theorem constant_size_is_no_movement (self : service) (w h : Z)
  (image_sequence : list frame) :
  testing_mode self = false ->
  (3 <= List.length image_sequence)%nat ->
  Forall (fun f => exists x y faces, f = Decoded ((x, y, w, h) :: faces))
    image_sequence ->
  get_liveness_passed (detect_liveness self image_sequence)
  = (List.length image_sequence <=? 5)%nat.
Proof.
  intros Htest Hlen Hall. unfold detect_liveness. rewrite Htest.
  replace (List.length image_sequence <? 3)%nat with false
    by (symmetry; apply Nat.ltb_ge; exact Hlen).
  rewrite scan_frames_spec. cbn [Nat.add app get_liveness_passed lv_liveness_passed].
  destruct (constant_size_frames w h image_sequence Hall) as (Hcount & Hareas).
  rewrite Hcount, Hareas, repeat_length.
  destruct (List.length image_sequence) as [|n]; [lia|].
  assert (Hrate : Qgeb (inject_Z (Z.of_nat (S n)) / inject_Z (Z.of_nat (S n)))
                    (7 # 10) = true).
  { unfold Qgeb. apply Qle_bool_iff.
    assert (Hone : (inject_Z (Z.of_nat (S n)) / inject_Z (Z.of_nat (S n)) == 1)%Q)
      by (field; apply inject_Z_succ_nonzero).
    rewrite Hone. discriminate. }
  rewrite Hrate. cbn [andb].
  assert (Hvar : Qgtb (Qvar (repeat (inject_Z (w * h)) (S n))) 100 = false).
  { unfold Qgtb. apply negb_false_iff. apply Qle_bool_iff.
    rewrite Qvar_repeat. discriminate. }
  rewrite Hvar. destruct (1 <? S n)%nat; reflexivity.
Qed.

Lemma constant_size_is_no_movement_witness :
  get_liveness_passed (detect_liveness init sliding_frames)
  = (List.length sliding_frames <=? 5)%nat.
Proof.
  apply (constant_size_is_no_movement init 200 200 sliding_frames).
  - reflexivity.
  - cbn. lia.
  - unfold sliding_frames. repeat constructor; eexists _, _, _; reflexivity.
Defined.

End LivenessLimits.

(** ** Temporal analysis: windows, flags and recommendations *)

Section TemporalStructure.

Import FaceRecognitionService Spec Examples.
Open Scope R_scope.

Lemma well_timed_dec (a : attempt) : {well_timed a} + {~ well_timed a}.
Proof.
  unfold well_timed. destruct (timestamp a) as [[t|t|]|]; auto.
Qed.

(** A returned analysis, taken apart: the windows it counted and the
    patterns it found, in order. *)
Lemma temporal_analysis_inversion (now : Z) (recent_attempts : list attempt)
  (current_confidence : R) (r : temporal_result) :
  analyze_temporal_security_patterns now recent_attempts current_confidence = Ok r ->
  let recent_24h := filter (counted now 86400) recent_attempts in
  let recent_1h := filter (counted now 3600) recent_attempts in
  Forall well_timed recent_attempts
  /\ total_attempts_24h r = List.length recent_24h
  /\ total_attempts_1h r = List.length recent_1h
  /\ exists p2 p3,
       suspicious_patterns r
       = ((if (10 <? List.length recent_1h)%nat then [rapid_attempts] else [])
          ++ p2 ++ p3)%list
       /\ (p2 = [] \/ (p2 = [confidence_variance_pattern]
                       /\ (3 <= List.length recent_24h)%nat
                       /\ current_confidence < 6 / 10))
       /\ (p3 = [] \/ (p3 = [sudden_success_after_failures]
                       /\ (3 <= List.length (filter failed recent_24h))%nat
                       /\ 5 / 10 < current_confidence))
       /\ risk_level r
          = (if existsb (fun p => String.eqb (severity p) "HIGH")
                  (suspicious_patterns r)
             then "HIGH"
             else if existsb (fun p => String.eqb (severity p) "MEDIUM")
                       (suspicious_patterns r)
             then "MEDIUM" else "LOW")%string
       /\ should_block r
          = existsb (fun p => String.eqb (recommendation p) "BLOCK_TEMPORARILY")
              (suspicious_patterns r)
       /\ should_require_additional_verification r
          = existsb (fun p => String.eqb (recommendation p)
                                "REQUIRE_ADDITIONAL_VERIFICATION")
              (suspicious_patterns r)
       /\ security_recommendation r
          = (if should_block r then "BLOCK"
             else if should_require_additional_verification r
             then "ADDITIONAL_VERIFICATION" else "ALLOW")%string.
Proof.
  intros Hrun. cbv zeta.
  assert (Hw : Forall well_timed recent_attempts).
  { destruct (Forall_Exists_dec well_timed well_timed_dec recent_attempts)
      as [H|H]; [exact H|].
    unfold analyze_temporal_security_patterns in Hrun.
    destruct (filterM_within_raises now 86400 recent_attempts H) as [e He].
    rewrite He in Hrun. discriminate. }
  split; [exact Hw|].
  unfold analyze_temporal_security_patterns in Hrun.
  rewrite !filterM_within in Hrun by (assumption || lia). cbn [bind] in Hrun.
  set (recent_24h := filter (counted now 86400) recent_attempts) in *.
  set (recent_1h := filter (counted now 3600) recent_attempts) in *.
  set (p1 := if (10 <? List.length recent_1h)%nat then [rapid_attempts] else [])
    in *.
  set (p2 := if (3 <=? List.length recent_24h)%nat
             then match map confidence_of (filter truthy_confidence recent_24h)
                  with
                  | [] => []
                  | _ :: _ => _
                  end
             else []) in *.
  assert (Hp2 : p2 = [] \/ (p2 = [confidence_variance_pattern]
                            /\ (3 <= List.length recent_24h)%nat
                            /\ current_confidence < 6 / 10)).
  { unfold p2. destruct (3 <=? List.length recent_24h)%nat eqn:H3; [|now left].
    apply Nat.leb_le in H3.
    destruct (map confidence_of (filter truthy_confidence recent_24h));
      [now left|].
    match goal with
    | |- context [Rgtb ?v (1 / 10) && Rltb current_confidence (6 / 10)] =>
        destruct (Rgtb v (1 / 10))
    end; cbn [andb]; [|now left].
    destruct (Rltb current_confidence (6 / 10)) eqn:Hc; [|now left].
    apply Rltb_true in Hc. right. auto. }
  clearbody p2.
  set (failed_attempts := filter failed recent_24h) in *.
  assert (Hf : Forall well_timed failed_attempts).
  { unfold failed_attempts, recent_24h.
    now apply Forall_filter_weaken, Forall_filter_weaken. }
  destruct (mapM_parsed_time now failed_attempts Hf) as (times & Ht & Hl).
  destruct ((3 <=? List.length failed_attempts)%nat
            && Rgtb current_confidence (5 / 10)) eqn:Hcond.
  - apply andb_prop in Hcond. destruct Hcond as [Hc1 Hc2].
    apply Nat.leb_le in Hc1. apply Rgtb_true in Hc2.
    rewrite Ht in Hrun. cbn [bind] in Hrun.
    destruct times as [|t ts]; [cbn [List.length] in Hl; lia|].
    cbn [bind] in Hrun.
    match type of Hrun with
    | context [if ?b then [sudden_success_after_failures] else []] =>
        destruct b
    end; injection Hrun as <-;
      cbn [total_attempts_24h total_attempts_1h suspicious_patterns risk_level
           should_block should_require_additional_verification
           security_recommendation];
      (split; [reflexivity|]); (split; [reflexivity|]).
    + exists p2, [sudden_success_after_failures].
      split; [reflexivity|]. split; [exact Hp2|].
      split; [|repeat split; reflexivity].
      right. split; [reflexivity | split; [exact Hc1 | exact Hc2]].
    + exists p2, []. split; [reflexivity|]. split; [exact Hp2|].
      split; [now left | repeat split; reflexivity].
  - cbn [bind] in Hrun. injection Hrun as <-.
    cbn [total_attempts_24h total_attempts_1h suspicious_patterns risk_level
         should_block should_require_additional_verification
         security_recommendation].
    split; [reflexivity|]. split; [reflexivity|].
    exists p2, []. split; [reflexivity|]. split; [exact Hp2|].
    split; [now left | repeat split; reflexivity].
Qed.

End TemporalStructure.

Section TemporalProperties.

Import FaceRecognitionService Spec Examples.
Open Scope R_scope.

Lemma quiet_run :
  analyze_temporal_security_patterns 0 [] (8 / 10) = Ok quiet_result.
Proof. reflexivity. Qed.

Lemma rapid_run :
  analyze_temporal_security_patterns 0 (repeat untimed_attempt 11) (8 / 10)
  = Ok rapid_result.
Proof. reflexivity. Qed.

Lemma filter_length_le {A : Type} (p q : A -> bool) (l : list A) :
  (forall x, p x = true -> q x = true) ->
  (List.length (filter p l) <= List.length (filter q l) <= List.length l)%nat.
Proof.
  intros Hpq. induction l as [|x l IH]; cbn [filter List.length]; [lia|].
  destruct (p x) eqn:Hp.
  - rewrite (Hpq x Hp). cbn [List.length]. lia.
  - destruct (q x); cbn [List.length]; lia.
Qed.

Lemma filter_all {A : Type} (p : A -> bool) (l : list A) :
  Forall (fun x => p x = true) l -> filter p l = l.
Proof.
  induction 1 as [|x l Hx _ IH]; cbn [filter]; [reflexivity|].
  now rewrite Hx, IH.
Qed.

(** X13: when the analyzer returns, the attempts of the last hour are among
    those of the last 24 hours, which are among the attempts given; and an
    attempt is counted in both windows whenever its timestamp is absent or
    later than one hour before now, a timestamp in the future included. *)
Theorem temporal_windows_nested (now : Z) (recent_attempts : list attempt)
  (current_confidence : R) (r : temporal_result) :
  analyze_temporal_security_patterns now recent_attempts current_confidence = Ok r ->
  (total_attempts_1h r <= total_attempts_24h r <= List.length recent_attempts)%nat
  /\ (Forall (fun a => forall t, timestamp a = Some (IsoNaive t) ->
                                 (now - 3600 * 1000000 < t)%Z) recent_attempts ->
      total_attempts_1h r = List.length recent_attempts
      /\ total_attempts_24h r = List.length recent_attempts).
Proof.
  intros Hrun.
  destruct (temporal_analysis_inversion now recent_attempts current_confidence r Hrun)
    as (Hw & H24 & H1 & _).
  rewrite H24, H1. split.
  - apply filter_length_le. intros a. unfold counted.
    destruct (timestamp a) as [[t|t|]|]; try discriminate; [|reflexivity].
    intros H. apply Z.ltb_lt in H. apply Z.ltb_lt. lia.
  - intros Hrecent.
    assert (Hall : forall s, (3600 <= s)%Z ->
                     Forall (fun a => counted now s a = true) recent_attempts).
    { intros s Hs. rewrite Forall_forall in *. intros a Ha.
      specialize (Hw a Ha). specialize (Hrecent a Ha).
      unfold counted, well_timed in *.
      destruct (timestamp a) as [[t|t|]|]; try contradiction; [|reflexivity].
      specialize (Hrecent t eq_refl). apply Z.ltb_lt. lia. }
    rewrite !filter_all by (apply Hall; lia). split; reflexivity.
Qed.

Lemma temporal_windows_nested_witness :
  (total_attempts_1h rapid_result <= total_attempts_24h rapid_result
   <= List.length (repeat untimed_attempt 11))%nat
  /\ (Forall (fun a => forall t, timestamp a = Some (IsoNaive t) ->
                                 (0 - 3600 * 1000000 < t)%Z)
        (repeat untimed_attempt 11) ->
      total_attempts_1h rapid_result = List.length (repeat untimed_attempt 11)
      /\ total_attempts_24h rapid_result
         = List.length (repeat untimed_attempt 11)).
Proof.
  apply (temporal_windows_nested 0 (repeat untimed_attempt 11) (8 / 10)).
  exact rapid_run.
Defined.

(** X14: in every result the analyzer returns, blocking is recommended
    exactly when more than ten attempts fall in the last hour, and then the
    risk level is HIGH and the recommendation BLOCK; the risk level is LOW
    exactly when no pattern was found, and so is the recommendation
    ALLOW. *)
Theorem temporal_flags_consistent (now : Z) (recent_attempts : list attempt)
  (current_confidence : R) (r : temporal_result) :
  analyze_temporal_security_patterns now recent_attempts current_confidence = Ok r ->
  (should_block r = true <-> (10 < total_attempts_1h r)%nat)
  /\ (should_block r = true ->
      risk_level r = "HIGH"%string /\ security_recommendation r = "BLOCK"%string)
  /\ (risk_level r = "LOW"%string <-> suspicious_patterns r = [])
  /\ (security_recommendation r = "ALLOW"%string <-> suspicious_patterns r = []).
Proof.
  intros Hrun.
  destruct (temporal_analysis_inversion now recent_attempts current_confidence r Hrun)
    as (_ & _ & H1 & p2 & p3 & Hp & Hp2 & Hp3 & Hrisk & Hblock & Hreq & Hrec).
  rewrite Hrec, Hrisk, Hblock, Hreq, Hp, H1.
  destruct (10 <? List.length (filter (counted now 3600) recent_attempts))%nat
    eqn:Hten;
    [apply Nat.ltb_lt in Hten | apply Nat.ltb_ge in Hten];
    destruct Hp2 as [-> | (-> & _)]; destruct Hp3 as [-> | (-> & _)];
    cbn; repeat split; intros; try reflexivity; try discriminate; try lia.
Qed.

Lemma temporal_flags_consistent_witness :
  (should_block rapid_result = true <-> (10 < total_attempts_1h rapid_result)%nat)
  /\ (should_block rapid_result = true ->
      risk_level rapid_result = "HIGH"%string
      /\ security_recommendation rapid_result = "BLOCK"%string)
  /\ (risk_level rapid_result = "LOW"%string
      <-> suspicious_patterns rapid_result = [])
  /\ (security_recommendation rapid_result = "ALLOW"%string
      <-> suspicious_patterns rapid_result = []).
Proof.
  apply (temporal_flags_consistent 0 (repeat untimed_attempt 11) (8 / 10)).
  exact rapid_run.
Defined.

(** X15: a history with fewer than three attempts in the last 24 hours is
    never flagged: no pattern, risk LOW, recommendation ALLOW.  And a
    history none of whose rows records a failure (the [success] key is
    absent or true) never yields SUDDEN_SUCCESS_AFTER_FAILURES. *)
Theorem short_or_clean_history (now : Z) (recent_attempts : list attempt)
  (current_confidence : R) (r : temporal_result) :
  analyze_temporal_security_patterns now recent_attempts current_confidence = Ok r ->
  ((total_attempts_24h r < 3)%nat ->
   suspicious_patterns r = []
   /\ risk_level r = "LOW"%string
   /\ should_block r = false
   /\ should_require_additional_verification r = false
   /\ security_recommendation r = "ALLOW"%string)
  /\ (Forall (fun a => success a = None \/ success a = Some true) recent_attempts ->
      ~ In sudden_success_after_failures (suspicious_patterns r)).
Proof.
  intros Hrun.
  destruct (temporal_analysis_inversion now recent_attempts current_confidence r Hrun)
    as (_ & H24 & H1 & p2 & p3 & Hp & Hp2 & Hp3 & Hrisk & Hblock & Hreq & Hrec).
  pose proof (filter_length_le (counted now 3600) (counted now 86400)
                recent_attempts) as Hnest.
  assert (Himp : forall a, counted now 3600 a = true -> counted now 86400 a = true).
  { intros a. unfold counted.
    destruct (timestamp a) as [[t|t|]|]; try discriminate; [|reflexivity].
    intros H. apply Z.ltb_lt in H. apply Z.ltb_lt. lia. }
  specialize (Hnest Himp).
  split.
  - intros Hshort. rewrite H24 in Hshort.
    assert (Hfl : (List.length (filter failed
                     (filter (counted now 86400) recent_attempts))
                   <= List.length (filter (counted now 86400) recent_attempts))%nat).
    { clear. induction (filter (counted now 86400) recent_attempts) as [|a l IH];
        cbn [filter List.length]; [lia|].
      destruct (failed a); cbn [List.length]; lia. }
    assert (Hp2' : p2 = []) by (destruct Hp2 as [H|(_ & H & _)]; [exact H | lia]).
    assert (Hp3' : p3 = []) by (destruct Hp3 as [H|(_ & H & _)]; [exact H | lia]).
    assert (Hno : suspicious_patterns r = []).
    { rewrite Hp, Hp2', Hp3'.
      replace (10 <? List.length (filter (counted now 3600) recent_attempts))%nat
        with false; [reflexivity|].
      symmetry. apply Nat.ltb_ge. lia. }
    rewrite Hrec, Hrisk, Hblock, Hreq, Hno. repeat split; reflexivity.
  - intros Hclean Hin.
    assert (Hnone : filter failed (filter (counted now 86400) recent_attempts) = []).
    { clear - Hclean. induction Hclean as [|a l Ha _ IH]; [reflexivity|].
      cbn [filter]. destruct (counted now 86400 a); [|exact IH].
      cbn [filter]. unfold failed at 1.
      destruct Ha as [-> | ->]; cbn; exact IH. }
    destruct Hp3 as [-> | (_ & H3 & _)].
    + rewrite Hp in Hin. rewrite app_nil_r in Hin.
      apply in_app_or in Hin. destruct Hin as [Hin|Hin].
      * destruct (10 <? _)%nat in Hin; [|contradiction].
        destruct Hin as [Hin|[]]. discriminate.
      * destruct Hp2 as [-> | (-> & _)]; [contradiction|].
        destruct Hin as [Hin|[]]. discriminate.
    + rewrite Hnone in H3. cbn in H3. lia.
Qed.

Lemma two_failures_run :
  analyze_temporal_security_patterns 0 [failed_attempt; failed_attempt] (9 / 10)
  = Ok two_failures_result.
Proof. reflexivity. Qed.

Lemma four_successes_run :
  analyze_temporal_security_patterns 0 (repeat successful_attempt 4) (9 / 10)
  = Ok four_successes_result.
Proof. reflexivity. Qed.

Lemma short_or_clean_history_witness :
  (((total_attempts_24h two_failures_result < 3)%nat ->
    suspicious_patterns two_failures_result = []
    /\ risk_level two_failures_result = "LOW"%string
    /\ should_block two_failures_result = false
    /\ should_require_additional_verification two_failures_result = false
    /\ security_recommendation two_failures_result = "ALLOW"%string)
   /\ (Forall (fun a => success a = None \/ success a = Some true)
         [failed_attempt; failed_attempt] ->
       ~ In sudden_success_after_failures
           (suspicious_patterns two_failures_result)))
  /\ (((total_attempts_24h four_successes_result < 3)%nat ->
       suspicious_patterns four_successes_result = []
       /\ risk_level four_successes_result = "LOW"%string
       /\ should_block four_successes_result = false
       /\ should_require_additional_verification four_successes_result = false
       /\ security_recommendation four_successes_result = "ALLOW"%string)
      /\ (Forall (fun a => success a = None \/ success a = Some true)
            (repeat successful_attempt 4) ->
          ~ In sudden_success_after_failures
              (suspicious_patterns four_successes_result))).
Proof.
  split.
  - apply (short_or_clean_history 0 [failed_attempt; failed_attempt] (9 / 10)).
    exact two_failures_run.
  - apply (short_or_clean_history 0 (repeat successful_attempt 4) (9 / 10)).
    exact four_successes_run.
Defined.

End TemporalProperties.

(** ** The pipeline: what is recorded, and when *)

Section PipelineSafety.

Import AttendanceRouter RouterExamples.
Import FaceRecognitionService Spec Examples.
Open Scope R_scope.

(** X16: [mark_attendance] hands a record to the attendance table only
    when stored embeddings were loaded, the face matched, a supplied
    liveness sequence passed and the temporal analysis, if it returned, did
    not ask for a block; the record then carries the confidence of the
    face result.  A response with [success = True] carries an attendance
    id and follows such an insertion. *)
Theorem attendance_recorded_only_after_match
  (face_recognition_service : Face.service)
  (network_verification_service : Net.service)
  (req : request) (db : store) :
  let out :=
    mark_attendance face_recognition_service network_verification_service req db in
  (inserted out <> None ->
   exists data record,
     embeddings_query db = Ok data
     /\ load_embeddings data <> []
     /\ get_match (verify_faces face_recognition_service (live_image req)
                     (load_embeddings data)) = true
     /\ (forall f sequence,
           liveness_sequence req = Some (f :: sequence) ->
           get_liveness_passed
             (detect_liveness face_recognition_service (f :: sequence)) = true)
     /\ (forall r,
           temporal_step db
             (verify_faces face_recognition_service (live_image req)
                (load_embeddings data)) = Ok r ->
           should_block r = false)
     /\ inserted out = Some record
     /\ ar_confidence_score record
        = get_confidence (verify_faces face_recognition_service (live_image req)
                            (load_embeddings data)))
  /\ (forall resp,
        returned out = Ok resp -> resp_success resp = true ->
        inserted out <> None /\ attendance_id resp <> None
        /\ resp_message resp = AttendanceMarked).
Proof.
  cbv zeta. unfold mark_attendance.
  cbn [Net.verify_network_access Net.network_verified negb].
  destruct (liveness_sequence req) as [[|f fs]|] eqn:Hseq; cbn [andb].
  2: destruct (get_liveness_passed
                 (detect_liveness face_recognition_service (f :: fs))) eqn:Hlive;
     cbn [negb].
  3: { unfold failure. cbn [inserted returned]. split.
       - intros H. now elim H.
       - intros resp H. injection H as <-. discriminate. }
  all: destruct (embeddings_query db) as [[|record data']|x] eqn:Hq;
    try (unfold failure; cbn [inserted returned]; split;
         [intros H; now elim H | intros resp H; injection H as <-; discriminate]).
  all: set (rows := record :: data') in *;
    destruct (load_embeddings rows) as [|e stored] eqn:Hload;
    try (unfold failure; cbn [inserted returned]; split;
         [intros H; now elim H | intros resp H; injection H as <-; discriminate]).
  all: destruct (get_match (verify_faces face_recognition_service (live_image req)
                              (e :: stored))) eqn:Hmatch;
    try (unfold failure; cbn [inserted returned]; split;
         [intros H; now elim H | intros resp H; injection H as <-; discriminate]).
  all: unfold advanced_security_checks;
    destruct (temporal_step db
                (verify_faces face_recognition_service (live_image req)
                   (e :: stored))) as [r|err] eqn:Hstep.
  all: try destruct (should_block r) eqn:Hblock.
  all: try (unfold failure; cbn [inserted returned]; split;
         [intros H; now elim H | intros resp H; injection H as <-; discriminate]).
  all: try destruct (should_require_additional_verification r).
  all: unfold record_attendance; cbn [inserted returned]; split;
    [ intros _; exists rows; eexists; rewrite Hload;
      split; [reflexivity|]; split; [discriminate|]; split; [exact Hmatch|];
      split; [intros f' s' H'; try discriminate; injection H' as <- <-; assumption|];
      split; [intros r' Hr'; rewrite Hstep in Hr'; try discriminate;
              injection Hr' as <-; assumption|];
      split; reflexivity
    | intros resp H; destruct (attendance_insert db) as [[|id ids]|y];
      try discriminate; injection H as <-; cbn [resp_success];
      try discriminate; intros _; repeat split; discriminate || reflexivity ].
Qed.

End PipelineSafety.

Section PipelineBlocking.

Import AttendanceRouter RouterExamples.
Import FaceRecognitionService Spec Examples.
Open Scope R_scope.

(** The pipeline from step 4.5 on, once the earlier steps have passed. *)
Lemma pipeline_after_match
  (face_recognition_service : Face.service)
  (network_verification_service : Net.service)
  (req : request) (db : store) (data : list (column R)) :
  match liveness_sequence req with
  | Some ((_ :: _) as sequence) =>
      get_liveness_passed (detect_liveness face_recognition_service sequence) = true
  | _ => True
  end ->
  embeddings_query db = Ok data ->
  load_embeddings data <> [] ->
  get_match (verify_faces face_recognition_service (live_image req)
               (load_embeddings data)) = true ->
  exists vd network_result liveness_passed shown_liveness,
    vd_temporal_security vd = None
    /\ vd_additional_verification_recommended vd = false
    /\ vd_security_check_error vd = None
    /\ mark_attendance face_recognition_service network_verification_service
         req db
       = let face_result :=
           verify_faces face_recognition_service (live_image req)
             (load_embeddings data) in
         let '(vd', blocked) := advanced_security_checks db face_result vd in
         if blocked
         then failure TemporarilyBlocked vd' network_result shown_liveness
         else record_attendance req db network_result liveness_passed
                shown_liveness face_result vd'.
Proof.
  intros Hlive Hquery Hstored Hmatch. unfold mark_attendance.
  cbn [Net.verify_network_access Net.network_verified negb].
  assert (Hliveness :
    (match liveness_sequence req with
     | Some (_ :: _) => true
     | _ => false
     end
     && negb (get_liveness_passed
                match liveness_sequence req with
                | Some ((_ :: _) as sequence) =>
                    detect_liveness face_recognition_service sequence
                | _ => NoSequenceProvided
                end)) = false).
  { destruct (liveness_sequence req) as [[|f fs]|]; try reflexivity.
    rewrite Hlive. reflexivity. }
  rewrite Hliveness, Hquery.
  destruct data as [|record data']; [now elim Hstored|].
  set (rows := record :: data') in *.
  destruct (load_embeddings rows) as [|e stored] eqn:Hload; [now elim Hstored|].
  rewrite Hmatch.
  eexists _, _, _, _. split; [|split; [|split; [|reflexivity]]]; reflexivity.
Qed.

(** On well-formed timestamps the analyzer returns. *)
Lemma analysis_returns_on_well_timed (now : Z) (recent_attempts : list attempt)
  (current_confidence : R) :
  Forall well_timed recent_attempts ->
  exists r,
    analyze_temporal_security_patterns now recent_attempts current_confidence
    = Ok r.
Proof.
  intros Hw.
  destruct (analyze_temporal_security_patterns now recent_attempts
              current_confidence) as [r|err] eqn:Hrun; [now exists r|].
  exfalso. unfold analyze_temporal_security_patterns in Hrun.
  rewrite !filterM_within in Hrun by (assumption || lia). cbn [bind] in Hrun.
  set (failed_attempts :=
         filter failed (filter (counted now 86400) recent_attempts)) in *.
  assert (Hf : Forall well_timed failed_attempts).
  { unfold failed_attempts. now apply Forall_filter_weaken, Forall_filter_weaken. }
  destruct (mapM_parsed_time now failed_attempts Hf) as (times & Ht & Hl).
  destruct ((3 <=? List.length failed_attempts)%nat
            && Rgtb current_confidence (5 / 10)) eqn:Hcond; [|discriminate].
  rewrite Ht in Hrun. cbn [bind] in Hrun.
  destruct times as [|t ts]; [|discriminate].
  apply andb_prop in Hcond. destruct Hcond as [Hc _].
  apply Nat.leb_le in Hc. cbn [List.length] in Hl. lia.
Qed.

(** X17: more than ten attempts in the last hour block the pipeline.  When
    the earlier steps pass and the face matches, and the history returned
    by the store has well-formed timestamps with more than ten attempts
    counted in the last hour, the response is the temporary block, with
    [success = False], the analysis is attached to the details, and
    nothing is handed to the attendance table. *)
Theorem rapid_attempts_block_attendance
  (face_recognition_service : Face.service)
  (network_verification_service : Net.service)
  (req : request) (db : store) (data : list (column R))
  (recent_attempts : list attempt) :
  match liveness_sequence req with
  | Some ((_ :: _) as sequence) =>
      get_liveness_passed (detect_liveness face_recognition_service sequence) = true
  | _ => True
  end ->
  embeddings_query db = Ok data ->
  load_embeddings data <> [] ->
  get_match (verify_faces face_recognition_service (live_image req)
               (load_embeddings data)) = true ->
  attempts_query db = Ok recent_attempts ->
  Forall well_timed recent_attempts ->
  (10 < List.length (filter (counted (utcnow db) 3600) recent_attempts))%nat ->
  let out :=
    mark_attendance face_recognition_service network_verification_service req db in
  inserted out = None
  /\ exists resp r,
       returned out = Ok resp
       /\ resp_success resp = false
       /\ resp_message resp = TemporarilyBlocked
       /\ vd_temporal_security (resp_verification_details resp) = Some r
       /\ should_block r = true.
Proof.
  intros Hlive Hquery Hstored Hmatch Hattempts Hw Hten. cbv zeta.
  destruct (pipeline_after_match face_recognition_service
              network_verification_service req db data Hlive Hquery Hstored Hmatch)
    as (vd & net & lp & shown & _ & _ & _ & ->).
  cbv zeta. unfold advanced_security_checks, temporal_step.
  rewrite Hattempts. cbn [bind].
  set (conf := get_confidence _).
  destruct (analysis_returns_on_well_timed (utcnow db) recent_attempts conf Hw)
    as [r Hrun].
  rewrite Hrun.
  destruct (temporal_analysis_inversion (utcnow db) recent_attempts conf r Hrun)
    as (_ & _ & H1 & p2 & p3 & Hp & _ & _ & _ & Hblock & _).
  assert (Hb : should_block r = true).
  { rewrite Hblock, Hp.
    replace (10 <? List.length (filter (counted (utcnow db) 3600)
                                  recent_attempts))%nat with true
      by (symmetry; apply Nat.ltb_lt; exact Hten).
    reflexivity. }
  rewrite Hb. unfold failure. cbn [inserted returned].
  split; [reflexivity|]. eexists _, r. split; [reflexivity|].
  cbn. repeat split; try reflexivity. exact Hb.
Qed.

End PipelineBlocking.

Section PipelineRecommendations.

Import AttendanceRouter RouterExamples.
Import FaceRecognitionService Spec Examples.
Open Scope R_scope.

Lemma example_match :
  get_match (verify_faces init (live_image example_request)
               (load_embeddings [Native (ListValue [Some 1; Some 0])])) = true.
Proof.
  change (load_embeddings [Native (ListValue [Some 1; Some 0])]) with [unit_x].
  change (live_image example_request) with (Extracted unit_x).
  rewrite unit_verify_faces. exact unit_comparison_matches.
Qed.

Lemma rapid_attempts_block_attendance_witness :
  let out := mark_attendance init (campus_service []) example_request busy_store in
  inserted out = None
  /\ exists resp r,
       returned out = Ok resp
       /\ resp_success resp = false
       /\ resp_message resp = TemporarilyBlocked
       /\ vd_temporal_security (resp_verification_details resp) = Some r
       /\ should_block r = true.
Proof.
  apply (rapid_attempts_block_attendance init (campus_service []) example_request
           busy_store [Native (ListValue [Some 1; Some 0])]
           (repeat untimed_attempt 11)).
  - exact I.
  - reflexivity.
  - discriminate.
  - exact example_match.
  - reflexivity.
  - repeat constructor.
  - cbn. lia.
Defined.

(** X18: a recommendation of additional verification is recorded, not
    enforced.  When the earlier steps pass, the face matches and the
    temporal analysis returns without asking for a block, the attendance
    record is handed to the table whatever else the analysis found; when
    the insertion succeeds the response has [success = True], carries the
    analysis, and its flag [additional_verification_recommended] is the
    analyzer's [should_require_additional_verification]. *)
Theorem additional_verification_not_enforced
  (face_recognition_service : Face.service)
  (network_verification_service : Net.service)
  (req : request) (db : store) (data : list (column R)) (r : temporal_result) :
  match liveness_sequence req with
  | Some ((_ :: _) as sequence) =>
      get_liveness_passed (detect_liveness face_recognition_service sequence) = true
  | _ => True
  end ->
  embeddings_query db = Ok data ->
  load_embeddings data <> [] ->
  get_match (verify_faces face_recognition_service (live_image req)
               (load_embeddings data)) = true ->
  temporal_step db (verify_faces face_recognition_service (live_image req)
                      (load_embeddings data)) = Ok r ->
  should_block r = false ->
  let out :=
    mark_attendance face_recognition_service network_verification_service req db in
  inserted out <> None
  /\ (forall id ids, attendance_insert db = Ok (id :: ids) ->
        exists resp,
          returned out = Ok resp
          /\ resp_success resp = true
          /\ attendance_id resp = Some id
          /\ vd_temporal_security (resp_verification_details resp) = Some r
          /\ vd_additional_verification_recommended (resp_verification_details resp)
             = should_require_additional_verification r
          /\ vd_security_check_error (resp_verification_details resp) = None).
Proof.
  intros Hlive Hquery Hstored Hmatch Hstep Hblock. cbv zeta.
  destruct (pipeline_after_match face_recognition_service
              network_verification_service req db data Hlive Hquery Hstored Hmatch)
    as (vd & net & lp & shown & Hvd1 & Hvd2 & Hvd3 & ->).
  cbv zeta. unfold advanced_security_checks. rewrite Hstep, Hblock.
  destruct (should_require_additional_verification r) eqn:Hreq;
    unfold record_attendance; cbn [inserted returned];
    (split; [discriminate|]); intros id ids Hins; rewrite Hins;
    eexists; (split; [reflexivity|]); cbn;
    repeat split; try reflexivity; assumption.
Qed.

Lemma retry_step :
  temporal_step retry_store
    (verify_faces init (live_image example_request)
       (load_embeddings [Native (ListValue [Some 1; Some 0])]))
  = Ok retry_result.
Proof.
  change (load_embeddings [Native (ListValue [Some 1; Some 0])]) with [unit_x].
  change (live_image example_request) with (Extracted unit_x).
  rewrite unit_verify_faces.
  unfold temporal_step. cbn [attempts_query retry_store bind utcnow get_confidence].
  unfold analyze_temporal_security_patterns.
  cbn [repeat filterM within age timestamp failed_attempt bind].
  change ((0 - -60000000 <? 86400 * 1000000)%Z) with true.
  change ((0 - -60000000 <? 3600 * 1000000)%Z) with true.
  cbn [bind filter failed success negb List.length Nat.leb Nat.ltb andb
       truthy_confidence confidence_score map].
  assert (Hc : Rgtb (fr_confidence unit_comparison) (5 / 10) = true).
  { apply Rgtb_true. cbn. lra. }
  rewrite Hc.
  cbn [mapM parsed_time timestamp failed_attempt bind].
  change ((0 - Zmaxl (-60000000) [-60000000; -60000000] <? 600 * 1000000)%Z)
    with true.
  reflexivity.
Qed.

Lemma additional_verification_not_enforced_witness :
  let out := mark_attendance init (campus_service []) example_request retry_store in
  inserted out <> None
  /\ (forall id ids, attendance_insert retry_store = Ok (id :: ids) ->
        exists resp,
          returned out = Ok resp
          /\ resp_success resp = true
          /\ attendance_id resp = Some id
          /\ vd_temporal_security (resp_verification_details resp)
             = Some retry_result
          /\ vd_additional_verification_recommended (resp_verification_details resp)
             = should_require_additional_verification retry_result
          /\ vd_security_check_error (resp_verification_details resp) = None).
Proof.
  apply (additional_verification_not_enforced init (campus_service [])
           example_request retry_store [Native (ListValue [Some 1; Some 0])]
           retry_result).
  - exact I.
  - reflexivity.
  - discriminate.
  - exact example_match.
  - exact retry_step.
  - reflexivity.
Defined.

(** X19: the message chosen for a failed face verification agrees with the
    decision.  For the service as constructed, when the face does not match
    and the message is the image-quality one (raw similarity above 0.9),
    the comparison ran in override mode, the minimum baseline passed, and
    it is the final confidence that fell short of the relaxed threshold
    0.65 * 0.85. *)
Theorem image_quality_message_consistent (live_image : extraction)
  (stored_embeddings : list embedding) :
  get_match (verify_faces init live_image stored_embeddings) = false ->
  failure_message (verify_faces init live_image stored_embeddings)
  = FaceVerificationFailed ImageQuality ->
  exists c,
    verify_faces init live_image stored_embeddings = Compared c
    /\ fr_high_similarity_override c = true
    /\ check "Minimum baseline" c = true
    /\ check "Primary threshold" c = false
    /\ fr_confidence c < 65 / 100 * (85 / 100).
Proof.
  destruct (verify_faces init live_image stored_embeddings) as [t|err|c] eqn:Hv;
    unfold failure_message; cbn [get_match get_raw_similarity get_confidence].
  - discriminate.
  - intros _. replace (Rgtb 0 (9 / 10)) with false
      by (symmetry; apply Rgtb_false; lra).
    replace (Rgtb 0 (7 / 10)) with false by (symmetry; apply Rgtb_false; lra).
    destruct (Rgtb 0 (25 / 100) && Rltb 0 (5 / 10)); discriminate.
  - destruct (verify_faces_compared init live_image stored_embeddings c Hv)
      as (live & a & _ & Ha & ->).
    intros Hmatch Hmsg. eexists. split; [reflexivity|].
    revert Hmatch Hmsg.
    unfold check, security_validation.
    cbn [fr_match fr_raw_similarity fr_confidence fr_high_similarity_override
         fr_security_checks threshold consensus_threshold
         min_acceptable_threshold high_similarity_override init].
    destruct (Rgtb (cosine_similarity a) (9 / 10)) eqn:Hraw.
    + apply Rgtb_true in Hraw.
      replace (Rgeb (cosine_similarity a) (9 / 10)) with true
        by (symmetry; apply Rgeb_true; lra).
      replace (Rgeb (cosine_similarity a) (55 / 100)) with true
        by (symmetry; apply Rgeb_true; lra).
      destruct (Rgeb (final_confidence a) (65 / 100 * (85 / 100))) eqn:Hp.
      * cbn. discriminate.
      * apply Rgeb_false in Hp. intros _ _. cbn. repeat split; try reflexivity.
        exact Hp.
    + intros _.
      destruct (Rgtb (cosine_similarity a) (7 / 10)); [discriminate|].
      match goal with
      | |- context [Rgtb ?x (25 / 100) && Rltb ?x (5 / 10)] =>
          destruct (Rgtb x (25 / 100) && Rltb x (5 / 10))
      end; discriminate.
Qed.

End PipelineRecommendations.

Section MixedExample.

Import AttendanceRouter.
Import FaceRecognitionService Spec Examples.
Open Scope R_scope.

Lemma mixed_analysis_run :
  _advanced_similarity_analysis axis_three [axis_three; axis_four]
  = Ok mixed_analysis.
Proof.
  assert (H3 : magnitude axis_three = 3).
  { unfold magnitude, dot_product, axis_three.
    cbn [combine map Rsum fold_right fst snd]. apply sqrt_unique; lra. }
  assert (H4 : magnitude axis_four = 4).
  { unfold magnitude, dot_product, axis_four.
    cbn [combine map Rsum fold_right fst snd]. apply sqrt_unique; lra. }
  assert (Hc1 : cosine axis_three axis_three = 1).
  { apply cosine_self. apply Exists_cons_hd. lra. }
  assert (Hc2 : cosine axis_three axis_four = 0).
  { unfold cosine. rewrite H3, H4. unfold dot_product, axis_three, axis_four.
    cbn [combine map Rsum fold_right fst snd]. rewrite Rmax_left; lra. }
  assert (He2 : euclidean_similarity axis_three axis_four = 1 / 6).
  { unfold euclidean_similarity, euclidean_distance, axis_three, axis_four.
    cbn [combine map Rsum fold_right fst snd].
    rewrite (sqrt_unique _ 5) by lra. lra. }
  rewrite analysis_closed_form by (repeat constructor).
  unfold cosines, euclideans. cbn [map].
  rewrite Hc1, Hc2, He2, euclidean_similarity_self.
  f_equal.
  unfold statistics.
  assert (Hmean : mean [1; 0] = 1 / 2).
  { unfold mean. cbn [Rsum fold_right List.length INR]. lra. }
  assert (Hstd : std [1; 0] = 1 / 2).
  { unfold std, var. rewrite Hmean. unfold mean.
    cbn [map Rsum fold_right List.length INR]. apply sqrt_unique; lra. }
  assert (Hemean : mean [1; 1 / 6] = 7 / 12).
  { unfold mean. cbn [Rsum fold_right List.length INR]. lra. }
  assert (Hmax : maxl 1 [0] = 1).
  { unfold maxl. cbn [fold_left]. apply Rmax_left. lra. }
  assert (Hmin : minl 1 [0] = 0).
  { unfold minl. cbn [fold_left]. apply Rmin_right. lra. }
  rewrite Hmean, Hstd, Hemean, Hmax, Hmin.
  assert (Hvp : Rmin 1 (1 / 2 / (1 / 2 + 1 / 100000000) * 2) = 1).
  { apply Rmin_left. lra. }
  assert (Hrp : Rmin 1 ((1 - 0) * 3) = 1).
  { apply Rmin_left. lra. }
  rewrite Hvp, Hrp. replace (1 - 0) with 1 by lra. reflexivity.
Qed.

Lemma mixed_verify_faces :
  verify_faces init (Extracted axis_three) [axis_three; axis_four]
  = Compared mixed_comparison.
Proof.
  unfold verify_faces. cbn [testing_mode init].
  rewrite mixed_analysis_run. reflexivity.
Qed.

Lemma analysis_statistics_ordered_witness :
  0 <= cosine_min mixed_analysis
  /\ cosine_min mixed_analysis <= cosine_mean mixed_analysis
  /\ cosine_mean mixed_analysis <= cosine_similarity mixed_analysis
  /\ cosine_similarity mixed_analysis <= 1
  /\ cosine_range mixed_analysis
     = cosine_similarity mixed_analysis - cosine_min mixed_analysis
  /\ final_confidence mixed_analysis <= consensus_score mixed_analysis
  /\ consensus_score mixed_analysis
     <= 7 / 10 * cosine_similarity mixed_analysis + 3 / 10.
Proof.
  apply (analysis_statistics_ordered axis_three [axis_three; axis_four]
           mixed_analysis).
  exact mixed_analysis_run.
Defined.

Lemma mixed_comparison_rejected :
  fr_match mixed_comparison = false
  /\ fr_high_similarity_override mixed_comparison = true
  /\ fr_raw_similarity mixed_comparison = 1.
Proof.
  unfold mixed_comparison, security_validation, mixed_analysis.
  cbn [fr_match fr_high_similarity_override fr_raw_similarity
       cosine_similarity final_confidence consensus_score variance_penalty
       range_penalty threshold consensus_threshold min_acceptable_threshold
       high_similarity_override init].
  assert (H1 : Rgeb 1 (9 / 10) = true) by (apply Rgeb_true; lra).
  assert (H2 : Rgeb ((1 / 2 * (7 / 10) + 7 / 12 * (3 / 10))
                     * (1 - 1 * (3 / 10)) * (1 - 1 * (2 / 10)))
                 (65 / 100 * (85 / 100)) = false)
    by (apply Rgeb_false; lra).
  rewrite H1, H2. repeat split; reflexivity.
Qed.

Lemma image_quality_message_consistent_witness :
  exists c,
    verify_faces init (Extracted axis_three) [axis_three; axis_four] = Compared c
    /\ fr_high_similarity_override c = true
    /\ check "Minimum baseline" c = true
    /\ check "Primary threshold" c = false
    /\ fr_confidence c < 65 / 100 * (85 / 100).
Proof.
  apply (image_quality_message_consistent (Extracted axis_three)
           [axis_three; axis_four]).
  - rewrite mixed_verify_faces. apply mixed_comparison_rejected.
  - rewrite mixed_verify_faces. unfold failure_message.
    cbn [Face.get_raw_similarity].
    destruct mixed_comparison_rejected as (_ & _ & ->).
    replace (Rgtb 1 (9 / 10)) with true by (symmetry; apply Rgtb_true; lra).
    reflexivity.
Defined.

End MixedExample.

Section TestEndpoint.

Import AttendanceRouter.
Import FaceRecognitionService Spec Examples.
Open Scope R_scope.

Lemma load_embeddings_length {num : Type} (data : list (column num)) :
  (List.length (load_embeddings data) <= List.length data)%nat.
Proof.
  induction data as [|record data IH]; cbn [load_embeddings List.length]; [lia|].
  destruct (load_one record); cbn [List.length]; lia.
Qed.

(** X20: a completed face recognition test counts at least one valid
    embedding and no more valid embeddings than rows; the suggestion
    "Recognition looks good!" is never given together with another one;
    and with the service as constructed the status PASS always comes with
    that suggestion alone. *)
Theorem test_report_consistent (live_image : extraction)
  (query : result (list (column R))) (embeddings_count valid_embeddings : nat)
  (face_verification : face_result) (status : string)
  (suggestions : list (option string)) :
  test_face_recognition init live_image query
  = TestCompleted embeddings_count valid_embeddings face_verification status
      suggestions ->
  (0 < valid_embeddings <= embeddings_count)%nat
  /\ (nth 3 suggestions None <> None ->
      suggestions = [None; None; None; Some "Recognition looks good!"%string])
  /\ (status = "PASS"%string ->
      suggestions = [None; None; None; Some "Recognition looks good!"%string]).
Proof.
  unfold test_face_recognition.
  destruct query as [[|record data]|e]; try discriminate.
  destruct (load_embeddings (record :: data)) as [|e stored] eqn:Hl;
    [discriminate|].
  intros H. injection H as <- <- <- <- <-.
  pose proof (load_embeddings_length (record :: data)) as Hlen.
  rewrite Hl in Hlen.
  split; [cbn [List.length] in *; lia|].
  assert (Hgood : 3 / 10 < get_confidence (verify_faces init live_image (e :: stored)) ->
                  suggestions_for (get_confidence (verify_faces init live_image (e :: stored)))
                  = [None; None; None; Some "Recognition looks good!"%string]).
  { intros Hc. unfold suggestions_for.
    repeat match goal with
           | |- context [Rltb ?x ?y] =>
               replace (Rltb x y) with false
                 by (symmetry; apply Rltb_false; lra)
           end.
    replace (Rgtb _ (3 / 10)) with true by (symmetry; apply Rgtb_true; lra).
    reflexivity. }
  split.
  - intros Hn. apply Hgood. unfold suggestions_for in Hn. cbn [nth] in Hn.
    destruct (Rgtb _ (3 / 10)) eqn:Hg; [|contradiction].
    now apply Rgtb_true in Hg.
  - intros Hs. apply Hgood.
    destruct (get_match (verify_faces init live_image (e :: stored))) eqn:Hm;
      [|discriminate].
    pose proof (init_match_floor live_image (e :: stored) Hm). lra.
Qed.

Lemma test_report_consistent_witness :
  (0 < 1 <= 1)%nat
  /\ (nth 3 (suggestions_for (get_confidence (Compared unit_comparison))) None <> None ->
      suggestions_for (get_confidence (Compared unit_comparison))
      = [None; None; None; Some "Recognition looks good!"%string])
  /\ ("PASS"%string = "PASS"%string ->
      suggestions_for (get_confidence (Compared unit_comparison))
      = [None; None; None; Some "Recognition looks good!"%string]).
Proof.
  apply (test_report_consistent (Extracted unit_x)
           (Ok [Native (ListValue [Some 1; Some 0])]) 1 1
           (Compared unit_comparison) "PASS").
  unfold test_face_recognition.
  change (load_embeddings [Native (ListValue [Some 1; Some 0])]) with [unit_x].
  cbv beta iota.
  change (Face.verify_faces init (Extracted unit_x) _)
    with (verify_faces init (Extracted unit_x) [unit_x]).
  rewrite unit_verify_faces. cbn [Face.get_match Face.get_confidence].
  change (Face.fr_match unit_comparison) with (fr_match unit_comparison).
  rewrite unit_comparison_matches. reflexivity.
Defined.

End TestEndpoint.

Section TodaySummary.

Import AttendanceRouter.
Open Scope R_scope.

(** X21: in today's summary the two counts of passed checks never exceed
    the number of records; the first and the last attendance are reported
    exactly when there is a record; with no record the average confidence
    is 0; and with a single record the first and the last attendance are
    its timestamp and the average confidence is its confidence. *)
Theorem summary_consistent (records : list attendance_row) :
  let s := get_today_attendance_summary records in
  (network_verifications_passed s <= total_records s)%nat
  /\ (liveness_checks_passed s <= total_records s)%nat
  /\ (first_attendance s = None <-> total_records s = 0%nat)
  /\ (last_attendance s = None <-> total_records s = 0%nat)
  /\ (total_records s = 0%nat -> average_confidence s = 0)
  /\ (forall r,
        records = [r] ->
        first_attendance s = Some (row_timestamp r)
        /\ last_attendance s = Some (row_timestamp r)
        /\ average_confidence s = row_confidence_score r).
Proof.
  cbv zeta. unfold get_today_attendance_summary.
  cbn [network_verifications_passed liveness_checks_passed total_records
       first_attendance last_attendance average_confidence].
  split; [apply (filter_length_le row_location_verified row_location_verified);
          auto|].
  split; [apply (filter_length_le row_liveness_passed row_liveness_passed);
          auto|].
  destruct records as [|r0 rest].
  - cbn [List.length].
    split; [tauto|]. split; [tauto|]. split; [reflexivity|].
    intros r Hr. discriminate.
  - cbn [List.length].
    split; [split; discriminate|]. split; [split; discriminate|].
    split; [discriminate|].
    intros r Hr. injection Hr as -> ->.
    cbn [last map Num.Rsum fold_right List.length INR].
    repeat split; try reflexivity. field.
Qed.

End TodaySummary.

Section ClientAddress.

Import AttendanceRouter.
Import NetworkVerificationService.
Open Scope string_scope.

Lemma contains_cons_false (sep : ascii) (c : ascii) (s : string) :
  contains (String sep "") (String c s) = false ->
  Ascii.eqb c sep = false /\ contains (String sep "") s = false.
Proof.
  cbn [contains String.prefix]. intros H.
  apply orb_false_elim in H. destruct H as [Hp Hc].
  split; [|exact Hc].
  destruct (ascii_dec sep c) as [->|Hne].
  - destruct s; discriminate.
  - apply Ascii.eqb_neq. congruence.
Qed.

Lemma split_on_first (sep : ascii) (s rest : string) :
  contains (String sep "") s = false ->
  split_on sep (s ++ String sep rest) = s :: split_on sep rest.
Proof.
  induction s as [|c s IH]; intros H.
  - cbn [append split_on]. now rewrite Ascii.eqb_refl.
  - apply contains_cons_false in H. destruct H as [Hc Hs].
    cbn [append split_on]. rewrite Hc, (IH Hs). reflexivity.
Qed.

Lemma split_on_whole (sep : ascii) (s : string) :
  contains (String sep "") s = false -> split_on sep s = [s].
Proof.
  induction s as [|c s IH]; intros H.
  - reflexivity.
  - apply contains_cons_false in H. destruct H as [Hc Hs].
    cbn [split_on]. rewrite Hc, (IH Hs). reflexivity.
Qed.

(** X22: a forwarded header decides the client address.  When the header
    starts with a non-empty ASCII piece free of commas and of surrounding
    whitespace, alone or followed by a comma and anything, that piece is
    the address returned, whatever the other header and the connection's
    peer are. *)
Theorem forwarded_header_decides (s rest : string)
  (real_ip host : option string) :
  isascii s = true ->
  s <> "" -> strip s = s -> contains "," s = false ->
  get_client_ip {| x_forwarded_for := Some s;
                   x_real_ip := real_ip; client_host := host |} = s
  /\ get_client_ip {| x_forwarded_for := Some (s ++ String "," rest);
                      x_real_ip := real_ip; client_host := host |} = s.
Proof.
  intros _ Hne Hstrip Hcomma. unfold get_client_ip.
  cbn [x_forwarded_for x_real_ip client_host]. split.
  - destruct s as [|c s]; [contradiction|]. cbn [nonempty].
    rewrite (split_on_whole "," (String c s) Hcomma). exact Hstrip.
  - destruct s as [|c s]; [contradiction|]. cbn [append nonempty].
    change (String c (s ++ String "," rest))
      with (String c s ++ String "," rest).
    rewrite (split_on_first "," (String c s) rest Hcomma). exact Hstrip.
Qed.

Lemma forwarded_header_decides_witness :
  get_client_ip {| x_forwarded_for := Some "203.0.113.5";
                   x_real_ip := Some "10.0.0.7";
                   client_host := Some "192.168.43.20" |} = "203.0.113.5"
  /\ get_client_ip {| x_forwarded_for := Some ("203.0.113.5" ++ String "," " 10.1.1.1");
                      x_real_ip := Some "10.0.0.7";
                      client_host := Some "192.168.43.20" |} = "203.0.113.5".
Proof.
  apply (forwarded_header_decides "203.0.113.5" " 10.1.1.1"
           (Some "10.0.0.7") (Some "192.168.43.20")).
  - reflexivity.
  - discriminate.
  - reflexivity.
  - reflexivity.
Defined.

End ClientAddress.

Section NetworkRanges.

Import NetworkVerificationService RouterExamples.

Lemma land_netmask (ip p : N) :
  (p <= 32)%N -> (ip < 2 ^ 32)%N ->
  N.land ip (N.shiftl (N.ones p) (32 - p))
  = (ip / 2 ^ (32 - p) * 2 ^ (32 - p))%N.
Proof.
  intros Hp Hip. rewrite <- N.shiftr_div_pow2, <- N.shiftl_mul_pow2.
  apply N.bits_inj. intros i. rewrite N.land_spec.
  destruct (N.lt_ge_cases i (32 - p)) as [Hlo|Hhi].
  - rewrite !N.shiftl_spec_low by assumption. apply andb_false_r.
  - rewrite !N.shiftl_spec_high' by assumption. rewrite N.shiftr_spec'.
    replace (i - (32 - p) + (32 - p))%N with i by lia.
    destruct (N.lt_ge_cases (i - (32 - p)) p) as [Hin|Hout].
    + rewrite N.ones_spec_low by assumption. apply andb_true_r.
    + rewrite N.ones_spec_high by assumption. rewrite andb_false_r.
      symmetry. rewrite <- (N.mod_small ip (2 ^ 32)) by assumption.
      apply N.mod_pow2_bits_high. lia.
Qed.

(** Membership in a network that [ip_network] accepts is membership in an
    interval of addresses. *)
Lemma in_network_interval (ip : N) (net : ipv4_network) :
  is_network net = true -> (ip < 2 ^ 32)%N ->
  in_network ip net = true
  <-> (network_address net <= ip
       < network_address net + 2 ^ (32 - prefixlen net))%N.
Proof.
  unfold is_network, in_network, netmask. intros Hnet Hip.
  apply andb_prop in Hnet. destruct Hnet as [Hnet Hhost].
  apply andb_prop in Hnet. destruct Hnet as [Hp Ha].
  apply N.leb_le in Hp. apply N.ltb_lt in Ha. apply N.eqb_eq in Hhost.
  rewrite land_netmask in Hhost by assumption.
  rewrite land_netmask by assumption. rewrite N.eqb_eq.
  set (k := (2 ^ (32 - prefixlen net))%N) in *.
  assert (Hk : (0 < k)%N).
  { unfold k. apply N.neq_0_lt_0. apply N.pow_nonzero. lia. }
  set (a := network_address net) in *.
  pose proof (N.div_mod ip k ltac:(lia)) as Hdm.
  pose proof (N.mod_lt ip k ltac:(lia)) as Hlt.
  rewrite (N.mul_comm k) in Hdm.
  set (r := (ip mod k)%N) in *. set (q := (a / k)%N) in *.
  clearbody r q k.
  split.
  - intros H. rewrite H in Hdm. lia.
  - intros [Hlo Hhi]. rewrite <- Hhost. f_equal.
    symmetry. apply (N.div_unique ip k q (ip - q * k)).
    + rewrite Hhost. lia.
    + rewrite (N.mul_comm k), Hhost. lia.
Qed.

Lemma parse_octet_bound (s : string) (n : N) :
  parse_octet s = Some n -> (n <= 255)%N.
Proof.
  unfold parse_octet. destruct s as [|c s]; [discriminate|].
  destruct (3 <? String.length (String c s))%nat; [discriminate|].
  destruct (Ascii.eqb c "0" && negb (String.eqb s "")); [discriminate|].
  destruct (decimal (String c s) 0) as [m|]; [|discriminate].
  destruct (m <=? 255)%N eqn:Hm; [|discriminate].
  intros H. injection H as <-. now apply N.leb_le.
Qed.

Lemma ip_address_bound (s : string) (ip : N) :
  ip_address s = Some ip -> (ip < 2 ^ 32)%N.
Proof.
  unfold ip_address.
  assert (Hall : Forall (fun o => forall n, o = Some n -> (n <= 255)%N)
                   (map parse_octet (split_on "." s))).
  { apply Forall_map. apply Forall_forall. intros piece _ n.
    apply parse_octet_bound. }
  destruct (map parse_octet (split_on "." s))
    as [|[a|] [|[b|] [|[c|] [|[d|] [|? ?]]]]]; try discriminate.
  intros H. injection H as <-.
  inversion Hall as [|? ? Ha Hall1]; subst.
  inversion Hall1 as [|? ? Hb Hall2]; subst.
  inversion Hall2 as [|? ? Hc Hall3]; subst.
  inversion Hall3 as [|? ? Hd _]; subst.
  specialize (Ha a eq_refl). specialize (Hb b eq_refl).
  specialize (Hc c eq_refl). specialize (Hd d eq_refl).
  unfold ipv4. change (2 ^ 32)%N with 4294967296%N. lia.
Qed.

(** X23: for allowed ranges that [ip_network] accepts, the range check
    verifies a client address exactly when it is an IPv4 literal whose
    value lies between the network address of one of the ranges and that
    address plus 2^(32 - prefix length), the latter excluded. *)
Theorem ip_range_check_is_interval (self : service) (client_ip : string) :
  Forall (fun net => is_network net = true) (allowed_ip_ranges self) ->
  ip_check_verified (_verify_ip_range self client_ip) = true
  <-> exists ip net,
        ip_address client_ip = Some ip
        /\ In net (allowed_ip_ranges self)
        /\ (network_address net <= ip
            < network_address net + 2 ^ (32 - prefixlen net))%N.
Proof.
  intros Hwf. unfold _verify_ip_range.
  rewrite Forall_forall in Hwf.
  destruct (ip_address client_ip) as [ip|] eqn:Hip.
  - pose proof (ip_address_bound client_ip ip Hip) as Hb.
    destruct (find (in_network ip) (allowed_ip_ranges self)) as [net|] eqn:Hf;
      cbn [ip_check_verified].
    + split; [intros _|reflexivity].
      apply find_some in Hf. destruct Hf as [Hin Hnet].
      exists ip, net. split; [reflexivity|]. split; [exact Hin|].
      apply in_network_interval; auto.
    + split; [discriminate|]. intros (ip' & net & Heq & Hin & Hint).
      injection Heq as <-.
      pose proof (find_none _ _ Hf net Hin) as Hno.
      apply (in_network_interval ip net (Hwf net Hin) Hb) in Hint. congruence.
  - cbn [ip_check_verified]. split; [discriminate|].
    intros (ip & net & Heq & _). discriminate.
Qed.

Lemma ip_range_check_is_interval_witness :
  ip_check_verified (_verify_ip_range (campus_service []) "192.168.43.10") = true
  <-> exists ip net,
        ip_address "192.168.43.10" = Some ip
        /\ In net (allowed_ip_ranges (campus_service []))
        /\ (network_address net <= ip
            < network_address net + 2 ^ (32 - prefixlen net))%N.
Proof.
  apply (ip_range_check_is_interval (campus_service []) "192.168.43.10").
  repeat constructor.
Defined.

End NetworkRanges.

Section NetworkNames.

Import NetworkVerificationService.
Open Scope string_scope.

Lemma prefix_refl (s : string) : String.prefix s s = true.
Proof.
  induction s as [|c s IH]; cbn [String.prefix]; [reflexivity|].
  destruct (ascii_dec c c); [exact IH | congruence].
Qed.

Lemma contains_refl (s : string) : contains s s = true.
Proof.
  destruct s; cbn [contains]; [reflexivity|].
  now rewrite prefix_refl.
Qed.

Lemma contains_empty (s : string) : contains "" s = true.
Proof. destruct s; reflexivity. Qed.

Lemma verify_ssid_loop_spec (ssid_lower : string) (allowed : list string) :
  ssid_check_verified (_verify_ssid_loop ssid_lower allowed) = true
  <-> exists allowed_ssid,
        In allowed_ssid allowed
        /\ (contains (lower allowed_ssid) ssid_lower = true
            \/ contains ssid_lower (lower allowed_ssid) = true).
Proof.
  induction allowed as [|a allowed IH]; cbn [_verify_ssid_loop].
  - cbn [ssid_check_verified]. split; [discriminate | intros (? & [] & _)].
  - destruct (String.eqb ssid_lower (lower a)) eqn:He.
    + cbn [ssid_check_verified]. split; [intros _|reflexivity].
      apply String.eqb_eq in He. exists a. split; [now left|].
      left. rewrite He. apply contains_refl.
    + unfold _ssid_pattern_match.
      destruct (contains (lower a) ssid_lower || contains ssid_lower (lower a))
        eqn:Hp.
      * cbn [ssid_check_verified]. split; [intros _|reflexivity].
        exists a. split; [now left|]. now apply orb_prop.
      * rewrite IH. apply orb_false_elim in Hp. destruct Hp as [Hp1 Hp2].
        split.
        -- intros (b & Hin & Hb). exists b. split; [now right | exact Hb].
        -- intros (b & [<-|Hin] & Hb).
           ++ destruct Hb; congruence.
           ++ exists b. split; assumption.
Qed.

(** X24: for ASCII names, the SSID check verifies a name exactly when,
    ignoring case, it contains an allowed SSID or is contained in one; so
    every substring of an allowed SSID passes, and the empty name passes
    whenever one SSID is allowed. *)
Theorem ssid_check_is_substring_match (self : service) (ssid : string) :
  isascii ssid = true ->
  Forall (fun allowed_ssid => isascii allowed_ssid = true) (allowed_ssids self) ->
  (ssid_check_verified (_verify_ssid self ssid) = true
   <-> exists allowed_ssid,
         In allowed_ssid (allowed_ssids self)
         /\ (contains (lower allowed_ssid) (lower ssid) = true
             \/ contains (lower ssid) (lower allowed_ssid) = true))
  /\ (allowed_ssids self <> [] ->
      ssid_check_verified (_verify_ssid self "") = true).
Proof.
  intros _ _. unfold _verify_ssid. split.
  - apply verify_ssid_loop_spec.
  - intros Hne. apply verify_ssid_loop_spec.
    destruct (allowed_ssids self) as [|a rest]; [contradiction|].
    exists a. split; [now left|]. right. apply contains_empty.
Qed.

Lemma ssid_check_is_substring_match_witness :
  (ssid_check_verified
     (_verify_ssid
        {| allowed_ssids := ["Dhanush"; "KLU_Attendance"];
           allowed_ip_ranges := [] |} "klu") = true
   <-> exists allowed_ssid,
         In allowed_ssid ["Dhanush"; "KLU_Attendance"]
         /\ (contains (lower allowed_ssid) (lower "klu") = true
             \/ contains (lower "klu") (lower allowed_ssid) = true))
  /\ (["Dhanush"; "KLU_Attendance"] <> [] ->
      ssid_check_verified
        (_verify_ssid
           {| allowed_ssids := ["Dhanush"; "KLU_Attendance"];
              allowed_ip_ranges := [] |} "") = true).
Proof.
  apply (ssid_check_is_substring_match
           {| allowed_ssids := ["Dhanush"; "KLU_Attendance"];
              allowed_ip_ranges := [] |} "klu").
  - reflexivity.
  - repeat constructor.
Defined.

(** X25: an allowed SSID of ["*"] is no wildcard: a service that allows
    only ["*"] verifies exactly the empty name and the names that contain
    an asterisk. *)
Theorem star_is_not_a_wildcard (ranges : list ipv4_network) (ssid : string) :
  ssid_check_verified
    (_verify_ssid {| allowed_ssids := ["*"]; allowed_ip_ranges := ranges |} ssid)
  = true
  <-> ssid = "" \/ contains "*" (lower ssid) = true.
Proof.
  unfold _verify_ssid. cbn [allowed_ssids].
  rewrite verify_ssid_loop_spec. split.
  - intros (a & [<-|[]] & H). change (lower "*") with "*" in H.
    destruct H as [H|H]; [now right|].
    destruct ssid as [|c s]; [now left|]. right.
    cbn [lower] in H |- *. cbn [contains String.prefix] in H.
    destruct (ascii_dec (lower_char c) "*") as [Hc|Hc].
    + rewrite Hc. destruct (lower s); reflexivity.
    + destruct (lower s); discriminate.
  - intros [->|H]; exists "*"; (split; [now left|]).
    + right. reflexivity.
    + left. exact H.
Qed.

End NetworkNames.

Section SecurityScore.

Import NetworkVerificationService.
Open Scope Q_scope.

(** X26: the security score lies between 0 and 1 and is positive exactly
    when one of the three checks passed; hence the implementation after
    the bypass would verify the network exactly when its score is
    positive, while the bypass reports the score 1 with flags for which
    the scoring gives 0.8. *)
Theorem security_score_tracks_verification (is_private : N -> bool)
  (self : service) (info : network_info) (client_ip : string) :
  (forall ssid_v ip_v hotspot_v,
      0 <= _calculate_security_score ssid_v ip_v hotspot_v <= 1
      /\ (0 < _calculate_security_score ssid_v ip_v hotspot_v
          <-> ssid_v || ip_v
              || match hotspot_v with Some b => b | None => false end = true))
  /\ (network_verified (real_implementation is_private self info client_ip) = true
      <-> 0 < security_score (real_implementation is_private self info client_ip))
  /\ (let r := verify_network_access self info client_ip in
      security_score r == 1
      /\ _calculate_security_score (ssid_verified r) (ip_verified r)
           (hotspot_verified r) == 8 # 10).
Proof.
  assert (Hscore : forall ssid_v ip_v hotspot_v,
      0 <= _calculate_security_score ssid_v ip_v hotspot_v <= 1
      /\ (0 < _calculate_security_score ssid_v ip_v hotspot_v
          <-> ssid_v || ip_v
              || match hotspot_v with Some b => b | None => false end = true)).
  { intros [|] [|] [[|]|]; vm_compute;
      (split; [split; discriminate|]);
      (split; [intros H; first [reflexivity | discriminate H]
              | intros H; first [reflexivity | discriminate H]]). }
  split; [exact Hscore|]. split.
  - unfold real_implementation.
    destruct (String.eqb _ ""); destruct (_is_mobile_hotspot_pattern _);
      cbn [network_verified security_score];
      symmetry; apply Hscore.
  - cbv zeta. split; reflexivity.
Qed.

End SecurityScore.

Section Blink.

Import FaceRecognitionService.
Open Scope R_scope.

(** X27: the blink detector reports a blink for every sequence of fewer
    than three eye aspect ratios, and none for a constant sequence of
    three or more. *)
Theorem blink_needs_variation (eye_aspect_ratios : list R) (c : R) (n : nat) :
  ((List.length eye_aspect_ratios < 3)%nat ->
   _detect_blink eye_aspect_ratios = true)
  /\ _detect_blink (repeat c (3 + n)) = false.
Proof.
  unfold _detect_blink. split.
  - intros H. apply Nat.ltb_lt in H. now rewrite H.
  - rewrite repeat_length. cbn [Nat.add Nat.ltb Nat.leb].
    change (S (S (S n))) with (S (2 + n)).
    rewrite (std_repeat c (2 + n)). apply Rgtb_false. lra.
Qed.

End Blink.
